(** * Zeitgeist: fetch layer, deduplication engine and run loop

    A shallow embedding of [src/aggregator/article_fetcher.py],
    [src/aggregator/dedup_engine.py] and [src/scheduler/schedule.py], and the
    properties of the specification checked against it.

    Conventions of the embedding.
    - A Python [str] is a [string]; the text functions are read on ASCII
      text (a character is a byte).
    - A Python [int] is a [Z]; a time is a [Q] number of seconds, counted
      from 1970-01-01T00:00:00.
    - The score of the deduplicator is modelled twice.  [DedupEngine] has
      it as an exact rational [Q], for the properties that no rounding
      touches; [Binary64] has it as the binary64 number it is in Python,
      each operation rounded, for what the search returns.
    - An [async] function is run to completion: it takes the part of the
      world it talks to as an explicit argument [w] and returns what it
      returned or raised, the state it left behind, and the list of the
      effects it performed, in order.
      [DuringShutdown] has the one interleaving the statements need: a
      [shutdown()] run by the event loop while a batch fetch waits.
    - Log calls are not effects of the model. *)

From Stdlib Require Import ZArith QArith Lia Lqa Permutation Sorted Ascii.
From Stdlib Require Floats.
From stdpp Require Import base gmap strings list.

(* A decimal literal is read as the nearest binary64 number, as Python
   reads it. *)
Local Set Warnings "-inexact-float".

Local Open Scope Z_scope.

(** ** Python values shared by the three modules *)

Module Py.

(** The exception classes the code tells apart.  [CancelledError] derives
    from [BaseException] (Python 3.8 and later; the sources need at least
    3.10), every other class from [Exception]. *)
Inductive exn_class :=
| Exception_ | TimeoutError | TypeError | ValueError | IndexError
| AttributeError | CancelledError.

Record exn := Exn { exn_cls : exn_class; exn_msg : string }.

(** [isinstance(e, Exception)] *)
Definition is_Exception (e : exn) : bool :=
  match exn_cls e with
  | CancelledError => false
  | _ => true
  end.

(** What awaiting or calling something gives. *)
Inductive outcome (A : Type) :=
| Returned (a : A)
| Raised (e : exn).
Arguments Returned {A} a.
Arguments Raised {A} e.

Definition is_Returned {A} (o : outcome A) : bool :=
  match o with Returned _ => true | Raised _ => false end.

(** [try: body  except Exception: handler] where the handler only logs and
    yields [dflt]. *)
Definition except_Exception {A} (body : outcome A) (dflt : A) : outcome A :=
  match body with
  | Returned a => Returned a
  | Raised e => if is_Exception e then Returned dflt else Raised e
  end.

(** A returned value or an instance of [Exception]: anything but a
    cancellation. *)
Definition not_cancelled {A} (o : outcome A) : bool :=
  match o with
  | Returned _ => true
  | Raised e => is_Exception e
  end.

(** What names a topic in the run loop,
    [trend.title if hasattr(trend, 'title') else str(trend)]: the title of
    a [TrendingTopic]; or, for a trend that is a [str], as the fallback
    topics are, the bound method [title] that every [str] has. *)
Inductive topic_name :=
| Title (title : string)
| title_method (trend : string).

(** Observable effects. *)
Inductive event :=
| EvSleep (seconds : Q)                  (* asyncio.sleep *)
| EvGet (url : string)                   (* session.get *)
| EvSessionClose                         (* ClientSession.close *)
| EvCancel (task : nat)                  (* Task.cancel *)
| EvGather (timeout : Q) (expired : bool)(* wait_for(gather(...)) *)
| EvSchedulerShutdown                    (* AsyncIOScheduler.shutdown *)
| EvShutdownRequested                    (* _shutdown_requested = True *)
| EvTopicStart (i : nat) (topic : topic_name)
| EvTopicEnd (i : nat) (published : bool)
| EvPublish (topic : topic_name).

(** *** Text *)

(** [str.isspace] on one ASCII character: tab to carriage return, the four
    separators 0x1c-0x1f, and the space. *)
Definition isspace (c : ascii) : bool :=
  let n := N_of_ascii c in
  ((9 <=? n) && (n <=? 13) || (28 <=? n) && (n <=? 32))%N.

(** [str.lower] on ASCII. *)
Definition lower_char (c : ascii) : ascii :=
  let n := N_of_ascii c in
  if ((65 <=? n) && (n <=? 90))%N then ascii_of_N (n + 32) else c.

Fixpoint lower (s : string) : string :=
  match s with
  | EmptyString => EmptyString
  | String c r => String (lower_char c) (lower r)
  end.

(** [len(s)] *)
Definition len (s : string) : Z := Z.of_nat (String.length s).

(** [s.startswith(p)]; [after p s] is what follows [p]. *)
Fixpoint after (p s : string) : option string :=
  match p, s with
  | EmptyString, _ => Some s
  | String a p', String b s' => if Ascii.eqb a b then after p' s' else None
  | String _ _, EmptyString => None
  end.

Definition startswith (p s : string) : bool :=
  match after p s with Some _ => true | None => false end.

(** [p in s] *)
Fixpoint contains (p s : string) : bool :=
  startswith p s ||
  match s with
  | EmptyString => false
  | String _ r => contains p r
  end.

(** [s.split()]: the maximal runs of non-space characters. *)
Fixpoint split_go (cur : string) (s : string) : list string :=
  match s with
  | EmptyString =>
      match cur with EmptyString => [] | _ => [String.rev cur] end
  | String c r =>
      if isspace c
      then match cur with
           | EmptyString => split_go EmptyString r
           | _ => String.rev cur :: split_go EmptyString r
           end
      else split_go (String c cur) r
  end.

Definition split (s : string) : list string := split_go EmptyString s.

(** [sep.join(l)] *)
Fixpoint join (sep : string) (l : list string) : string :=
  match l with
  | [] => EmptyString
  | [x] => x
  | x :: r => x +:+ sep +:+ join sep r
  end.

(** No character of [s] is white space. *)
Fixpoint no_space (s : string) : bool :=
  match s with
  | EmptyString => true
  | String c r => negb (isspace c) && no_space r
  end.

(** [range(n)] for an [int] [n]. *)
Definition range (n : Z) : list Z := Z.of_nat <$> seq 0 (Z.to_nat n).

End Py.

Import Py.

(** ** [src/aggregator/article_fetcher.py] *)

Module ArticleFetcher.

(** [config.ScrapingConfig] *)
Record ScrapingConfig := {
  max_retries : Z;
  timeout : Z;
  wait_time : Z;
  max_sources_per_topic : Z;
  user_agent_rotation : bool
}.

Definition default_config : ScrapingConfig :=
  {| max_retries := 3; timeout := 180; wait_time := 5;
     max_sources_per_topic := 5; user_agent_rotation := true |}.

(** An [aiohttp.ClientSession]: the code reads its [closed] attribute. *)
Record ClientSession := { closed : bool }.

Module AsyncSessionManager.

Record t := {
  config : ScrapingConfig;
  _session : option ClientSession;
  _connector : option unit;
  _semaphore : option Z;          (* the permit count it was built with *)
  _is_closed : bool
}.

(** [__init__] *)
Definition init (c : ScrapingConfig) : t :=
  {| config := c; _session := None; _connector := None;
     _semaphore := None; _is_closed := true |}.

Definition _create_session (m : t) : t :=
  {| config := config m;
     _session := Some {| closed := false |};
     _connector := Some tt;
     _semaphore := _semaphore m;
     _is_closed := false |}.

Definition session_unusable (m : t) : bool :=
  match _session m with
  | None => true
  | Some s => closed s || _is_closed m
  end.

(** [get_session]: the state it leaves (the session it returns is the
    one in that state). *)
Definition get_session (m : t) : t :=
  if session_unusable m then _create_session m else m.

(** [get_semaphore], for a [max_sources_per_topic] that is not negative
    ([asyncio.Semaphore] raises [ValueError] for one that is). *)
Definition get_semaphore (m : t) : t :=
  match _semaphore m with
  | None =>
      {| config := config m; _session := _session m;
         _connector := _connector m;
         _semaphore := Some (max_sources_per_topic (config m));
         _is_closed := _is_closed m |}
  | Some _ => m
  end.

(** [close].  [w] is what awaiting [self._session.close()] gives.  The
    [finally] block runs whatever the body did. *)
Definition close (w : outcome unit) (m : t)
  : outcome unit * t * list event :=
  if _is_closed m then (Returned tt, m, [])
  else
    let body : outcome unit * list event :=
      match _session m with
      | Some s =>
          if negb (closed s) then
            match w with
            | Returned _ =>
                (Returned tt, [EvSessionClose; EvSleep (1 # 10)])
            | Raised e => (Raised e, [EvSessionClose])
            end
          else (Returned tt, [])
      | None => (Returned tt, [])
      end in
    (except_Exception (fst body) tt,
     {| config := config m; _session := None; _connector := None;
        _semaphore := _semaphore m; _is_closed := true |},
     snd body).

Definition is_session_active (m : t) : bool :=
  negb (_is_closed m) &&
  match _session m with
  | Some s => negb (closed s)
  | None => false
  end.

End AsyncSessionManager.

(** An [asyncio.Task] held in [_active_tasks]. *)
Record Task := { task_id : nat; done : bool }.

#[global] Instance Task_eq_dec : EqDecision Task.
Proof. solve_decision. Defined.

Module AsyncArticleFetcher.

Record t := {
  config : ScrapingConfig;
  session_manager : AsyncSessionManager.t;
  _active_tasks : list Task;
  _is_closed : bool
}.

Definition init (c : ScrapingConfig) : t :=
  {| config := c; session_manager := AsyncSessionManager.init c;
     _active_tasks := []; _is_closed := false |}.

Definition set_session_manager (f : t) (m : AsyncSessionManager.t) : t :=
  {| config := config f; session_manager := m;
     _active_tasks := _active_tasks f; _is_closed := _is_closed f |}.

(** What the world does during [cleanup]: whether the cancelled tasks
    are all gone within the 10 s grace period, and what closing the
    session gives. *)
Record cleanup_world := {
  grace_expired : bool;
  session_close : outcome unit
}.

(** [cleanup], when the wait for the cancelled tasks (l.312-316) ends
    or times out.  The flag is set and the tasks are cancelled before
    that wait; clearing [_active_tasks] and closing the session come
    after it. *)
Definition cleanup (w : cleanup_world) (f : t)
  : outcome unit * t * list event :=
  if _is_closed f then (Returned tt, f, [])
  else
    let cancels :=
      match _active_tasks f with
      | [] => []
      | tasks =>
          (EvCancel ∘ task_id <$> filter (λ k, done k = false) tasks)
          ++ [EvGather 10 (grace_expired w)]
      end in
    let '(r, m, tr) :=
      AsyncSessionManager.close (session_close w) (session_manager f) in
    let f' := {| config := config f; session_manager := m;
                 _active_tasks := []; _is_closed := true |} in
    match r with
    | Returned _ => (Returned tt, f', cancels ++ tr ++ [EvSleep (1 # 5)])
    | Raised e => (except_Exception (Raised e) tt, f', cancels ++ tr)
    end.

(** *** Fetching one article *)

(** What [session.get] answers for an article page: the status, and
    what newspaper's [Article] makes of the body ([article.title],
    [article.text]), or what reading and parsing the body raised. *)
Record Response := {
  status : Z;
  article : outcome (string * string)
}.

(** The network as one fetch sees it. *)
Record fetch_world := {
  (* str(response.url) of session.get(url, allow_redirects=True) *)
  resolve_get : string → outcome string;
  (* session.get(url, headers=...) of the given attempt *)
  article_get : string → Z → outcome Response
}.

Definition _resolve_google_news_url (w : fetch_world) (url : string)
  : outcome string * list event :=
  if negb (contains "news.google.com/rss/articles/" url)
  then (Returned url, [])
  else
    match resolve_get w url with
    | Returned final =>
        (Returned (if negb (contains "news.google.com" final)
                   then final else url), [EvGet url])
    | Raised e => (except_Exception (Raised e) url, [EvGet url])
    end.

(** A [str] used as a condition. *)
Definition truthy (s : string) : bool :=
  match s with EmptyString => false | _ => true end.

Definition _extract_with_aiohttp (w : fetch_world) (url : string)
    (attempt : Z) : outcome (string * string) :=
  match article_get w url attempt with
  | Raised e => Raised e
  | Returned response =>
      if negb (status response =? 200)
      then Returned ("Error: Non-200 response", "")
      else
        match article response with
        | Raised e => Raised e
        | Returned (title, text) =>
            if truthy title && truthy text && (len text >? 100)
            then Returned (title, text)
            else Returned ("Error: Failed to extract", "")
        end
  end.

(** The pause after a failed attempt. *)
Definition backoff (c : ScrapingConfig) (attempt : Z) : list event :=
  if attempt <? max_retries c - 1
  then [EvSleep (inject_Z (2 ^ attempt))] else [].

(** The [for attempt in range(max_retries)] loop of
    [extract_single_article]: [Some] of what an attempt returned from
    inside the loop, [None] when the loop ran out. *)
Fixpoint attempts (w : fetch_world) (c : ScrapingConfig)
    (resolved_url : string) (todo : list Z)
  : outcome (option (string * string)) * list event :=
  match todo with
  | [] => (Returned None, [])
  | attempt :: rest =>
      let again :=
        let '(r, tr) := attempts w c resolved_url rest in
        (r, EvGet resolved_url :: backoff c attempt ++ tr) in
      match _extract_with_aiohttp w resolved_url attempt with
      | Returned (title, content) =>
          if truthy content && (len content >? 100)
          then (Returned (Some (title, content)), [EvGet resolved_url])
          else again
      | Raised e =>
          if is_Exception e then again
          else (Raised e, [EvGet resolved_url])
      end
  end.

Section WithUrlparse.

(** [urllib.parse.urlparse(url).netloc], or the [ValueError] the
    library raises on a URL it refuses. *)
Variable urlparse_netloc : string → outcome string.

Definition _generate_fallback_content (url : string) : outcome string :=
  match urlparse_netloc url with
  | Returned domain =>
      Returned ("Content from " +:+ domain +:+
                " could not be extracted. Source: " +:+ url)
  | Raised e => Raised e
  end.

(** [extract_single_article], for a semaphore of at least one permit:
    waiting for it only delays the fetch.  ([asyncio.Semaphore] raises
    [ValueError] for a negative count, and a fetch never gets past a
    semaphore of no permit.) *)
Definition extract_single_article (w : fetch_world) (f : t)
    (url : string) : outcome (string * string) * t * list event :=
  if _is_closed f then (Returned ("Error: Fetcher closed", ""), f, [])
  else
    let f' :=
      set_session_manager f
        (AsyncSessionManager.get_session
           (AsyncSessionManager.get_semaphore (session_manager f))) in
    match _resolve_google_news_url w url with
    | (Raised e, tr) => (Raised e, f', tr)
    | (Returned resolved_url, tr) =>
        match attempts w (config f) resolved_url
                (range (max_retries (config f))) with
        | (Raised e, tr') => (Raised e, f', tr ++ tr')
        | (Returned (Some found), tr') => (Returned found, f', tr ++ tr')
        | (Returned None, tr') =>
            match _generate_fallback_content url with
            | Returned content =>
                (Returned ("Error: Extraction failed", content),
                 f', tr ++ tr')
            | Raised e => (Raised e, f', tr ++ tr')
            end
        end
    end.

(** *** Fetching a batch *)

(** One task of a batch, as the event loop sees it: when it is done
    ([None]: never), and the network it talks to. *)
Record task_run := {
  finishes : option Q;
  network : fetch_world
}.

Definition done_before (deadline : Q) (k : task_run) : bool :=
  match finishes k with
  | Some at_ => negb (Qle_bool deadline at_)
  | None => false
  end.

(** The tasks [_extract_with_url(url)] of a batch, started in the
    order of [urls]: for each one its run and what awaiting it gives,
    and the fetcher as they leave it. *)
Fixpoint run_tasks (run : nat → string → task_run) (i : nat) (f : t)
    (urls : list string)
  : list (task_run * outcome (string * string)) * t :=
  match urls with
  | [] => ([], f)
  | url :: rest =>
      let k := run i url in
      let '(r, f1, _) := extract_single_article (network k) f url in
      let '(tasks, f2) := run_tasks run (S i) f1 rest in
      ((k, r) :: tasks, f2)
  end.

(** [_process_results]; [i] is the index [enumerate] has reached.  An
    element of [results] is a returned pair or an exception object. *)
Fixpoint _process_results_from (i : nat) (urls : list string)
    (results : list (outcome (string * string)))
  : outcome (list (string * string * string)) :=
  match results with
  | [] => Returned []
  | result :: rest =>
      match urls !! i with
      | None => Raised (Exn IndexError "list index out of range")
      | Some url =>
          let item :=
            match result with
            | Raised e =>
                if is_Exception e
                then Returned (url, "Error: Task failed", "")
                else Raised (Exn TypeError "object is not subscriptable")
            | Returned (title, content) => Returned (url, title, content)
            end in
          match item with
          | Raised e => Raised e
          | Returned x =>
              match _process_results_from (S i) urls rest with
              | Returned xs => Returned (x :: xs)
              | Raised e => Raised e
              end
          end
      end
  end.

Definition _process_results := _process_results_from 0.

(** Indices of the tasks that are not done at the deadline. *)
Definition pending_at (deadline : Q)
    (tasks : list (task_run * outcome (string * string))) : list nat :=
  (λ ik, ik.1) <$>
    filter (λ ik, done_before deadline ik.2.1 = false) (imap pair tasks).

(** [extract_multiple_articles].  [gather(..., return_exceptions=True)]
    gives one value per task, in the order of the tasks, once all of
    them are done; [wait_for] raises [TimeoutError] if that is not
    before 300 s.  The trace holds the effects of the batch itself, not
    those of its tasks. *)
Definition extract_multiple_articles (run : nat → string → task_run)
    (f : t) (urls : list string)
  : outcome (list (string * string * string)) * t * list event :=
  if _is_closed f then (Returned [], f, [])
  else
    let '(tasks, f') := run_tasks run 0 f urls in
    let '(results, tr) :=
      if forallb (done_before 300) (fst <$> tasks)
      then (snd <$> tasks, [EvGather 300 false])
      else ((λ _, Raised (Exn Exception_ "Timeout")) <$> tasks,
            EvGather 300 true :: (EvCancel <$> pending_at 300 tasks)) in
    (_process_results urls results, f', tr).

End WithUrlparse.

(** The common case of [urlparse(url).netloc], for running the model:
    a scheme (a letter, then letters, digits, [+], [-] and [.]) up to
    the first [:], then [//], then the authority up to the first [/],
    [?] or [#]; an authority with one square bracket and not the other
    is refused. *)
Definition scheme_char (c : ascii) : bool :=
  let n := N_of_ascii c in
  ((97 <=? n) && (n <=? 122) || (65 <=? n) && (n <=? 90) ||
   (48 <=? n) && (n <=? 57) ||
   (n =? 43) || (n =? 45) || (n =? 46))%N.

Definition alpha (c : ascii) : bool :=
  let n := N_of_ascii c in
  ((97 <=? n) && (n <=? 122) || (65 <=? n) && (n <=? 90))%N.

Fixpoint skip_scheme (s : string) : option string :=
  match s with
  | EmptyString => None
  | String c r =>
      if Stdlib.Strings.Ascii.eqb c ":" then Some r
      else if scheme_char c then skip_scheme r else None
  end.

Fixpoint authority (s : string) : string :=
  match s with
  | EmptyString => EmptyString
  | String c r =>
      if Stdlib.Strings.Ascii.eqb c "/" || Stdlib.Strings.Ascii.eqb c "?"
         || Stdlib.Strings.Ascii.eqb c "#"
      then EmptyString else String c (authority r)
  end.

Definition netloc (url : string) : outcome string :=
  let rest :=
    match url with
    | String c _ =>
        if alpha c
        then match skip_scheme url with Some r => r | None => url end
        else url
    | EmptyString => url
    end in
  match Py.after "//" rest with
  | Some r =>
      let host := authority r in
      if xorb (contains "[" host) (contains "]" host)
      then Raised (Exn ValueError "Invalid IPv6 URL")
      else Returned host
  | None => Returned ""
  end.

End AsyncArticleFetcher.

End ArticleFetcher.

(** ** [src/aggregator/dedup_engine.py] *)

Module DedupEngine.

Definition STOP_WORDS : list string := [
  "the"; "a"; "an"; "and"; "or"; "but"; "in"; "on"; "at"; "to"; "for"; "of";
  "with"; "by"; "from"; "up"; "about"; "into"; "through"; "during"; "before";
  "after"; "above"; "below"; "under"; "between"; "among"; "amongst";
  "throughout"; "within"; "without"; "toward"; "towards"; "until"; "unless";
  "since"; "while"; "because"; "although"; "though"; "if"; "whether"; "when";
  "where"; "who"; "whom"; "whose"; "which"; "what"; "how"; "why"; "this";
  "that"; "these"; "those"; "i"; "you"; "he"; "she"; "it"; "we"; "they"; "me";
  "him"; "her"; "us"; "them"; "my"; "your"; "his"; "her"; "its"; "our";
  "their"; "mine"; "yours"; "hers"; "ours"; "theirs" ].

Record ContentFingerprint := {
  content_hash : string;
  title_hash : string;
  similarity_hash : string;
  word_count : Z;
  timestamp : Q;                (* seconds *)
  title : string;
  url : string
}.

(** A [dict] keyed by strings keeps the order of insertion; assigning to
    a key that is there keeps its place. *)
Fixpoint dict_set {V} (k : string) (v : V) (d : list (string * V))
  : list (string * V) :=
  match d with
  | [] => [(k, v)]
  | (k', v') :: r =>
      if String.eqb k k' then (k, v) :: r else (k', v') :: dict_set k v r
  end.

Definition dict_pop {V} (k : string) (d : list (string * V))
  : list (string * V) :=
  filter (λ kv, String.eqb k kv.1 = false) d.

Definition dict_values {V} (d : list (string * V)) : list V := snd <$> d.

(** *** The regular expressions *)

(** [re.sub(r'[#*\[\]()]', '', s)] *)
Definition markdown_char (c : ascii) : bool :=
  existsb (Stdlib.Strings.Ascii.eqb c) ["#"; "*"; "["; "]"; "("; ")"]%char.

Fixpoint strip_markdown (s : string) : string :=
  match s with
  | EmptyString => EmptyString
  | String c r =>
      if markdown_char c then strip_markdown r
      else String c (strip_markdown r)
  end.

(** [://\S+] matches at the head of [s]. *)
Definition url_tail (s : string) : bool :=
  match after "://" s with
  | Some (String c _) => negb (isspace c)
  | _ => false
  end.

(** [http[s]?://\S+] matches at the head of [s]. *)
Definition url_at (s : string) : bool :=
  match after "http" s with
  | Some r =>
      match after "s" r with
      | Some r' => url_tail r' || url_tail r
      | None => url_tail r
      end
  | None => false
  end.

(** [re.search(r'http[s]?://\S+', s) is not None] *)
Fixpoint has_url (s : string) : bool :=
  url_at s ||
  match s with
  | EmptyString => false
  | String _ r => has_url r
  end.

(** [re.sub(r'http[s]?://\S+', '', s)].  A match runs from its [h] to
    the next white space, since none of its own characters is one;
    [in_match] tells that the scan is inside a match. *)
Fixpoint strip_urls_go (in_match : bool) (s : string) : string :=
  match s with
  | EmptyString => EmptyString
  | String c r =>
      if in_match
      then if isspace c then String c (strip_urls_go false r)
           else strip_urls_go true r
      else if url_at s then strip_urls_go true r
           else String c (strip_urls_go false r)
  end.

Definition strip_urls : string → string := strip_urls_go false.

(** [re.sub(r'\s+', ' ', s)] *)
Fixpoint collapse_spaces_go (in_run : bool) (s : string) : string :=
  match s with
  | EmptyString => EmptyString
  | String c r =>
      if isspace c
      then if in_run then collapse_spaces_go true r
           else String " " (collapse_spaces_go true r)
      else String c (collapse_spaces_go false r)
  end.

Definition collapse_spaces : string → string := collapse_spaces_go false.

(** [\w] on ASCII: letters, digits and the underscore. *)
Definition word_char (c : ascii) : bool :=
  let n := N_of_ascii c in
  ((97 <=? n) && (n <=? 122) || (65 <=? n) && (n <=? 90) ||
   (48 <=? n) && (n <=? 57) || (n =? 95))%N.

(** [re.sub(r'[^\w\s]', '', s)] *)
Fixpoint strip_punctuation (s : string) : string :=
  match s with
  | EmptyString => EmptyString
  | String c r =>
      if word_char c || isspace c then String c (strip_punctuation r)
      else strip_punctuation r
  end.

Definition _normalize_text (text : string) : string :=
  let text := lower text in
  let text := collapse_spaces text in
  let text := strip_punctuation text in
  let words :=
    filter (λ word, existsb (String.eqb word) STOP_WORDS = false
                     ∧ (len word >? 2) = true) (split text) in
  join " " words.

(** [sorted(set(l))] for strings. *)
Fixpoint insert_sorted (x : string) (l : list string) : list string :=
  match l with
  | [] => [x]
  | y :: r =>
      match String.compare x y with
      | Lt => x :: l
      | Eq => l
      | Gt => y :: insert_sorted x r
      end
  end.

Definition sorted_set (l : list string) : list string :=
  foldr insert_sorted [] l.

(** [{' '.join(words[i:i+3]) for i in range(len(words) - 2)}], as the
    list of its elements in the order of [i]. *)
Definition shingles (words : list string) : list string :=
  (λ i, join " " (take 3 (drop (Z.to_nat i) words)))
    <$> range (Z.of_nat (length words) - 2).

Section WithLibraries.

(** [hashlib.sha256(s.encode()).hexdigest()], [hashlib.md5(...)] the
    same way, and [difflib.SequenceMatcher(None, a, b).ratio()]. *)
Variable sha256 : string → string.
Variable md5 : string → string.
Variable ratio : string → string → Q.

Definition _create_similarity_hash (text : string) : string :=
  let normalized := _normalize_text text in
  let words := split normalized in
  md5 (join "|" (sorted_set (shingles words))).

(** [now] is [datetime.now()]. *)
Definition _create_content_fingerprint (now : Q)
    (title content url : string) : ContentFingerprint :=
  let clean_content := strip_markdown content in
  let clean_content := strip_urls clean_content in
  {| content_hash := sha256 clean_content;
     title_hash := sha256 (lower title);
     similarity_hash := _create_similarity_hash clean_content;
     word_count := Z.of_nat (length (split clean_content));
     timestamp := now;
     title := title;
     url := url |}.

(** The deduplicator, with the file [FINGERPRINT_FILE] it loads from
    and saves to ([None]: there is no file). *)
Record ContentDeduplicator := {
  similarity_threshold : Q;
  fingerprints : list (string * ContentFingerprint);
  title_cache : gset string;
  content_cache : gset string;
  FINGERPRINT_FILE : option (list ContentFingerprint)
}.

Definition _add_to_cache (fp : ContentFingerprint)
    (s : ContentDeduplicator) : ContentDeduplicator :=
  {| similarity_threshold := similarity_threshold s;
     fingerprints := dict_set (content_hash fp) fp (fingerprints s);
     title_cache := {[ title_hash fp ]} ∪ title_cache s;
     content_cache := {[ content_hash fp ]} ∪ content_cache s;
     FINGERPRINT_FILE := FINGERPRINT_FILE s |}.

Definition _remove_from_cache (fp : ContentFingerprint)
    (s : ContentDeduplicator) : ContentDeduplicator :=
  {| similarity_threshold := similarity_threshold s;
     fingerprints := dict_pop (content_hash fp) (fingerprints s);
     title_cache := title_cache s ∖ {[ title_hash fp ]};
     content_cache := content_cache s ∖ {[ content_hash fp ]};
     FINGERPRINT_FILE := FINGERPRINT_FILE s |}.

(** [_save_fingerprints]; [written] tells whether writing the file
    went through (a failure is logged and nothing else happens). *)
Definition _save_fingerprints (written : bool) (s : ContentDeduplicator)
  : ContentDeduplicator :=
  if written then
    {| similarity_threshold := similarity_threshold s;
       fingerprints := fingerprints s;
       title_cache := title_cache s;
       content_cache := content_cache s;
       FINGERPRINT_FILE := Some (dict_values (fingerprints s)) |}
  else s.

(** [__init__] with [_load_fingerprints] on the file found. *)
Definition init (threshold : Q) (file : option (list ContentFingerprint))
  : ContentDeduplicator :=
  foldl (λ s fp, _add_to_cache fp s)
    {| similarity_threshold := threshold; fingerprints := [];
       title_cache := ∅; content_cache := ∅; FINGERPRINT_FILE := file |}
    (default [] file).

Definition is_duplicate_title (s : ContentDeduplicator) (title : string)
  : bool :=
  bool_decide (sha256 (lower title) ∈ title_cache s).

Definition is_duplicate_content (s : ContentDeduplicator)
    (content : string) : bool :=
  let clean_content := strip_markdown content in
  bool_decide (sha256 clean_content ∈ content_cache s).

(** [sum(metric * weight for metric, weight in zip(metrics, weights))] *)
Definition weighted_sum (metrics weights : list Q) : Q :=
  foldl Qplus 0%Q (uncurry Qmult <$> zip metrics weights).

Definition length_similarity (new_fp existing_fp : ContentFingerprint)
  : Q :=
  let word_count_diff :=
    Z.abs (word_count existing_fp - word_count new_fp) in
  let max_word_count :=
    Z.max (word_count existing_fp) (word_count new_fp) in
  if max_word_count >? 0
  then (1 - inject_Z word_count_diff / inject_Z max_word_count)%Q
  else 0%Q.

Definition _calculate_similarity (new_fp existing_fp : ContentFingerprint)
    (title_ : string) : Q :=
  let similarity_metrics := [
    if String.eqb (similarity_hash new_fp) (similarity_hash existing_fp)
    then 1%Q else 0%Q;
    ratio (lower title_) (lower (title existing_fp));
    length_similarity new_fp existing_fp ] in
  let weights := [5 # 10; 3 # 10; 2 # 10]%Q in
  weighted_sum similarity_metrics weights.

(** [list.sort(key=..., reverse=True)] is stable: among equal scores
    the earlier element stays first. *)
Fixpoint insert_by_score (x : ContentFingerprint * Q)
    (l : list (ContentFingerprint * Q)) : list (ContentFingerprint * Q) :=
  match l with
  | [] => [x]
  | y :: r =>
      if Qle_bool y.2 x.2 then x :: l else y :: insert_by_score x r
  end.

Definition sort_by_score_desc (l : list (ContentFingerprint * Q))
  : list (ContentFingerprint * Q) :=
  foldr insert_by_score [] l.

Definition find_similar_content (now : Q) (s : ContentDeduplicator)
    (title_ content : string) : list (ContentFingerprint * Q) :=
  let fingerprint := _create_content_fingerprint now title_ content "" in
  let similar_content :=
    omap (λ existing_fp,
            if String.eqb (content_hash existing_fp)
                 (content_hash fingerprint)
            then None
            else
              let similarity_score :=
                _calculate_similarity fingerprint existing_fp title_ in
              if Qle_bool (similarity_threshold s) similarity_score
              then Some (existing_fp, similarity_score)
              else None)
      (dict_values (fingerprints s)) in
  sort_by_score_desc similar_content.

(** What [add_content] meets: the clock, and whether the file can be
    written. *)
Record world := { now : Q; written : bool }.

Definition add_content (w : world) (s : ContentDeduplicator)
    (title_ content url_ : string) : bool * ContentDeduplicator :=
  let fingerprint :=
    _create_content_fingerprint (now w) title_ content url_ in
  if bool_decide (content_hash fingerprint ∈ content_cache s)
  then (false, s)
  else if bool_decide (title_hash fingerprint ∈ title_cache s)
  then (false, s)
  else
    match find_similar_content (now w) s title_ content with
    | _ :: _ => (false, s)
    | [] =>
        (true, _save_fingerprints (written w) (_add_to_cache fingerprint s))
    end.

(** [cleanup_old_fingerprints], for a number of days with which the
    cutoff [datetime.now() - timedelta(days=days)] is a [datetime] (the
    subtraction raises [OverflowError] otherwise); a day is 86400 s. *)
Definition cleanup_old_fingerprints (w : world) (days : Z)
    (s : ContentDeduplicator) : ContentDeduplicator :=
  let cutoff := (now w - inject_Z (days * 86400))%Q in
  let old_fingerprints :=
    filter (λ fp, Qle_bool cutoff (timestamp fp) = false)
      (dict_values (fingerprints s)) in
  let s' := foldl (λ s fp, _remove_from_cache fp s) s old_fingerprints in
  match old_fingerprints with
  | [] => s'
  | _ => _save_fingerprints (written w) s'
  end.

End WithLibraries.

End DedupEngine.

(** ** The score of [dedup_engine.py] in binary64 *)

(** A Python [float] is a binary64 number, and so is a [PrimFloat.float];
    the operations of both round to nearest, ties to even.  This module
    has the part of [ContentDeduplicator] that computes with floats, in
    that arithmetic. *)
Module Binary64.

Import PrimFloat DedupEngine.

(** [float(n)] for an [int] from 0 to 2^63 - 1; exact below 2^53.  The
    quotient [a / b] of two such [int] below 2^53 is that of their
    floats. *)
Definition float_of_int (n : Z) : float := of_uint63 (Uint63.of_Z n).

(** What [find_similar_content] reads of [self]. *)
Record ContentDeduplicator := {
  similarity_threshold : float;
  fingerprints : list (string * ContentFingerprint)
}.

(** [__init__(self, similarity_threshold: float = 0.8)], with the
    dictionary [_load_fingerprints] makes of the file found; [None] is
    an argument that is not given. *)
Definition init (similarity_threshold_ : option float)
    (file : option (list ContentFingerprint)) : ContentDeduplicator :=
  {| similarity_threshold := default 0.8%float similarity_threshold_;
     fingerprints :=
       foldl (λ d fp, dict_set (content_hash fp) fp d) [] (default [] file) |}.


Section WithLibraries.

Variable sha256 : string → string.
Variable md5 : string → string.
(** [SequenceMatcher(None, a, b).ratio()] *)
Variable ratio : string → string → float.

(** [sum(metric * weight for metric, weight in zip(metrics, weights))]:
    [sum] starts from the [int] 0 and adds the products one by one, from
    the left, as CPython does up to version 3.11 (from 3.12 on it carries
    a correction term along a sum of floats). *)
Definition weighted_sum (metrics weights : list float) : float :=
  foldl add 0%float (uncurry mul <$> zip metrics weights).


Definition length_similarity (new_fp existing_fp : ContentFingerprint)
  : float :=
  let word_count_diff :=
    Z.abs (word_count existing_fp - word_count new_fp) in
  let max_word_count :=
    Z.max (word_count existing_fp) (word_count new_fp) in
  if max_word_count >? 0
  then (1 - float_of_int word_count_diff / float_of_int max_word_count)%float
  else 0%float.

Definition _calculate_similarity (new_fp existing_fp : ContentFingerprint)
    (title_ : string) : float :=
  let similarity_metrics := [
    if String.eqb (similarity_hash new_fp) (similarity_hash existing_fp)
    then 1%float else 0%float;
    ratio (lower title_) (lower (title existing_fp));
    length_similarity new_fp existing_fp ] in
  let weights := [0.5; 0.3; 0.2]%float in
  weighted_sum similarity_metrics weights.

(** [list.sort(key=..., reverse=True)], for scores none of which is a
    NaN: it is stable, among equal scores the earlier element stays
    first. *)
Fixpoint insert_by_score (x : ContentFingerprint * float)
    (l : list (ContentFingerprint * float))
  : list (ContentFingerprint * float) :=
  match l with
  | [] => [x]
  | y :: r =>
      if (y.2 <=? x.2)%float then x :: l else y :: insert_by_score x r
  end.

Definition sort_by_score_desc (l : list (ContentFingerprint * float))
  : list (ContentFingerprint * float) :=
  foldr insert_by_score [] l.

Definition find_similar_content (now : Q) (s : ContentDeduplicator)
    (title_ content : string) : list (ContentFingerprint * float) :=
  let fingerprint :=
    _create_content_fingerprint sha256 md5 now title_ content "" in
  let similar_content :=
    omap (λ existing_fp,
            if String.eqb (content_hash existing_fp)
                 (content_hash fingerprint)
            then None
            else
              let similarity_score :=
                _calculate_similarity fingerprint existing_fp title_ in
              if (similarity_threshold s <=? similarity_score)%float
              then Some (existing_fp, similarity_score)
              else None)
      (dict_values (fingerprints s)) in
  sort_by_score_desc similar_content.

End WithLibraries.

End Binary64.

(** ** [src/scheduler/schedule.py] *)

Module Schedule.

Import ArticleFetcher.

(** [src.trends.detect.FALLBACK_TOPICS] *)
Definition FALLBACK_TOPICS : list string := [
  "Artificial Intelligence breakthroughs";
  "Climate change solutions";
  "Technology innovations";
  "Space exploration updates";
  "Healthcare advances";
  "Economic trends";
  "Cybersecurity developments";
  "Renewable energy progress";
  "Social media trends";
  "Digital transformation" ].

(** An entry of [stats['errors']]. *)
Record ErrorRecord := {
  topic : topic_name;
  error : string;
  timestamp : Q;
  traceback : string
}.

(** [BlogScheduler.stats] *)
Record Stats := {
  total_runs : Z;
  successful_posts : Z;
  failed_posts : Z;
  last_run : option Q;
  errors : list ErrorRecord
}.

(** A [BlogScheduler], together with the module-level [async_fetcher]
    it cleans up.  [scheduler_running] is [self.scheduler.running]. *)
Record BlogScheduler := {
  scheduler_running : bool;
  _shutdown_requested : bool;
  stats : Stats;
  async_fetcher : AsyncArticleFetcher.t
}.

Definition init (running : bool) (f : AsyncArticleFetcher.t)
  : BlogScheduler :=
  {| scheduler_running := running; _shutdown_requested := false;
     stats := {| total_runs := 0; successful_posts := 0; failed_posts := 0;
                 last_run := None; errors := [] |};
     async_fetcher := f |}.

Definition set_stats (s : BlogScheduler) (st : Stats) : BlogScheduler :=
  {| scheduler_running := scheduler_running s;
     _shutdown_requested := _shutdown_requested s;
     stats := st; async_fetcher := async_fetcher s |}.

Definition set_fetcher (s : BlogScheduler) (f : AsyncArticleFetcher.t)
  : BlogScheduler :=
  {| scheduler_running := scheduler_running s;
     _shutdown_requested := _shutdown_requested s;
     stats := stats s; async_fetcher := f |}.

(** The dictionary [_extract_articles] returns. *)
Record Extracted := {
  texts : list string;
  urls : list string;
  sources : list (string * string);
  valid_articles : bool
}.

(** What the collaborators of [_process_topic] do for one topic, call by
    call: each returns or raises. *)
Record topic_world := {
  (* dedup_engine.check_content_before_generation(topic, []) *)
  check_content_before_generation : outcome bool;
  (* article_finder.find_articles(topic, limit=8) *)
  find_articles : outcome (list string);
  (* self._extract_articles(article_urls) *)
  _extract_articles : outcome Extracted;
  (* self._generate_content(topic, texts, urls) *)
  _generate_content : outcome (option string);
  (* self._publish_content(blog_content, topic, sources, urls) *)
  _publish_content : outcome unit;
  (* dedup_engine.add_content(topic, blog_content) *)
  add_content : outcome bool
}.

(** Where [blog_generation_task] is suspended when another coroutine may
    run. *)
Inductive point :=
| AtTrending                 (* awaiting _get_trending_topics *)
| AtTopic (i : nat)          (* awaiting _process_topic of topic i *)
| AtSleep (i : nat).         (* in the sleep after topic i *)

(** The world of one run. *)
Record run_world := {
  clock : Q;                                   (* datetime.now() *)
  format_exc : exn → string;                   (* traceback.format_exc() *)
  (* trend_detector.get_trending_topics(limit=5), as titles *)
  get_trending_topics : outcome (list string);
  topics_world : nat → topic_world;
  (* a concurrent shutdown() runs while the task is suspended there *)
  shutdown_arrives : point → bool;
  fetcher_world : AsyncArticleFetcher.cleanup_world
}.

Definition _post_run_cleanup (w : AsyncArticleFetcher.cleanup_world)
    (s : BlogScheduler) : outcome unit * BlogScheduler * list event :=
  let '(r, f, tr) := AsyncArticleFetcher.cleanup w (async_fetcher s) in
  match r with
  | Returned _ => (Returned tt, set_fetcher s f, tr ++ [EvSleep 1])
  | Raised e => (except_Exception (Raised e) tt, set_fetcher s f, tr)
  end.

Definition shutdown (w : AsyncArticleFetcher.cleanup_world)
    (s : BlogScheduler) : outcome unit * BlogScheduler * list event :=
  let s1 := {| scheduler_running := false;
               _shutdown_requested := true;
               stats := stats s; async_fetcher := async_fetcher s |} in
  let stop := if scheduler_running s then [EvSchedulerShutdown] else [] in
  let '(r, s2, tr) := _post_run_cleanup w s1 in
  (r, s2, EvShutdownRequested :: stop ++ tr).

(** A [shutdown()] run by the event loop while the task is suspended at
    [p]; what it raises stays in its own task. *)
Definition interleave (w : run_world) (p : point) (s : BlogScheduler)
  : BlogScheduler * list event :=
  if shutdown_arrives w p
  then let '(_, s', tr) := shutdown (fetcher_world w) s in (s', tr)
  else (s, []).

(** [dedup_engine.check_content_before_generation(topic, [])].  For a
    topic that is a bound method, [_create_content_fingerprint] raises at
    [title.lower()] ([dedup_engine.py] l.155) before the store is read. *)
Definition check_topic (w : topic_world) (topic_ : topic_name)
  : outcome bool :=
  match topic_ with
  | Title _ => check_content_before_generation w
  | title_method _ =>
      Raised (Exn AttributeError
                "'builtin_function_or_method' object has no attribute 'lower'")
  end.

(** The body of the [try] of [_process_topic]: what it returns, by how
    much it raises [failed_posts], and its effects. *)
Definition pipeline (w : topic_world) (topic_ : topic_name)
  : outcome (bool * Z) * list event :=
  match check_topic w topic_ with
  | Raised e => (Raised e, [])
  | Returned false => (Returned (false, 0), [])
  | Returned true =>
  match find_articles w with
  | Raised e => (Raised e, [])
  | Returned [] => (Returned (false, 0), [])
  | Returned (_ :: _) =>
  match _extract_articles w with
  | Raised e => (Raised e, [])
  | Returned extracted =>
  if negb (valid_articles extracted) then (Returned (false, 0), [])
  else
  match _generate_content w with
  | Raised e => (Raised e, [])
  | Returned blog_content =>
  if match blog_content with
     | None => true
     | Some c => negb (AsyncArticleFetcher.truthy c) || startswith "Error:" c
     end
  then (Returned (false, 1), [])
  else
  match _publish_content w with
  | Raised e => (Raised e, [EvPublish topic_])
  | Returned _ =>
  match add_content w with
  | Raised e => (Raised e, [EvPublish topic_])
  | Returned _ => (Returned (true, 0), [EvPublish topic_])
  end end end end end end.

Definition _process_topic (w : run_world) (tw : topic_world)
    (topic_ : topic_name) (s : BlogScheduler)
  : outcome bool * BlogScheduler * list event :=
  let st := stats s in
  match pipeline tw topic_ with
  | (Returned (ok, failed), tr) =>
      (Returned ok,
       set_stats s {| total_runs := total_runs st;
                      successful_posts := successful_posts st;
                      failed_posts := failed_posts st + failed;
                      last_run := last_run st; errors := errors st |},
       tr)
  | (Raised e, tr) =>
      if is_Exception e then
        (Returned false,
         set_stats s {| total_runs := total_runs st;
                        successful_posts := successful_posts st;
                        failed_posts := failed_posts st + 1;
                        last_run := last_run st;
                        errors := errors st ++
                          [{| topic := topic_; error := exn_msg e;
                              timestamp := clock w;
                              traceback := format_exc w e |}] |},
         tr)
      else (Raised e, s, tr)
  end.

Definition bump_successful (s : BlogScheduler) : BlogScheduler :=
  let st := stats s in
  set_stats s {| total_runs := total_runs st;
                 successful_posts := successful_posts st + 1;
                 failed_posts := failed_posts st;
                 last_run := last_run st; errors := errors st |}.

(** The [for i, trend in enumerate(trending_topics)] loop. *)
Fixpoint topic_loop (w : run_world) (todo : list (nat * topic_name))
    (s : BlogScheduler) : outcome unit * BlogScheduler * list event :=
  match todo with
  | [] => (Returned tt, s, [])
  | (i, topic_title) :: rest =>
      if _shutdown_requested s then (Returned tt, s, [])
      else
        let '(r, s1, tr1) :=
          _process_topic w (topics_world w i) topic_title s in
        let '(s2, sd1) := interleave w (AtTopic i) s1 in
        match r with
        | Raised e => (Raised e, s2, EvTopicStart i topic_title :: tr1 ++ sd1)
        | Returned false =>
            let '(r', s', tr') := topic_loop w rest s2 in
            (r', s',
             EvTopicStart i topic_title :: tr1 ++ sd1 ++
             EvTopicEnd i false :: tr')
        | Returned true =>
            let s3 := bump_successful s2 in
            let '(s4, nap) :=
              if negb (_shutdown_requested s3)
              then let '(s4, sd2) := interleave w (AtSleep i) s3 in
                   (s4, EvSleep 30 :: sd2)
              else (s3, []) in
            let '(r', s', tr') := topic_loop w rest s4 in
            (r', s',
             EvTopicStart i topic_title :: tr1 ++ sd1 ++
             EvTopicEnd i true :: nap ++ tr')
        end
  end.

Definition _get_fallback_topics : list string := take 5 FALLBACK_TOPICS.

(** A trend as the loop meets it: a [TrendingTopic] of the detector, or
    a [str], one of the fallback topics. *)
Inductive Trend :=
| TrendingTopic (title : string)
| FallbackTopic (topic : string).

Definition _get_trending_topics (w : run_world) : outcome (list Trend) :=
  match get_trending_topics w with
  | Returned [] => Returned (FallbackTopic <$> _get_fallback_topics)
  | Returned topics => Returned (TrendingTopic <$> topics)
  | Raised e => Raised e
  end.

(** [trend.title if hasattr(trend, 'title') else str(trend)]: a [str] has
    the attribute too, a method. *)
Definition topic_title (trend : Trend) : topic_name :=
  match trend with
  | TrendingTopic title => Title title
  | FallbackTopic topic => title_method topic
  end.

(** [errors[-50:]] once there are more than 100 of them. *)
Definition _cleanup_history (s : BlogScheduler) : BlogScheduler :=
  let st := stats s in
  if (100 <? length (errors st))%nat
  then set_stats s {| total_runs := total_runs st;
                      successful_posts := successful_posts st;
                      failed_posts := failed_posts st;
                      last_run := last_run st;
                      errors := drop (length (errors st) - 50) (errors st) |}
  else s.

(** The [try] block of [blog_generation_task]. *)
Definition run_body (w : run_world) (s : BlogScheduler)
  : outcome unit * BlogScheduler * list event :=
  let '(s1, sd) := interleave w AtTrending s in
  match _get_trending_topics w with
  | Raised e => (Raised e, s1, sd)
  | Returned trending_topics =>
      let '(r, s2, tr) :=
        topic_loop w (imap pair (topic_title <$> trending_topics)) s1 in
      match r with
      | Raised e => (Raised e, s2, sd ++ tr)
      | Returned _ => (Returned tt, _cleanup_history s2, sd ++ tr)
      end
  end.

Definition blog_generation_task (w : run_world) (s : BlogScheduler)
  : outcome unit * BlogScheduler * list event :=
  if _shutdown_requested s then (Returned tt, s, [])
  else
    let st := stats s in
    let s0 := set_stats s {| total_runs := total_runs st + 1;
                             successful_posts := successful_posts st;
                             failed_posts := failed_posts st;
                             last_run := Some (clock w);
                             errors := errors st |} in
    let '(r, s1, tr) := run_body w s0 in
    let '(rc, s2, trc) := _post_run_cleanup (fetcher_world w) s1 in
    (match rc with
     | Raised e => Raised e
     | Returned _ => except_Exception r tt
     end, s2, tr ++ trc).

End Schedule.

(** ** Worlds and inputs the model is run on *)

Module Scenario.

Import ArticleFetcher ArticleFetcher.AsyncArticleFetcher.

Fixpoint repeat_char (c : ascii) (n : nat) : string :=
  match n with
  | O => EmptyString
  | S n' => String c (repeat_char c n')
  end.

(** One word of 101 characters. *)
Definition one_long_word : string := Eval cbv in repeat_char "x" 101.

(** A fetcher as the module creates it. *)
Definition fresh : AsyncArticleFetcher.t :=
  AsyncArticleFetcher.init default_config.

(** A fetcher after [cleanup]. *)
Definition closed_fetcher : AsyncArticleFetcher.t :=
  (AsyncArticleFetcher.cleanup
     {| grace_expired := false; session_close := Returned tt |} fresh).1.2.

(** Every page answers 200 with this article. *)
Definition serving (title text : string) : fetch_world :=
  {| resolve_get := λ url, Returned url;
     article_get := λ _ _,
       Returned {| status := 200; article := Returned (title, text) |} |}.

(** Every request fails. *)
Definition unreachable : fetch_world :=
  {| resolve_get := λ _, Raised (Exn Exception_ "Connection refused");
     article_get := λ _ _, Raised (Exn Exception_ "Connection refused") |}.

(** The first answer is too short, the second request fails, the third
    answer is an article. *)
Definition flaky : fetch_world :=
  {| resolve_get := λ url, Returned url;
     article_get := λ _ attempt,
       if attempt =? 0
       then Returned {| status := 200; article := Returned ("T", "short") |}
       else if attempt =? 1
       then Raised (Exn TimeoutError "timed out")
       else Returned {| status := 200;
                        article := Returned ("T", one_long_word) |} |}.

(** Three URLs whose fetches complete in the order 1, 2, 0; the second is
    refused by [urlparse] once its fetch has failed. *)
Definition urls3 : list string :=
  ["https://a.example/1"; "http://[::1"; "https://c.example/3"].

Definition run3 (i : nat) (url : string) : task_run :=
  match i with
  | 0%nat => {| finishes := Some 9%Q; network := serving "A" one_long_word |}
  | 1%nat => {| finishes := Some 2%Q; network := unreachable |}
  | _ => {| finishes := Some 5%Q; network := serving "C" one_long_word |}
  end.

(** Five URLs; the fetch of the fourth never completes, the others
    succeed after one second. *)
Definition urls5 : list string :=
  ["https://s.example/0"; "https://s.example/1"; "https://s.example/2";
   "https://s.example/3"; "https://s.example/4"].

Definition run5 (i : nat) (url : string) : task_run :=
  {| finishes := if (i =? 3)%nat then None else Some 1%Q;
     network := serving "Title" one_long_word |}.

(** *** The deduplicator *)

(** A hash without collisions, to run the model: the text itself. *)
Definition plain_hash (text : string) : string := text.

(** A stand-in for [SequenceMatcher.ratio]: 1 for equal strings, 0 for
    others. *)
Definition same_string (a b : string) : Q :=
  if String.eqb a b then 1%Q else 0%Q.

(** A deduplicator started without a file, with the default threshold. *)
Definition empty_store : DedupEngine.ContentDeduplicator :=
  DedupEngine.init (8 # 10) None.

Definition morning : DedupEngine.world :=
  {| DedupEngine.now := 0; DedupEngine.written := true |}.

Definition with_link : string := "Read [this](https://example.com/a) now".

Definition without_link : string := "Read **this** now".

(** A content whose URL is made of a markdown character alone, and one
    that holds a URL only once its markdown characters are gone. *)
Definition url_of_markdown : string := "see http://( now".

Definition url_under_markdown : string :=
  "see **http**://example.com/a now".



(** *** The run loop *)

(** Every stage of the topic goes through. *)
Definition publishing : Schedule.topic_world :=
  {| Schedule.check_content_before_generation := Returned true;
     Schedule.find_articles := Returned ["https://a.example/1"];
     Schedule._extract_articles :=
       Returned {| Schedule.texts := ["text"];
                   Schedule.urls := ["https://a.example/1"];
                   Schedule.sources := [("https://a.example/1", "A")];
                   Schedule.valid_articles := true |};
     Schedule._generate_content := Returned (Some "A post");
     Schedule._publish_content := Returned tt;
     Schedule.add_content := Returned true |}.

(** The search for articles raises. *)
Definition search_down : Schedule.topic_world :=
  {| Schedule.check_content_before_generation := Returned true;
     Schedule.find_articles := Raised (Exn Exception_ "search failed");
     Schedule._extract_articles := Schedule._extract_articles publishing;
     Schedule._generate_content := Schedule._generate_content publishing;
     Schedule._publish_content := Returned tt;
     Schedule.add_content := Returned true |}.

Definition clean_close : AsyncArticleFetcher.cleanup_world :=
  {| grace_expired := false; session_close := Returned tt |}.

(** Three topics, the second of which fails; no shutdown. *)
Definition second_fails : Schedule.run_world :=
  {| Schedule.clock := 0;
     Schedule.format_exc := exn_msg;
     Schedule.get_trending_topics := Returned ["one"; "two"; "three"];
     Schedule.topics_world :=
       λ i, if (i =? 1)%nat then search_down else publishing;
     Schedule.shutdown_arrives := λ _, false;
     Schedule.fetcher_world := clean_close |}.

(** Three topics; a shutdown arrives while the second is processed. *)
Definition interrupted : Schedule.run_world :=
  {| Schedule.clock := 0;
     Schedule.format_exc := exn_msg;
     Schedule.get_trending_topics := Returned ["one"; "two"; "three"];
     Schedule.topics_world := λ _, publishing;
     Schedule.shutdown_arrives :=
       λ p, match p with Schedule.AtTopic 1 => true | _ => false end;
     Schedule.fetcher_world := clean_close |}.

(** The detector finds no topic; every stage would go through. *)
Definition no_trends : Schedule.run_world :=
  {| Schedule.clock := 0;
     Schedule.format_exc := exn_msg;
     Schedule.get_trending_topics := Returned [];
     Schedule.topics_world := λ _, publishing;
     Schedule.shutdown_arrives := λ _, false;
     Schedule.fetcher_world := clean_close |}.

(** A scheduler that is running, with a fresh fetcher. *)
Definition scheduler0 : Schedule.BlogScheduler := Schedule.init true fresh.

End Scenario.

(** ** More of [src/aggregator/dedup_engine.py] *)

Module DedupQueries.

Import DedupEngine.

Section WithLibraries.

Variable sha256 : string → string.
Variable md5 : string → string.
Variable ratio : string → string → Q.

(** [s[:n]] *)
Definition prefix (n : nat) (s : string) : string :=
  String.substring 0 n s.

Definition newline : string := String "010" EmptyString.

Definition pseudo_content (title_ : string) (sources : list string)
  : string :=
  let combined_sources := join " " (take 3 sources) in
  title_ +:+ newline +:+ newline +:+ prefix 1000 combined_sources.

Definition check_content_before_generation (now_ : Q)
    (s : ContentDeduplicator) (title_ : string) (sources : list string)
  : bool :=
  match find_similar_content sha256 md5 ratio now_ s title_
          (pseudo_content title_ sources) with
  | _ :: _ => false
  | [] => true
  end.

End WithLibraries.

(** [timedelta.days] of a difference of [seconds]: whole days, rounded
    down. *)
Definition days (seconds : Q) : Z :=
  let d := (seconds / 86400)%Q in
  Qnum d / Z.pos (Qden d).

(** The dictionary [get_stats] returns. *)
Record Stats := {
  total_fingerprints : Z;
  recent_fingerprints_7d : Z;
  title_cache_size : Z;
  content_cache_size : Z;
  stats_similarity_threshold : Q
}.

Definition get_stats (now_ : Q) (s : ContentDeduplicator) : Stats :=
  let recent_count :=
    length (filter (λ fp, days (now_ - timestamp fp) ≤ 7)
              (dict_values (fingerprints s))) in
  {| total_fingerprints := Z.of_nat (length (fingerprints s));
     recent_fingerprints_7d := Z.of_nat recent_count;
     title_cache_size := Z.of_nat (size (title_cache s));
     content_cache_size := Z.of_nat (size (content_cache s));
     stats_similarity_threshold := similarity_threshold s |}.

End DedupQueries.

(** ** More of [src/aggregator/article_fetcher.py] *)

Module BrowserManager.

Import ArticleFetcher.

(** A Selenium [WebDriver], told apart by the browser it drives.  The
    object is truthy. *)
Record WebDriver := { browser : nat }.

Record t := {
  config : ScrapingConfig;
  driver : option WebDriver;
  _is_initialized : bool
}.

Definition init (c : ScrapingConfig) : t :=
  {| config := c; driver := None; _is_initialized := false |}.

(** The browsers started and stopped. *)
Inductive browser_event :=
| EvChrome (d : WebDriver)               (* webdriver.Chrome(...) *)
| EvQuit (d : WebDriver).                (* driver.quit() *)

(** What [_initialize_driver] meets: installing the driver and starting
    Chrome, and then [set_page_load_timeout]. *)
Record start_world := {
  chrome : outcome WebDriver;
  set_page_load_timeout : outcome unit
}.

(** The handler logs and raises again. *)
Definition _initialize_driver (w : start_world) (b : t)
  : outcome unit * t * list browser_event :=
  match chrome w with
  | Raised e => (Raised e, b, [])
  | Returned d =>
      match set_page_load_timeout w with
      | Raised e =>
          (Raised e,
           {| config := config b; driver := Some d;
              _is_initialized := _is_initialized b |},
           [EvChrome d])
      | Returned _ =>
          (Returned tt,
           {| config := config b; driver := Some d;
              _is_initialized := true |},
           [EvChrome d])
      end
  end.

Definition get_driver (w : start_world) (b : t)
  : outcome (option WebDriver) * t * list browser_event :=
  if negb (_is_initialized b)
     || match driver b with Some _ => false | None => true end
  then
    match _initialize_driver w b with
    | (Raised e, b', tr) => (Raised e, b', tr)
    | (Returned _, b', tr) => (Returned (driver b'), b', tr)
    end
  else (Returned (driver b), b, []).

(** [cleanup]; [w] is what [self.driver.quit()] gives. *)
Definition cleanup (w : outcome unit) (b : t)
  : outcome unit * t * list browser_event :=
  match driver b with
  | Some d =>
      (except_Exception w tt,
       {| config := config b; driver := None; _is_initialized := false |},
       [EvQuit d])
  | None => (Returned tt, b, [])
  end.

End BrowserManager.

(** [emergency_cleanup], on the module's [async_fetcher]. *)
Definition emergency_cleanup
    (w : ArticleFetcher.AsyncArticleFetcher.cleanup_world)
    (f : ArticleFetcher.AsyncArticleFetcher.t)
  : outcome unit * ArticleFetcher.AsyncArticleFetcher.t * list event :=
  let '(r, f', tr) := ArticleFetcher.AsyncArticleFetcher.cleanup w f in
  (except_Exception r tt, f', tr).

(** ** More of [src/scheduler/schedule.py] *)

Module Stages.

Import ArticleFetcher.

(** [s.replace(p, '')] for a [p] that is not empty: the matches are taken
    from the left and do not overlap; [skip] characters of the match at
    hand are still to be dropped. *)
Fixpoint remove_go (p : string) (skip : nat) (s : string) : string :=
  match s with
  | EmptyString => EmptyString
  | String c r =>
      match skip with
      | S k => remove_go p k r
      | O =>
          if startswith p s then remove_go p (String.length p - 1) r
          else String c (remove_go p 0 r)
      end
  end.

Definition remove (p s : string) : string := remove_go p 0 s.

(** [s.strip()] *)
Fixpoint lstrip (s : string) : string :=
  match s with
  | EmptyString => EmptyString
  | String c r => if isspace c then lstrip r else s
  end.

Fixpoint rstrip (s : string) : string :=
  match s with
  | EmptyString => EmptyString
  | String c r =>
      match rstrip r with
      | EmptyString => if isspace c then EmptyString else String c EmptyString
      | r' => String c r'
      end
  end.

Definition strip (s : string) : string := rstrip (lstrip s).

(** The dictionary [_create_source_metadata] returns. *)
Record SourceMetadata := {
  url : string;
  title : string;
  domain : string;
  extracted_at : Q
}.

(** The dictionary [_process_extraction_results] returns. *)
Record Extraction := {
  texts : list string;
  urls : list string;
  sources : list SourceMetadata;
  valid_articles : bool
}.

Section WithUrlparse.

Variable urlparse_netloc : string → outcome string.

(** [now_] is [datetime.now()]. *)
Definition _create_source_metadata (now_ : Q) (url_ title_ : string)
  : outcome SourceMetadata :=
  let domain_ :=
    if AsyncArticleFetcher.truthy url_
    then match urlparse_netloc url_ with
         | Returned netloc_ => Returned (remove "www." netloc_)
         | Raised e => Raised e
         end
    else Returned "Unknown" in
  match domain_ with
  | Raised e => Raised e
  | Returned d =>
      let clean_title :=
        if AsyncArticleFetcher.truthy title_
           && negb (startswith "Error:" title_)
        then strip (DedupQueries.prefix 100 title_)
        else "Article from " +:+ d in
      Returned {| url := if AsyncArticleFetcher.truthy url_
                         then url_ else "Unknown";
                  title := clean_title;
                  domain := d;
                  extracted_at := now_ |}
  end.

(** The loop of [_process_extraction_results], with the three lists it
    appends to. *)
Fixpoint process_loop (now_ : Q) (results : list (string * string * string))
    (valid_articles_ valid_urls : list string)
    (source_metadata : list SourceMetadata) : outcome Extraction :=
  match results with
  | [] =>
      Returned {| texts := valid_articles_; urls := valid_urls;
                  sources := source_metadata;
                  valid_articles :=
                    match valid_articles_ with [] => false | _ => true end |}
  | (url_, title_, content) :: rest =>
      if negb (AsyncArticleFetcher.truthy content)
         || (Z.of_nat (length (split content)) <=? 200)
      then process_loop now_ rest valid_articles_ valid_urls source_metadata
      else
        match _create_source_metadata now_ url_ title_ with
        | Raised e => Raised e
        | Returned m =>
            process_loop now_ rest (valid_articles_ ++ [content])
              (valid_urls ++ [url_]) (source_metadata ++ [m])
        end
  end.

Definition _process_extraction_results (now_ : Q)
    (results : list (string * string * string)) : outcome Extraction :=
  process_loop now_ results [] [] [].

Definition _cleanup_sessions (w : AsyncArticleFetcher.cleanup_world)
    (f : AsyncArticleFetcher.t)
  : outcome unit * AsyncArticleFetcher.t * list event :=
  let '(r, f', tr) := AsyncArticleFetcher.cleanup w f in
  match r with
  | Returned _ => (Returned tt, f', tr ++ [EvSleep 2])
  | Raised e => (except_Exception (Raised e) tt, f', tr)
  end.

(** What [_extract_articles] meets, attempt by attempt: the tasks of the
    batch, and the world of the cleanup that follows a failure. *)
Record extract_world := {
  batch : Z → nat → string → AsyncArticleFetcher.task_run;
  sessions_world : Z → AsyncArticleFetcher.cleanup_world;
  clock : Q
}.

Definition no_articles : Extraction :=
  {| texts := []; urls := []; sources := []; valid_articles := false |}.

(** The [for attempt in range(3)] loop of [_extract_articles]. *)
Fixpoint extract_loop (w : extract_world) (urls_ : list string)
    (todo : list Z) (f : AsyncArticleFetcher.t)
  : outcome Extraction * AsyncArticleFetcher.t * list event :=
  match todo with
  | [] => (Returned no_articles, f, [])
  | attempt :: rest =>
      let '(r, f1, tr) :=
        AsyncArticleFetcher.extract_multiple_articles urlparse_netloc
          (batch w attempt) f urls_ in
      let body :=
        match r with
        | Returned results => _process_extraction_results (clock w) results
        | Raised e => Raised e
        end in
      match body with
      | Returned extracted => (Returned extracted, f1, tr)
      | Raised e =>
          if is_Exception e then
            let '(rc, f2, trc) :=
              if attempt <? 2 then
                let '(rc, f2, trc) :=
                  _cleanup_sessions (sessions_world w attempt) f1 in
                match rc with
                | Returned _ =>
                    (Returned tt, f2,
                     trc ++ [EvSleep (inject_Z (15 * (attempt + 1)))])
                | Raised e' => (Raised e', f2, trc)
                end
              else (Returned tt, f1, []) in
            match rc with
            | Raised e' => (Raised e', f2, tr ++ trc)
            | Returned _ =>
                let '(r', f', tr') := extract_loop w urls_ rest f2 in
                (r', f', tr ++ trc ++ tr')
            end
          else (Raised e, f1, tr)
      end
  end.

Definition _extract_articles (w : extract_world)
    (f : AsyncArticleFetcher.t) (urls_ : list string)
  : outcome Extraction * AsyncArticleFetcher.t * list event :=
  extract_loop w urls_ (range 3) f.

End WithUrlparse.

(** [generate_post.ContentResult], as far as the scheduler reads it. *)
Record ContentResult := {
  content : string;
  validation_passed : bool
}.

(** The [for attempt in range(3)] loop of [_generate_content]; [w] is
    what [ai_generator.generate_content] gives at each attempt. *)
Fixpoint generate_loop (w : Z → outcome (option ContentResult))
    (todo : list Z) : outcome (option string) * list event :=
  match todo with
  | [] => (Returned None, [])
  | attempt :: rest =>
      match w attempt with
      | Returned (Some result) =>
          if validation_passed result
          then (Returned (Some (content result)), [])
          else generate_loop w rest
      | Returned None => generate_loop w rest
      | Raised e =>
          if is_Exception e then
            let nap :=
              if attempt <? 2
              then [EvSleep (inject_Z (15 * (attempt + 1)))] else [] in
            let '(r, tr) := generate_loop w rest in
            (r, nap ++ tr)
          else (Raised e, [])
      end
  end.

Definition _generate_content (w : Z → outcome (option ContentResult))
  : outcome (option string) * list event :=
  generate_loop w (range 3).

(** [_daily_maintenance], on the module's [dedup_engine]. *)
Definition _daily_maintenance (w : DedupEngine.world) (d : DedupEngine.ContentDeduplicator)
    (s : Schedule.BlogScheduler)
  : DedupEngine.ContentDeduplicator * Schedule.BlogScheduler :=
  (DedupEngine.cleanup_old_fingerprints w 30 d, Schedule._cleanup_history s).

(** [_weekly_cleanup] *)
Definition _weekly_cleanup (w : DedupEngine.world)
    (d : DedupEngine.ContentDeduplicator) (s : Schedule.BlogScheduler)
  : DedupEngine.ContentDeduplicator * Schedule.BlogScheduler :=
  let st := Schedule.stats s in
  (DedupEngine.cleanup_old_fingerprints w 60 d,
   if Schedule.total_runs st >? 5000
   then Schedule.set_stats s
          {| Schedule.total_runs := Z.min (Schedule.total_runs st) 100;
             Schedule.successful_posts :=
               Z.min (Schedule.successful_posts st) 100;
             Schedule.failed_posts := Z.min (Schedule.failed_posts st) 100;
             Schedule.last_run := Schedule.last_run st;
             Schedule.errors := Schedule.errors st |}
   else s).

End Stages.

(** ** A shutdown during the batch fetch *)

(** [shutdown()] is a coroutine of its own: the event loop may run it
    while [extract_multiple_articles] waits for its tasks
    ([article_fetcher.py] l.266-269).  The functions below are those of
    the extraction stage for that case: the shutdown runs at the time
    [at_] of the wait, before its 300 s are over.  Their trace lists the
    effects of the shutdown before those of the stage it interrupts. *)
Module DuringShutdown.

Import ArticleFetcher ArticleFetcher.AsyncArticleFetcher.

Definition set_active_tasks (f : AsyncArticleFetcher.t)
    (tasks : list Task) : AsyncArticleFetcher.t :=
  {| config := config f; session_manager := session_manager f;
     _active_tasks := tasks; _is_closed := _is_closed f |}.

(** The tasks of the batch as [_active_tasks] holds them at [at_]. *)
Definition tasks_at (at_ : Q)
    (tasks : list (task_run * outcome (string * string))) : list Task :=
  imap (λ i k, {| task_id := i; done := done_before at_ k.1 |}) tasks.

(** What [gather(..., return_exceptions=True)] gives for the tasks once
    those that were not done at [at_] have been cancelled: a cancelled
    task ends with [CancelledError], which no handler of
    [extract_single_article] catches, and [gather] hands the exception
    over as the value of the task. *)
Definition gathered (at_ : Q)
    (tasks : list (task_run * outcome (string * string)))
  : list (outcome (string * string)) :=
  (λ k, if done_before at_ k.1 then k.2
        else Raised (Exn CancelledError "")) <$> tasks.

Section WithUrlparse.

Variable urlparse_netloc : string → outcome string.

(** [extract_multiple_articles] on the fetcher of the scheduler. *)
Definition extract_multiple_articles (run : nat → string → task_run)
    (cw : cleanup_world) (at_ : Q) (s : Schedule.BlogScheduler)
    (urls : list string)
  : outcome (list (string * string * string)) * Schedule.BlogScheduler
    * list event :=
  let f := Schedule.async_fetcher s in
  if _is_closed f then (Returned [], s, [])
  else
    let '(tasks, f') := run_tasks urlparse_netloc run 0 f urls in
    (* self._active_tasks.update(tasks) *)
    let waiting :=
      set_active_tasks f' (_active_tasks f' ++ tasks_at at_ tasks) in
    (* shutdown(), while the batch waits *)
    let '(_, s1, sd) :=
      Schedule.shutdown cw (Schedule.set_fetcher s waiting) in
    (* finally: self._active_tasks.difference_update(tasks) *)
    let f1 := Schedule.async_fetcher s1 in
    let f2 :=
      set_active_tasks f1
        (filter (λ k, k ∉ tasks_at at_ tasks) (_active_tasks f1)) in
    (_process_results urls (gathered at_ tasks),
     Schedule.set_fetcher s1 f2, sd ++ [EvGather 300 false]).

(** [_extract_articles] when its first batch is the one above; the
    attempts that follow are those of [Stages.extract_loop]. *)
Definition _extract_articles (w : Stages.extract_world)
    (cw : cleanup_world) (at_ : Q) (s : Schedule.BlogScheduler)
    (urls_ : list string)
  : outcome Stages.Extraction * Schedule.BlogScheduler * list event :=
  let '(r, s1, tr) :=
    extract_multiple_articles (Stages.batch w 0) cw at_ s urls_ in
  let body :=
    match r with
    | Returned results =>
        Stages._process_extraction_results urlparse_netloc (Stages.clock w)
          results
    | Raised e => Raised e
    end in
  match body with
  | Returned extracted => (Returned extracted, s1, tr)
  | Raised e =>
      if is_Exception e then
        let '(rc, f2, trc) :=
          Stages._cleanup_sessions (Stages.sessions_world w 0)
            (Schedule.async_fetcher s1) in
        match rc with
        | Raised e' => (Raised e', Schedule.set_fetcher s1 f2, tr ++ trc)
        | Returned _ =>
            let '(r', f', tr') :=
              Stages.extract_loop urlparse_netloc w urls_ [1; 2] f2 in
            (r', Schedule.set_fetcher s1 f',
             tr ++ trc ++ [EvSleep (inject_Z (15 * (0 + 1)))] ++ tr')
        end
      else (Raised e, s1, tr)
  end.

End WithUrlparse.

End DuringShutdown.

(** ** Vocabulary of the statements *)

(** What [_process_results] makes of one gathered value that is not a
    cancellation. *)
Definition entry (url : string) (result : outcome (string * string))
  : string * string * string :=
  match result with
  | Returned (title, content) => (url, title, content)
  | Raised _ => (url, "Error: Task failed", "")
  end.

(** The entry of a URL whose task failed. *)
Definition failed_entry (url : string) : string * string * string :=
  (url, "Error: Task failed", "").

(** An attempt that does not end the retry loop: it raised an [Exception],
    or what it returned has at most 100 characters of content. *)
Definition attempt_fails (w : ArticleFetcher.AsyncArticleFetcher.fetch_world)
    (url : string) (attempt : Z) : bool :=
  match ArticleFetcher.AsyncArticleFetcher._extract_with_aiohttp
          w url attempt with
  | Returned (_, content) => len content <=? 100
  | Raised e => is_Exception e
  end.

(** The effects of a run of failed attempts: a request each, and the pause
    that follows it. *)
Definition failed_attempts (c : ArticleFetcher.ScrapingConfig) (url : string)
    (todo : list Z) : list event :=
  flat_map
    (λ attempt,
       EvGet url ::
       if attempt <? ArticleFetcher.max_retries c - 1
       then [EvSleep (inject_Z (2 ^ attempt))] else [])
    todo.

(** Nothing the fetch awaits is cancelled. *)
Definition calm (w : ArticleFetcher.AsyncArticleFetcher.fetch_world) : Prop :=
  (∀ url, not_cancelled
            (ArticleFetcher.AsyncArticleFetcher.resolve_get w url) = true)
  ∧ (∀ url attempt,
       not_cancelled
         (ArticleFetcher.AsyncArticleFetcher._extract_with_aiohttp
            w url attempt) = true).

(** The permits of the semaphore a fetch waits for: those of the one
    there is, or else [max_sources_per_topic], with which [get_semaphore]
    makes it.  [asyncio.Semaphore] raises [ValueError] for a negative
    count, and nobody gets past a semaphore without a permit; with a
    permit, the wait only delays the fetch. *)
Definition permits (f : ArticleFetcher.AsyncArticleFetcher.t) : Z :=
  let m := ArticleFetcher.AsyncArticleFetcher.session_manager f in
  default
    (ArticleFetcher.max_sources_per_topic
       (ArticleFetcher.AsyncSessionManager.config m))
    (ArticleFetcher.AsyncSessionManager._semaphore m).

(** The placeholder of [_generate_fallback_content]. *)
Definition placeholder (domain url : string) : string :=
  "Content from " +:+ domain +:+ " could not be extracted. Source: " +:+ url.

(** A link at the head of [s]: [http://] or [https://] and then a
    character that is neither white space nor a markdown character. *)
Definition link_at (s : string) : bool :=
  let host_char r :=
    match r with
    | Some (String c _) => negb (isspace c) && negb (DedupEngine.markdown_char c)
    | _ => false
    end in
  host_char (after "http://" s) || host_char (after "https://" s).

(** The text holds such a link. *)
Fixpoint holds_link (s : string) : bool :=
  link_at s ||
  match s with
  | EmptyString => false
  | String _ r => holds_link r
  end.


Section Stores.

Import DedupEngine.

Variable sha256 md5 : string → string.
Variable ratio : string → string → Q.

(** The stores the program can be in: it starts without a file, and then
    adds content, evicts old fingerprints, or starts again from the file
    it wrote. *)
Inductive reachable : ContentDeduplicator → Prop :=
| reachable_init threshold :
    reachable (init threshold None)
| reachable_add_content w s title_ content url_ :
    reachable s →
    reachable (add_content sha256 md5 ratio w s title_ content url_).2
| reachable_cleanup w days s :
    reachable s →
    reachable (cleanup_old_fingerprints w days s)
| reachable_restart threshold s :
    reachable s →
    reachable (init threshold (FINGERPRINT_FILE s)).


(** A content hash made by [_create_content_fingerprint]: the hash of a
    text without URLs. *)
Definition url_free_hash (h : string) : Prop :=
  ∃ text, h = sha256 text ∧ has_url text = false.

(** Every content hash the store holds, in its cache, in its dictionary
    and in its file, is the hash of a text without URLs. *)
Definition url_free_store (s : ContentDeduplicator) : Prop :=
  (∀ h, h ∈ content_cache s → url_free_hash h)
  ∧ Forall (λ fp, url_free_hash (content_hash fp))
      (dict_values (fingerprints s))
  ∧ (∀ file, FINGERPRINT_FILE s = Some file →
             Forall (λ fp, url_free_hash (content_hash fp)) file).

End Stores.

(** An event that begins new work of the run: a topic is started, or the
    pause between two topics. *)
Definition begins_work (e : event) : bool :=
  match e with
  | EvTopicStart _ _ => true
  | EvSleep seconds => Qeq_bool seconds 30
  | _ => false
  end.



(** The flag is set. *)
Definition is_request (e : event) : bool :=
  match e with EvShutdownRequested => true | _ => false end.

(** A trace of tear-down and bookkeeping only: nothing in it begins new
    work or sets the flag. *)
Definition teardown_only (trace : list event) : Prop :=
  Forall (λ e, begins_work e = false ∧ is_request e = false) trace.

(** The topics a run started, in order. *)
Definition topics_started (trace : list event)
  : list (nat * topic_name) :=
  omap (λ e, match e with
             | EvTopicStart i topic_ => Some (i, topic_)
             | _ => None
             end) trace.

(** The shape of a store: the dictionary is keyed by the content hash of
    its values, no two stored fingerprints share a content hash or a title
    hash, and the two caches hold the hashes of the stored fingerprints and
    nothing else. *)
Definition coherent (s : DedupEngine.ContentDeduplicator) : Prop :=
  let stored := DedupEngine.dict_values (DedupEngine.fingerprints s) in
  Forall (λ kv, kv.1 = DedupEngine.content_hash kv.2)
    (DedupEngine.fingerprints s)
  ∧ NoDup (DedupEngine.content_hash <$> stored)
  ∧ NoDup (DedupEngine.title_hash <$> stored)
  ∧ (∀ h, h ∈ DedupEngine.content_cache s
          ↔ h ∈ DedupEngine.content_hash <$> stored)
  ∧ (∀ h, h ∈ DedupEngine.title_cache s
          ↔ h ∈ DedupEngine.title_hash <$> stored).

(** The file, if there is one, holds no two fingerprints of the same
    content hash or title hash. *)
Definition coherent_file (s : DedupEngine.ContentDeduplicator) : Prop :=
  ∀ file, DedupEngine.FINGERPRINT_FILE s = Some file →
          NoDup (DedupEngine.content_hash <$> file)
          ∧ NoDup (DedupEngine.title_hash <$> file).

(** [fp.timestamp < cutoff] is false. *)
Definition recent (cutoff : Q) (fp : DedupEngine.ContentFingerprint) : Prop :=
  Qle_bool cutoff (DedupEngine.timestamp fp) = true.

Definition recent_dec (cutoff : Q) (fp : DedupEngine.ContentFingerprint)
  : Decision (recent cutoff fp) :=
  decide (Qle_bool cutoff (DedupEngine.timestamp fp) = true).

#[global] Existing Instance recent_dec.

(** The range of a [datetime], from 0001-01-01T00:00:00 to
    9999-12-31T23:59:59.999999, in seconds of the clock, which counts
    from 1970-01-01T00:00:00. *)
Definition datetime_min : Q := - 62135596800.

Definition datetime_max : Q := 253402300800 - (1 # 1000000).

(** [datetime.now() - timedelta(days=days)] is a [datetime]: the days
    are within the range of a [timedelta], and the result within that of
    a [datetime].  Python raises [OverflowError] otherwise. *)
Definition cutoff_in_range (w : DedupEngine.world) (days : Z) : Prop :=
  - 999999999 ≤ days ≤ 999999999
  ∧ (datetime_min <= DedupEngine.now w - inject_Z (days * 86400))%Q
  ∧ (DedupEngine.now w - inject_Z (days * 86400) <= datetime_max)%Q.

(** The cutoff of [cleanup_old_fingerprints]. *)
Definition cutoff_of (w : DedupEngine.world) (days : Z) : Q :=
  (DedupEngine.now w - inject_Z (days * 86400))%Q.

(** No character of [s] is one of those [strip_markdown] removes. *)
Fixpoint markdown_free (s : string) : bool :=
  match s with
  | EmptyString => true
  | String c r => negb (DedupEngine.markdown_char c) && markdown_free r
  end.

(** The requests of a trace, and the time it sleeps. *)
Fixpoint requests (trace : list event) : nat :=
  match trace with
  | [] => 0
  | EvGet _ :: rest => S (requests rest)
  | _ :: rest => requests rest
  end.

Fixpoint slept (trace : list event) : Q :=
  match trace with
  | [] => 0
  | EvSleep seconds :: rest => seconds + slept rest
  | _ :: rest => slept rest
  end.

(** The topics of a trace that ended with a post. *)
Fixpoint posts (trace : list event) : nat :=
  match trace with
  | [] => 0
  | EvTopicEnd _ true :: rest => S (posts rest)
  | _ :: rest => posts rest
  end.

(** The publications of a trace. *)
Fixpoint publications (trace : list event) : nat :=
  match trace with
  | [] => 0
  | EvPublish _ :: rest => S (publications rest)
  | _ :: rest => publications rest
  end.

(** An entry that [_process_extraction_results] keeps: its content has
    more than 200 words. *)
Definition kept_article (result : string * string * string) : bool :=
  ArticleFetcher.AsyncArticleFetcher.truthy result.2
  && (200 <? Z.of_nat (length (split result.2))).

(** What the oracle of the extraction stage keeps of an [Extraction]:
    of each source its URL and its title. *)
Definition as_Extracted (x : Stages.Extraction) : Schedule.Extracted :=
  {| Schedule.texts := Stages.texts x;
     Schedule.urls := Stages.urls x;
     Schedule.sources :=
       (λ m, (Stages.url m, Stages.title m)) <$> Stages.sources x;
     Schedule.valid_articles := Stages.valid_articles x |}.

(** The extraction stage of a topic is [_extract_articles] on the
    fetcher [f]. *)
Definition extracts_with (urlparse_netloc : string → outcome string)
    (f : ArticleFetcher.AsyncArticleFetcher.t)
    (tw : Schedule.topic_world) : Prop :=
  ∃ ew urls_,
    Schedule._extract_articles tw
    = match (Stages._extract_articles urlparse_netloc ew f urls_).1.1 with
      | Returned x => Returned (as_Extracted x)
      | Raised e => Raised e
      end.

(** The first attempt of [_extract_articles]. *)
Definition first_attempt (urlparse_netloc : string → outcome string)
    (w : Stages.extract_world) (f : ArticleFetcher.AsyncArticleFetcher.t)
    (urls_ : list string) : outcome Stages.Extraction :=
  match (ArticleFetcher.AsyncArticleFetcher.extract_multiple_articles
           urlparse_netloc (Stages.batch w 0) f urls_).1.1 with
  | Returned results =>
      Stages._process_extraction_results urlparse_netloc (Stages.clock w)
        results
  | Raised e => Raised e
  end.

(** An attempt of [_generate_content] that ends its loop with a content:
    the generator returned a result that passed validation. *)
Definition validated (w : Z → outcome (option Stages.ContentResult))
    (attempt : Z) : bool :=
  match w attempt with
  | Returned (Some result) => Stages.validation_passed result
  | _ => false
  end.

(** What a stage of [Stages] gives, as [_process_topic] reads it. *)
Definition extraction_result (o : outcome Stages.Extraction)
  : outcome Schedule.Extracted :=
  match o with
  | Returned x => Returned (as_Extracted x)
  | Raised e => Raised e
  end.

(** The topic gets as far as its generation stage: it is no duplicate,
    articles were found, and some of them are valid. *)
Definition reaches_generation (tw : Schedule.topic_world)
    (topic_ : topic_name) : Prop :=
  Schedule.check_topic tw topic_ = Returned true
  ∧ (∃ url rest, Schedule.find_articles tw = Returned (url :: rest))
  ∧ ∃ x, Schedule._extract_articles tw = Returned x
         ∧ Schedule.valid_articles x = true.

(** Every attempt of the generator raises an [Exception]. *)
Definition generator_fails (gw : Z → outcome (option Stages.ContentResult))
  : Prop :=
  ∀ attempt, 0 ≤ attempt < 3 →
    ∃ e, gw attempt = Raised e ∧ is_Exception e = true.




(** ** More worlds and inputs *)

Module Cases.

(** A store with one post, and a text that differs from the post in
    letter case and punctuation only. *)
Definition post : string := "post alpha beta gamma".


Definition store_with_post : DedupEngine.ContentDeduplicator :=
  (DedupEngine.add_content Scenario.plain_hash Scenario.plain_hash
     Scenario.same_string Scenario.morning Scenario.empty_store
     "A post" post "").2.


(** A hundred days later. *)
Definition later : DedupEngine.world :=
  {| DedupEngine.now := 8640000; DedupEngine.written := true |}.

(** A browser that starts. *)
Definition chrome_starts : BrowserManager.start_world :=
  {| BrowserManager.chrome := Returned {| BrowserManager.browser := 1 |};
     BrowserManager.set_page_load_timeout := Returned tt |}.

(** A text of 201 words. *)
Definition long_text : string :=
  Eval vm_compute in join " " (replicate 201 "word").

(** A batch of three entries: an article, a failed task and a short
    text. *)
Definition entries : list (string * string * string) :=
  [("https://www.a.example/1", "  An article  ", long_text);
   ("https://b.example/2", "Error: Task failed", "");
   ("https://c.example/3", "Short", "too short")].

(** The world of an extraction whose tasks are done after a second. *)
Definition quick : Stages.extract_world :=
  {| Stages.batch := λ _ _ _,
       {| ArticleFetcher.AsyncArticleFetcher.finishes := Some 1%Q;
          ArticleFetcher.AsyncArticleFetcher.network :=
            Scenario.serving "Title" long_text |};
     Stages.sessions_world := λ _, Scenario.clean_close;
     Stages.clock := 0 |}.

(** The scheduler after a first run. *)
Definition after_a_run : Schedule.BlogScheduler :=
  (Schedule.blog_generation_task Scenario.second_fails
     Scenario.scheduler0).1.2.

(** A topic of a later run: its stages go through, and its extraction
    runs on the fetcher the first run left. *)
Definition later_topic : Schedule.topic_world :=
  {| Schedule.check_content_before_generation := Returned true;
     Schedule.find_articles := Returned ["https://a.example/1"];
     Schedule._extract_articles :=
       match (Stages._extract_articles
                ArticleFetcher.AsyncArticleFetcher.netloc quick
                (Schedule.async_fetcher after_a_run)
                ["https://a.example/1"]).1.1 with
       | Returned x => Returned (as_Extracted x)
       | Raised e => Raised e
       end;
     Schedule._generate_content := Returned (Some "A post");
     Schedule._publish_content := Returned tt;
     Schedule.add_content := Returned true |}.
(** A generator that raises at every attempt, and a topic whose other
    stages go through. *)
Definition generator_down (attempt : Z)
  : outcome (option Stages.ContentResult) :=
  Raised (Exn Exception_ "model unavailable").

Definition generation_fails : Schedule.topic_world :=
  {| Schedule.check_content_before_generation := Returned true;
     Schedule.find_articles := Returned ["https://a.example/1"];
     Schedule._extract_articles :=
       Schedule._extract_articles Scenario.publishing;
     Schedule._generate_content := (Stages._generate_content generator_down).1;
     Schedule._publish_content := Returned tt;
     Schedule.add_content := Returned true |}.



End Cases.

(** *** Inputs of the binary64 score *)

Module FloatCases.

Import PrimFloat.








End FloatCases.

(** * Properties *)

Import ArticleFetcher.

(** ** Closing twice *)

(** C5: a second [AsyncSessionManager.close], and a second
    [AsyncArticleFetcher.cleanup], after a first call that completed,
    returns without raising, performs no effect at all, and leaves the
    state exactly as the first call left it, whatever the world does. *)
Theorem close_cleanup_idempotent :
  (∀ w1 w2 m,
     let '(_, m1, _) := AsyncSessionManager.close w1 m in
     AsyncSessionManager.close w2 m1 = (Returned tt, m1, []))
  ∧
  (∀ w1 w2 f,
     let '(_, f1, _) := AsyncArticleFetcher.cleanup w1 f in
     AsyncArticleFetcher.cleanup w2 f1 = (Returned tt, f1, [])).
Proof.
  split.
  - intros w1 w2 m. unfold AsyncSessionManager.close.
    destruct (AsyncSessionManager._is_closed m) eqn:E; simpl.
    + now rewrite E.
    + reflexivity.
  - intros w1 w2 f. unfold AsyncArticleFetcher.cleanup.
    destruct (AsyncArticleFetcher._is_closed f) eqn:E; simpl.
    + now rewrite E.
    + destruct (AsyncSessionManager.close _ _) as [[r m] tr].
      destruct r; simpl; [reflexivity|].
      destruct (is_Exception e); reflexivity.
Qed.

(** ** The batch fetch *)

Section Batch.

Import AsyncArticleFetcher.

Variable urlparse_netloc : string → outcome string.

Lemma process_results_from_spec results : ∀ i urls,
  length (drop i urls) = length results →
  Forall (λ r, not_cancelled r = true) results →
  _process_results_from i urls results
  = Returned (zip_with entry (drop i urls) results).
Proof.
  induction results as [|r results IH]; intros i urls Hlen Hok.
  - simpl. destruct (drop i urls); [reflexivity|discriminate].
  - destruct (drop i urls) as [|u rest] eqn:Hd; [discriminate|].
    assert (Hi : urls !! i = Some u).
    { rewrite <- (take_drop i urls) at 1.
      assert (i ≤ length urls)%nat.
      { destruct (decide (i ≤ length urls)%nat); [done|].
        rewrite drop_ge in Hd by lia. discriminate. }
      rewrite lookup_app_r by (rewrite length_take; lia).
      rewrite length_take, Nat.min_l, Nat.sub_diag, Hd by lia. done. }
    assert (Hrest : drop (S i) urls = rest).
    { rewrite <- Nat.add_1_l, Nat.add_comm, <- drop_drop, Hd. done. }
    apply Forall_cons in Hok as [Hr Hrs].
    simpl. rewrite Hi.
    rewrite IH; [|rewrite Hrest; simpl in Hlen; lia|done].
    rewrite Hrest.
    destruct r as [[t c]|e]; simpl; [done|].
    simpl in Hr. rewrite Hr. done.
Qed.

Lemma process_results_spec urls results :
  length urls = length results →
  Forall (λ r, not_cancelled r = true) results →
  _process_results urls results = Returned (zip_with entry urls results).
Proof.
  intros. unfold _process_results.
  rewrite process_results_from_spec; rewrite ?drop_0; done.
Qed.

Lemma run_tasks_runs run urls : ∀ i f,
  (run_tasks urlparse_netloc run i f urls).1.*1
  = imap (λ j url, run (i + j)%nat url) urls.
Proof.
  induction urls as [|u urls IH]; intros i f; [done|].
  simpl.
  destruct (extract_single_article _ _ _ _) as [[r f1] tr].
  specialize (IH (S i) f1).
  destruct (run_tasks _ _ _ _ _) as [tasks f2]. simpl in *.
  rewrite Nat.add_0_r. f_equal. etrans; [exact IH|].
  apply imap_ext. intros. simpl. f_equal. lia.
Qed.

Lemma run_tasks_length run urls i f :
  length (run_tasks urlparse_netloc run i f urls).1 = length urls.
Proof.
  rewrite <- (length_fmap fst), run_tasks_runs, length_imap. done.
Qed.

Lemma zip_with_entry_urls urls results :
  length urls = length results →
  (zip_with entry urls results).*1.*1 = urls.
Proof.
  revert results. induction urls as [|u urls IH]; intros [|r rs] H;
    simpl in *; try done.
  rewrite IH by lia. destruct r as [[? ?]|?]; done.
Qed.

(** The list a batch on an open fetcher returns, when none of the
    gathered values is a cancellation. *)
Lemma extract_multiple_articles_open run f urls :
  _is_closed f = false →
  let tasks := (run_tasks urlparse_netloc run 0 f urls).1 in
  let values :=
    if forallb (done_before 300) tasks.*1 then tasks.*2
    else (λ _, Raised (Exn Exception_ "Timeout")) <$> tasks in
  Forall (λ r, not_cancelled r = true) values →
  (extract_multiple_articles urlparse_netloc run f urls).1.1
  = Returned (zip_with entry urls values).
Proof.
  intros Hopen tasks values Hok. unfold extract_multiple_articles.
  rewrite Hopen. subst tasks values.
  pose proof (run_tasks_length run urls 0 f) as Hlen.
  destruct (run_tasks _ _ _ _ _) as [tasks f']. simpl in *.
  destruct (forallb _ _); simpl;
    apply process_results_spec; rewrite ?length_fmap; done.
Qed.

(** C1 (amended): on a closed fetcher the batch returns the empty list,
    whatever the URLs.  On a fetcher that is not closed, and when none of
    the values gathered from the tasks is a cancellation, it returns
    exactly one entry per input URL, the i-th entry carrying the i-th URL
    and what the i-th task gave (or the failure marker, if the task raised
    or the batch timed out), whatever the times at which the tasks
    complete. *)
Theorem batch_one_result_per_url run f urls :
  (_is_closed f = true →
   extract_multiple_articles urlparse_netloc run f urls = (Returned [], f, []))
  ∧
  (_is_closed f = false →
   (forallb (done_before 300)
      (run_tasks urlparse_netloc run 0 f urls).1.*1 = true →
    Forall (λ r, not_cancelled r = true)
      (run_tasks urlparse_netloc run 0 f urls).1.*2) →
   ∃ results,
     (extract_multiple_articles urlparse_netloc run f urls).1.1
     = Returned results
     ∧ length results = length urls
     ∧ (∀ i url, urls !! i = Some url →
          ∃ title content, results !! i = Some (url, title, content))
     ∧ (forallb (done_before 300)
          (run_tasks urlparse_netloc run 0 f urls).1.*1 = true →
        results
        = zip_with entry urls (run_tasks urlparse_netloc run 0 f urls).1.*2)).
Proof.
  split.
  - intros Hc. unfold extract_multiple_articles. rewrite Hc. done.
  - intros Hopen Hok.
    pose proof (extract_multiple_articles_open run f urls Hopen) as Hspec.
    pose proof (run_tasks_length run urls 0 f) as Hlen.
    simpl in Hspec.
    set (tasks := (run_tasks urlparse_netloc run 0 f urls).1) in *.
    set (values := if forallb (done_before 300) tasks.*1 then tasks.*2
                   else (λ _, Raised (Exn Exception_ "Timeout")) <$> tasks)
      in *.
    assert (Hvlen : length values = length urls).
    { subst values. destruct (forallb _ _); rewrite length_fmap; done. }
    assert (Hvok : Forall (λ r, not_cancelled r = true) values).
    { subst values. destruct (forallb _ _); [auto|].
      apply Forall_fmap, Forall_forall. done. }
    exists (zip_with entry urls values). split; [auto|].
    split; [rewrite length_zip_with; lia|]. split.
    + intros i url Hi.
      destruct (lookup_lt_is_Some_2 values i) as [v Hv].
      { rewrite Hvlen. eapply lookup_lt_Some; eauto. }
      rewrite lookup_zip_with, Hi, Hv. simpl.
      destruct v as [[t c]|e]; simpl; eauto.
    + intros Hall. subst values. rewrite Hall. done.
Qed.

(** C2 (amended): when the batch timeout expires on an open fetcher, that
    is, when some task is not done after 300 s, exactly the tasks that
    are not done are cancelled, and every URL of the batch is returned as
    failed, those whose task had completed too. *)
Theorem batch_timeout_fails_every_url run f urls :
  _is_closed f = false →
  (∃ i url, urls !! i = Some url ∧ done_before 300 (run i url) = false) →
  (extract_multiple_articles urlparse_netloc run f urls).1.1
  = Returned (failed_entry <$> urls)
  ∧ ∀ i, EvCancel i ∈ (extract_multiple_articles urlparse_netloc run f urls).2
         ↔ ∃ url, urls !! i = Some url ∧ done_before 300 (run i url) = false.
Proof.
  intros Hopen (i0 & u0 & Hi0 & Hp0).
  unfold extract_multiple_articles. rewrite Hopen.
  pose proof (run_tasks_runs run urls 0 f) as Hruns.
  pose proof (run_tasks_length run urls 0 f) as Hlen.
  destruct (run_tasks _ _ _ _ _) as [tasks f']. simpl in *.
  assert (Hlook : ∀ i, tasks.*1 !! i = run i <$> urls !! i).
  { intros i. rewrite Hruns, list_lookup_imap. done. }
  assert (Hnot : forallb (done_before 300) tasks.*1 = false).
  { apply not_true_is_false. intros Hall.
    apply Is_true_true, forallb_True in Hall.
    pose proof (Hlook i0) as H0. rewrite Hi0 in H0. simpl in H0.
    eapply Forall_lookup_1 in Hall; [|exact H0].
    apply Is_true_true in Hall. congruence. }
  rewrite Hnot. simpl. split.
  - rewrite process_results_spec.
    + f_equal. clear -Hlen. revert tasks Hlen.
      induction urls as [|u urls IH]; intros [|k tasks] Hlen;
        simpl in *; try done.
      rewrite IH by lia. done.
    + rewrite length_fmap. done.
    + apply Forall_fmap, Forall_forall. done.
  - intros i. rewrite elem_of_cons. split.
    + intros [Hbad|Hin]; [discriminate|].
      apply list_elem_of_fmap in Hin as (j & Hj & Hin). inversion Hj; subst.
      unfold pending_at in Hin.
      apply list_elem_of_fmap in Hin as ([j' kr] & -> & Hin).
      apply list_elem_of_filter in Hin as [Hp Hin]. simpl in *.
      apply elem_of_lookup_imap in Hin as (n & kr' & Heq & Hn).
      inversion Heq; subst.
      pose proof (Hlook n) as Hl. rewrite list_lookup_fmap, Hn in Hl.
      simpl in Hl. destruct (urls !! n) as [u|] eqn:Hu; [|discriminate].
      simpl in Hl. inversion Hl as [Hk]. exists u. rewrite <- Hk. done.
    + intros (u & Hu & Hp). right.
      pose proof (Hlook i) as Hl. rewrite Hu, list_lookup_fmap in Hl.
      destruct (tasks !! i) as [kr|] eqn:Hk; [|discriminate].
      simpl in Hl. inversion Hl as [Hfst].
      apply list_elem_of_fmap. exists i. split; [done|].
      unfold pending_at. apply list_elem_of_fmap. exists (i, kr).
      split; [done|]. apply list_elem_of_filter. split.
      * simpl. rewrite Hfst. done.
      * apply elem_of_lookup_imap. eauto.
Qed.

End Batch.

(** The batch of three URLs, on a closed and on a fresh fetcher. *)
Lemma batch_one_result_per_url_witness :
  AsyncArticleFetcher.extract_multiple_articles AsyncArticleFetcher.netloc
    Scenario.run3 Scenario.closed_fetcher Scenario.urls3
  = (Returned [], Scenario.closed_fetcher, [])
  ∧ ∃ results,
      (AsyncArticleFetcher.extract_multiple_articles AsyncArticleFetcher.netloc
         Scenario.run3 Scenario.fresh Scenario.urls3).1.1 = Returned results
      ∧ length results = 3%nat
      ∧ results.*1.*1 = Scenario.urls3.
Proof.
  split.
  - apply (proj1 (batch_one_result_per_url AsyncArticleFetcher.netloc
                    Scenario.run3 Scenario.closed_fetcher Scenario.urls3)).
    reflexivity.
  - destruct (proj2 (batch_one_result_per_url AsyncArticleFetcher.netloc
                       Scenario.run3 Scenario.fresh Scenario.urls3))
      as (results & Hr & Hlen & _ & Hall).
    + reflexivity.
    + intros _. vm_compute. repeat constructor.
    + exists results. split; [exact Hr|]. split; [exact Hlen|].
      rewrite Hall by reflexivity. reflexivity.
Defined.

(** C1, as stated, fails: a fetcher that has been cleaned up, as it is
    after every run, returns no entry at all for three URLs. *)
Lemma batch_on_closed_fetcher_is_empty :
  ∃ results,
    (AsyncArticleFetcher.extract_multiple_articles AsyncArticleFetcher.netloc
       Scenario.run3 Scenario.closed_fetcher Scenario.urls3).1.1
    = Returned results
    ∧ length results ≠ length Scenario.urls3.
Proof. exists []. split; [reflexivity|discriminate]. Qed.

(** The three URLs on a fresh fetcher: one entry each, in the order of the
    URLs, though the tasks complete in another order and the second one
    raises. *)
Example batch_of_three :
  (AsyncArticleFetcher.extract_multiple_articles AsyncArticleFetcher.netloc
     Scenario.run3 Scenario.fresh Scenario.urls3).1.1
  = Returned [("https://a.example/1", "A", Scenario.one_long_word);
              ("http://[::1", "Error: Task failed", "");
              ("https://c.example/3", "C", Scenario.one_long_word)].
Proof. reflexivity. Qed.

(** The batch of five URLs with one fetch that never completes. *)
Lemma batch_timeout_fails_every_url_witness :
  (AsyncArticleFetcher.extract_multiple_articles AsyncArticleFetcher.netloc
     Scenario.run5 Scenario.fresh Scenario.urls5).1.1
  = Returned (failed_entry <$> Scenario.urls5)
  ∧ ∀ i, EvCancel i ∈
           (AsyncArticleFetcher.extract_multiple_articles
              AsyncArticleFetcher.netloc Scenario.run5 Scenario.fresh
              Scenario.urls5).2
         ↔ ∃ url, Scenario.urls5 !! i = Some url
                  ∧ AsyncArticleFetcher.done_before 300 (Scenario.run5 i url)
                    = false.
Proof.
  apply (batch_timeout_fails_every_url AsyncArticleFetcher.netloc
           Scenario.run5 Scenario.fresh Scenario.urls5).
  - reflexivity.
  - exists 3%nat, "https://s.example/3". split; reflexivity.
Defined.

(** C2, as stated, fails: the first of the five fetches is done after one
    second, with an article, and its URL is returned as failed all the
    same. *)
Lemma batch_timeout_drops_completed_results :
  AsyncArticleFetcher.done_before 300
    (Scenario.run5 0 "https://s.example/0") = true
  ∧ (AsyncArticleFetcher.extract_single_article AsyncArticleFetcher.netloc
       (AsyncArticleFetcher.network (Scenario.run5 0 "https://s.example/0"))
       Scenario.fresh "https://s.example/0").1.1
    = Returned ("Title", Scenario.one_long_word)
  ∧ ∃ results,
      (AsyncArticleFetcher.extract_multiple_articles AsyncArticleFetcher.netloc
         Scenario.run5 Scenario.fresh Scenario.urls5).1.1 = Returned results
      ∧ results !! 0%nat
        = Some ("https://s.example/0", "Error: Task failed", "")
      ∧ results !! 0%nat
        ≠ Some ("https://s.example/0", "Title", Scenario.one_long_word).
Proof.
  split; [reflexivity|]. split; [reflexivity|].
  eexists. split; [reflexivity|]. split; [reflexivity|discriminate].
Qed.

(** ** Fetching one article *)

Lemma range_split k n :
  0 ≤ k < n → ∃ rest, range n = range k ++ k :: rest.
Proof.
  intros Hk. unfold range.
  exists (Z.of_nat <$> seq (S (Z.to_nat k)) (Z.to_nat n - S (Z.to_nat k))).
  replace (Z.to_nat n)
    with (Z.to_nat k + S (Z.to_nat n - S (Z.to_nat k)))%nat at 1 by lia.
  rewrite seq_app, fmap_app. simpl. rewrite Z2Nat.id by lia. done.
Qed.

Section SingleFetch.

Import AsyncArticleFetcher.

Variable urlparse_netloc : string → outcome string.
Variable w : fetch_world.
Variable c : ScrapingConfig.

Lemma long_is_truthy content : 100 < len content → truthy content = true.
Proof. destruct content; [unfold len; simpl; lia|done]. Qed.

Lemma attempts_failed_step url k rest :
  attempt_fails w url k = true →
  attempts w c url (k :: rest)
  = ((attempts w c url rest).1,
     failed_attempts c url [k] ++ (attempts w c url rest).2).
Proof.
  unfold attempt_fails, failed_attempts, backoff. intros H. simpl.
  destruct (_extract_with_aiohttp w url k) as [[t content]|e].
  - assert (truthy content && (len content >? 100) = false) as ->.
    { apply andb_false_iff. right. lia. }
    destruct (attempts w c url rest). simpl. rewrite app_nil_r. done.
  - rewrite H. destruct (attempts w c url rest). simpl.
    rewrite app_nil_r. done.
Qed.

Lemma failed_attempts_cons url k todo :
  failed_attempts c url (k :: todo)
  = failed_attempts c url [k] ++ failed_attempts c url todo.
Proof. unfold failed_attempts. simpl. rewrite app_nil_r. done. Qed.

Lemma attempts_all_failed url todo :
  Forall (λ k, attempt_fails w url k = true) todo →
  attempts w c url todo = (Returned None, failed_attempts c url todo).
Proof.
  induction 1 as [|k todo Hk _ IH]; [done|].
  rewrite (failed_attempts_cons url k todo), attempts_failed_step, IH
    by done.
  done.
Qed.

Lemma attempts_first_success url pre k rest title content :
  Forall (λ j, attempt_fails w url j = true) pre →
  _extract_with_aiohttp w url k = Returned (title, content) →
  100 < len content →
  attempts w c url (pre ++ k :: rest)
  = (Returned (Some (title, content)),
     failed_attempts c url pre ++ [EvGet url]).
Proof.
  intros Hpre Hk Hlong. induction Hpre as [|j pre Hj _ IH].
  - simpl. rewrite Hk, long_is_truthy by done.
    replace (len content >? 100) with true by lia. done.
  - rewrite <- app_comm_cons, attempts_failed_step, IH by done.
    rewrite (failed_attempts_cons url j pre), <- app_assoc. done.
Qed.

Lemma attempts_found_long url todo title content tr :
  attempts w c url todo = (Returned (Some (title, content)), tr) →
  100 < len content.
Proof.
  revert tr. induction todo as [|k todo IH]; intros tr; simpl; [done|].
  destruct (attempts w c url todo) as [r' tr'].
  destruct (_extract_with_aiohttp w url k) as [[t ct]|e].
  - destruct (truthy ct && (len ct >? 100)) eqn:E.
    + intros [= <- <- _]. apply andb_true_iff in E. lia.
    + intros [= -> _]. eauto.
  - destruct (is_Exception e); [|done]. intros [= -> _]. eauto.
Qed.

Lemma attempts_calm url todo :
  calm w → not_cancelled (attempts w c url todo).1 = true.
Proof.
  intros [_ Hcalm]. induction todo as [|k todo IH]; simpl; [done|].
  destruct (attempts w c url todo) as [r' tr'].
  specialize (Hcalm url k).
  destruct (_extract_with_aiohttp w url k) as [[t ct]|e].
  - destruct (truthy ct && (len ct >? 100)); done.
  - simpl in Hcalm. rewrite Hcalm. done.
Qed.

Lemma resolve_calm url :
  calm w → ∃ resolved, (_resolve_google_news_url w url).1 = Returned resolved.
Proof.
  intros [Hcalm _]. unfold _resolve_google_news_url.
  destruct (negb _); [eauto|]. specialize (Hcalm url).
  destruct (resolve_get w url); simpl in *; [eauto|].
  rewrite Hcalm. eauto.
Qed.

End SingleFetch.

Section SingleFetchClaims.

Import AsyncArticleFetcher.

Variable urlparse_netloc : string → outcome string.

(** What [extract_single_article] gives once every attempt has failed. *)
Lemma extract_single_article_exhausted w f url resolved tr0 :
  _is_closed f = false →
  _resolve_google_news_url w url = (Returned resolved, tr0) →
  Forall (λ j, attempt_fails w resolved j = true)
    (range (max_retries (config f))) →
  (extract_single_article urlparse_netloc w f url).1.1
  = match urlparse_netloc url with
    | Returned domain =>
        Returned ("Error: Extraction failed", placeholder domain url)
    | Raised e => Raised e
    end
  ∧ (extract_single_article urlparse_netloc w f url).2
    = tr0 ++ failed_attempts (config f) resolved
               (range (max_retries (config f))).
Proof.
  intros Hopen Hres Hall. unfold extract_single_article.
  rewrite Hopen, Hres, attempts_all_failed by done.
  unfold _generate_fallback_content, placeholder.
  destruct (urlparse_netloc url); done.
Qed.

(** C8 (amended): in [extract_single_article] the threshold is on the
    number of characters.  On a fetcher that is open and whose semaphore
    has a permit, an attempt whose content has at most 100
    characters goes the way of an attempt that raised: a pause of
    [2^attempt] seconds unless it was the last of the [max_retries]
    attempts, then the next attempt.  The first attempt whose content
    has more than 100 characters is returned, and only such content is
    returned from the loop; when all [max_retries] attempts fail, the
    failure title and the fallback content are returned. *)
Theorem short_content_is_retried w f url resolved tr0 :
  _is_closed f = false →
  0 < permits f →
  _resolve_google_news_url w url = (Returned resolved, tr0) →
  let c := config f in
  let n := max_retries c in
  (∀ k title content,
     0 ≤ k < n →
     Forall (λ j, attempt_fails w resolved j = true) (range k) →
     _extract_with_aiohttp w resolved k = Returned (title, content) →
     100 < len content →
     (extract_single_article urlparse_netloc w f url).1.1
     = Returned (title, content)
     ∧ (extract_single_article urlparse_netloc w f url).2
       = tr0 ++ failed_attempts c resolved (range k) ++ [EvGet resolved])
  ∧ (Forall (λ j, attempt_fails w resolved j = true) (range n) →
     (extract_single_article urlparse_netloc w f url).1.1
     = match urlparse_netloc url with
       | Returned domain =>
           Returned ("Error: Extraction failed", placeholder domain url)
       | Raised e => Raised e
       end
     ∧ (extract_single_article urlparse_netloc w f url).2
       = tr0 ++ failed_attempts c resolved (range n))
  ∧ (∀ title content tr,
       attempts w c resolved (range n)
       = (Returned (Some (title, content)), tr) →
       100 < len content).
Proof.
  intros Hopen _ Hres c n. split; [|split].
  - intros k title content Hk Hpre Hget Hlong.
    destruct (range_split k n Hk) as [rest Hsplit].
    unfold extract_single_article. rewrite Hopen, Hres.
    fold c. fold n. rewrite Hsplit.
    rewrite (attempts_first_success w c resolved (range k) k rest
               title content) by done.
    done.
  - apply extract_single_article_exhausted; done.
  - intros title content tr. apply attempts_found_long.
Qed.

(** C9 (amended): on a closed fetcher [extract_single_article] returns
    the closed marker with empty content.  On an open one whose semaphore
    has a permit, when nothing it awaits is cancelled, it raises only what
    [urlparse] raises on the URL; and once every attempt has failed it
    returns the failure title with the placeholder made of the URL and of
    its network location, which is not empty, whatever the host of the
    URL. *)
Theorem failed_fetch_gets_placeholder w f url :
  (_is_closed f = true →
   extract_single_article urlparse_netloc w f url
   = (Returned ("Error: Fetcher closed", ""), f, []))
  ∧ (_is_closed f = false → 0 < permits f → calm w →
     (∀ e, (extract_single_article urlparse_netloc w f url).1.1 = Raised e →
           urlparse_netloc url = Raised e)
     ∧ (∀ resolved tr0 domain,
          _resolve_google_news_url w url = (Returned resolved, tr0) →
          Forall (λ j, attempt_fails w resolved j = true)
            (range (max_retries (config f))) →
          urlparse_netloc url = Returned domain →
          (extract_single_article urlparse_netloc w f url).1.1
          = Returned ("Error: Extraction failed", placeholder domain url)
          ∧ placeholder domain url ≠ "")).
Proof.
  split.
  - intros Hc. unfold extract_single_article. rewrite Hc. done.
  - intros Hopen _ Hcalm. split.
    + intros e. unfold extract_single_article. rewrite Hopen.
      destruct (resolve_calm w url Hcalm) as [resolved Hres].
      destruct (_resolve_google_news_url w url) as [r0 tr0].
      simpl in Hres. subst r0.
      pose proof (attempts_calm w (config f) resolved
                    (range (max_retries (config f))) Hcalm) as Hatt.
      destruct (attempts w (config f) resolved _) as [[[found|]|e'] tr']
        eqn:Ha; simpl in *; try done.
      * unfold _generate_fallback_content.
        destruct (urlparse_netloc url); simpl; congruence.
      * intros [= ->].
        assert (Hexn : ∀ todo e0 tr,
                  attempts w (config f) resolved todo = (Raised e0, tr) →
                  is_Exception e0 = false).
        { clear. induction todo as [|k todo IH]; intros e0 tr; simpl;
            [done|].
          destruct (attempts w (config f) resolved todo) as [r' tr'].
          destruct (_extract_with_aiohttp w resolved k) as [[t ct]|e1].
          - destruct (truthy ct && (len ct >? 100)); [done|].
            intros [= -> _]. eauto.
          - destruct (is_Exception e1) eqn:E; [|congruence].
            intros [= -> _]. eauto. }
        apply Hexn in Ha. congruence.
    + intros resolved tr0 domain Hres Hall Hdom.
      destruct (extract_single_article_exhausted w f url resolved tr0
                  Hopen Hres Hall) as [Hr _].
      rewrite Hr, Hdom. done.
Qed.

End SingleFetchClaims.

(** The flaky site on a fresh fetcher of three attempts: the short answer
    and the failed request are each followed by their pause, the third
    answer is returned. *)
Lemma short_content_is_retried_witness :
  (AsyncArticleFetcher.extract_single_article AsyncArticleFetcher.netloc
     Scenario.flaky Scenario.fresh "https://a.example/1").1.1
  = Returned ("T", Scenario.one_long_word)
  ∧ (AsyncArticleFetcher.extract_single_article AsyncArticleFetcher.netloc
       Scenario.flaky Scenario.fresh "https://a.example/1").2
    = [EvGet "https://a.example/1"; EvSleep 1;
       EvGet "https://a.example/1"; EvSleep 2;
       EvGet "https://a.example/1"].
Proof.
  apply (proj1 (short_content_is_retried AsyncArticleFetcher.netloc
                  Scenario.flaky Scenario.fresh "https://a.example/1"
                  "https://a.example/1" [] eq_refl eq_refl eq_refl)
           2 "T" Scenario.one_long_word).
  - simpl. lia.
  - repeat constructor.
  - reflexivity.
  - vm_compute. reflexivity.
Defined.

(** C8, as stated, fails: an article of one word, 101 characters long, is
    returned at the first attempt. *)
Lemma one_long_word_is_a_success :
  length (split Scenario.one_long_word) = 1%nat
  ∧ AsyncArticleFetcher.extract_single_article AsyncArticleFetcher.netloc
      (Scenario.serving "T" Scenario.one_long_word) Scenario.fresh
      "https://a.example/1"
    = (Returned ("T", Scenario.one_long_word),
       AsyncArticleFetcher.set_session_manager Scenario.fresh
         (AsyncSessionManager.get_session
            (AsyncSessionManager.get_semaphore
               (AsyncArticleFetcher.session_manager Scenario.fresh))),
       [EvGet "https://a.example/1"]).
Proof. split; reflexivity. Qed.

(** An unreachable page on a host that redirects nothing. *)
Lemma failed_fetch_gets_placeholder_witness :
  (AsyncArticleFetcher.extract_single_article AsyncArticleFetcher.netloc
     Scenario.unreachable Scenario.fresh "https://blog.example/post").1.1
  = Returned ("Error: Extraction failed",
              placeholder "blog.example" "https://blog.example/post")
  ∧ placeholder "blog.example" "https://blog.example/post" ≠ "".
Proof.
  apply (proj2 (proj2 (failed_fetch_gets_placeholder
                         AsyncArticleFetcher.netloc Scenario.unreachable
                         Scenario.fresh "https://blog.example/post")
                  eq_refl eq_refl
                  (conj (λ _, eq_refl) (λ _ _, eq_refl)))
           "https://blog.example/post" [] "blog.example").
  - reflexivity.
  - repeat constructor.
  - reflexivity.
Defined.

(** C9, as stated, fails: the URL below is not a Google News link and
    resolves to itself, and its failed fetch is given the placeholder. *)
Lemma placeholder_for_any_failed_url :
  contains "news.google.com" "https://blog.example/post" = false
  ∧ AsyncArticleFetcher._resolve_google_news_url Scenario.unreachable
      "https://blog.example/post" = (Returned "https://blog.example/post", [])
  ∧ (AsyncArticleFetcher.extract_single_article AsyncArticleFetcher.netloc
       Scenario.unreachable Scenario.fresh "https://blog.example/post").1.1
    = Returned
        ("Error: Extraction failed",
         "Content from blog.example could not be extracted. Source: https://blog.example/post").
Proof. repeat split; reflexivity. Qed.


(** ** The deduplicator *)

Section Dedup.

Import DedupEngine.

Variable sha256 md5 : string → string.
Variable ratio : string → string → Q.

Abbreviation fingerprint_of := (_create_content_fingerprint sha256 md5).
Abbreviation add_content := (DedupEngine.add_content sha256 md5 ratio).
Abbreviation find_similar_content :=
  (DedupEngine.find_similar_content sha256 md5 ratio).

Lemma String_eqb_true a b : String.eqb a b = true ↔ a = b.
Proof. apply String.eqb_eq. Qed.


(** *** The dictionary *)

Lemma elem_of_dict_set {V} k (v x : V) d :
  x ∈ dict_values (dict_set k v d) → x = v ∨ x ∈ dict_values d.
Proof.
  unfold dict_values. induction d as [|[k' v'] d IH]; simpl.
  - rewrite list_elem_of_singleton. auto.
  - destruct (String.eqb k k'); simpl; rewrite !elem_of_cons; tauto.
Qed.

Lemma dict_set_elem_of {V} k (v : V) d :
  v ∈ dict_values (dict_set k v d).
Proof.
  unfold dict_values. induction d as [|[k' v'] d IH]; simpl.
  - apply elem_of_cons. auto.
  - destruct (String.eqb k k'); simpl; apply elem_of_cons; auto.
Qed.

Lemma elem_of_dict_pop {V} k (x : V) d :
  x ∈ dict_values (dict_pop k d) → x ∈ dict_values d.
Proof.
  unfold dict_values, dict_pop. intros Hx.
  apply list_elem_of_fmap in Hx as (kv & -> & Hkv).
  apply list_elem_of_filter in Hkv as [_ Hkv].
  apply list_elem_of_fmap_2. done.
Qed.

(** The hashes of a fingerprint do not depend on the clock or the URL. *)
Lemma fingerprint_hashes now1 now2 title_ content url1 url2 :
  content_hash (fingerprint_of now1 title_ content url1)
  = content_hash (fingerprint_of now2 title_ content url2)
  ∧ title_hash (fingerprint_of now1 title_ content url1)
    = title_hash (fingerprint_of now2 title_ content url2).
Proof. done. Qed.

(** What a successful [add_content] leaves. *)
Lemma add_content_true w s title_ content url_ :
  (add_content w s title_ content url_).1 = true →
  (add_content w s title_ content url_).2
  = _save_fingerprints (written w)
      (_add_to_cache (fingerprint_of (now w) title_ content url_) s).
Proof.
  unfold DedupEngine.add_content.
  repeat case_bool_decide; simpl; try done.
  destruct (find_similar_content _ _ _ _); simpl; done.
Qed.

(** C3: when [add_content] returns true, the fingerprint is in the
    dictionary, its hashes are in the two caches, and it is in the file if
    the file could be written; and a second [add_content] with the same
    title, content and URL returns false and changes nothing. *)
Theorem add_content_twice w1 w2 s title_ content url_ :
  (add_content w1 s title_ content url_).1 = true →
  let fp := fingerprint_of (now w1) title_ content url_ in
  let s1 := (add_content w1 s title_ content url_).2 in
  fp ∈ dict_values (fingerprints s1)
  ∧ content_hash fp ∈ content_cache s1
  ∧ title_hash fp ∈ title_cache s1
  ∧ (written w1 = true →
     ∃ file, FINGERPRINT_FILE s1 = Some file ∧ fp ∈ file)
  ∧ add_content w2 s1 title_ content url_ = (false, s1).
Proof.
  intros Hadd fp s1. subst s1. rewrite (add_content_true _ _ _ _ _ Hadd).
  fold fp.
  assert (Hin : fp ∈ dict_values
                  (fingerprints (_add_to_cache fp s))).
  { simpl. apply dict_set_elem_of. }
  assert (Hc : content_hash fp ∈ content_cache
                 (_save_fingerprints (written w1) (_add_to_cache fp s))).
  { unfold _save_fingerprints.
    destruct (written w1); simpl; apply elem_of_union_l, elem_of_singleton;
      done. }
  repeat split.
  - unfold _save_fingerprints. destruct (written w1); done.
  - done.
  - unfold _save_fingerprints.
    destruct (written w1); simpl; apply elem_of_union_l, elem_of_singleton;
      done.
  - intros ->. simpl. eauto.
  - unfold DedupEngine.add_content.
    rewrite bool_decide_eq_true_2; [done|].
    destruct (fingerprint_hashes (now w2) (now w1) title_ content url_ url_)
      as [-> _].
    done.
Qed.

(** *** Stripping URLs *)

Lemma after_Some p : ∀ s r, after p s = Some r → s = p +:+ r.
Proof.
  induction p as [|a p IH]; intros s r.
  - simpl. intros [= ->]. done.
  - destruct s as [|b s]; simpl; [done|].
    destruct (Ascii.eqb a b) eqn:E; [|done].
    apply Ascii.eqb_eq in E as ->. intros H. apply IH in H as ->. done.
Qed.

Lemma startswith_app p r : startswith p (p +:+ r) = true.
Proof.
  unfold startswith.
  assert (after p (p +:+ r) = Some r) as ->; [|done].
  induction p as [|a p IH]; [by destruct r|].
  change (String a p +:+ r) with (String a (p +:+ r)). simpl.
  rewrite Ascii.eqb_refl. done.
Qed.

Lemma startswith_Some p s :
  startswith p s = true → ∃ r, s = p +:+ r.
Proof.
  unfold startswith. destruct (after p s) eqn:E; [|done].
  intros _. eauto using after_Some.
Qed.

Lemma startswith_cons a p c s :
  startswith (String a p) (String c s) = true ↔
  a = c ∧ startswith p s = true.
Proof.
  unfold startswith. simpl. destruct (Ascii.eqb a c) eqn:E.
  - apply Ascii.eqb_eq in E. tauto.
  - apply Ascii.eqb_neq in E. split; [done|]. intros [? _]. done.
Qed.

(** Inside a match, what is kept starts with white space. *)
Lemma strip_urls_in_match s :
  strip_urls_go true s = ""
  ∨ ∃ c r, strip_urls_go true s = String c r ∧ isspace c = true.
Proof.
  induction s as [|c s IH]; simpl; [auto|].
  destruct (isspace c) eqn:E; eauto.
Qed.

(** A word at the head of the stripped text is at the head of the
    text. *)
Lemma startswith_strip_urls s : ∀ p,
  no_space p = true →
  startswith p (strip_urls_go false s) = true →
  startswith p s = true.
Proof.
  induction s as [|c s IH]; intros p Hp; [done|].
  destruct p as [|a p]; [done|].
  simpl in Hp. apply andb_true_iff in Hp as [Ha Hp].
  cbn [strip_urls_go].
  destruct (url_at (String c s)).
  - destruct (strip_urls_in_match s) as [->|(c' & r & -> & Hc)]; [done|].
    rewrite startswith_cons. intros [-> _]. rewrite Hc in Ha. done.
  - rewrite !startswith_cons. intros [-> H]. auto.
Qed.

Lemma url_tail_Some r :
  url_tail r = true →
  ∃ x rest, r = "://" +:+ String x rest ∧ isspace x = false.
Proof.
  unfold url_tail. destruct (after "://" r) as [[|x rest]|] eqn:E;
    try done.
  intros H. apply after_Some in E. exists x, rest.
  split; [done|]. by apply negb_true_iff.
Qed.

(** A match at the head of a text is decided by a word at its head. *)
Lemma url_at_word s :
  url_at s = true →
  ∃ p, no_space p = true ∧ startswith p s = true
       ∧ ∀ t, startswith p t = true → url_at t = true.
Proof.
  unfold url_at at 1. destruct (after "http" s) as [r|] eqn:E; [|done].
  apply after_Some in E as ->.
  assert (Hplain : url_tail r = true →
            ∃ p, no_space p = true ∧ startswith p ("http" +:+ r) = true
                 ∧ ∀ t, startswith p t = true → url_at t = true).
  { intros H. apply url_tail_Some in H as (x & rest & -> & Hx).
    exists ("http://" +:+ String x ""). split; [|split].
    - simpl. rewrite Hx. done.
    - apply (startswith_app ("http://" +:+ String x "") rest).
    - intros t Ht. apply startswith_Some in Ht as [r' ->].
      unfold url_at, url_tail. simpl. rewrite Hx. done. }
  destruct (after "s" r) as [r'|] eqn:E'; [|exact Hplain].
  apply after_Some in E' as ->.
  intros H. apply orb_true_iff in H as [H|H]; [|auto].
  apply url_tail_Some in H as (x & rest & -> & Hx).
  exists ("https://" +:+ String x ""). split; [|split].
  - simpl. rewrite Hx. done.
  - apply (startswith_app ("https://" +:+ String x "") rest).
  - intros t Ht. apply startswith_Some in Ht as [r' ->].
    unfold url_at, url_tail. simpl. rewrite Hx. done.
Qed.

Lemma url_at_head c s : url_at (String c s) = true → isspace c = false.
Proof.
  unfold url_at. cbn [after]. destruct (Ascii.eqb "h" c) eqn:E; [|done].
  apply Ascii.eqb_eq in E as <-. done.
Qed.

(** The stripped text has no URL left. *)
Lemma has_url_strip_urls s : ∀ b, has_url (strip_urls_go b s) = false.
Proof.
  induction s as [|c s IH]; intros b; [by destruct b|].
  cbn [strip_urls_go]. destruct b.
  - destruct (isspace c) eqn:Hc; [|done].
    cbn [has_url]. rewrite IH, orb_false_r.
    apply not_true_is_false. intros H%url_at_head. congruence.
  - destruct (url_at (String c s)) eqn:Hu; [done|].
    cbn [has_url]. rewrite IH, orb_false_r.
    apply not_true_is_false. intros H.
    apply url_at_word in H as (p & Hp & Hstart & Hdecides).
    assert (Hs : startswith p (strip_urls_go false (String c s)) = true).
    { cbn [strip_urls_go]. rewrite Hu. done. }
    apply startswith_strip_urls in Hs; [|done].
    apply Hdecides in Hs. congruence.
Qed.

(** A text without URLs is left as it is. *)
Lemma strip_urls_id s : has_url s = false → strip_urls s = s.
Proof.
  unfold strip_urls. induction s as [|c s IH]; [done|].
  cbn [has_url strip_urls_go]. intros H.
  apply orb_false_iff in H as [-> H]. rewrite IH; done.
Qed.

(** *** What the stores hold *)

Lemma fingerprint_url_free now_ title_ content url_ :
  url_free_hash sha256
    (content_hash (fingerprint_of now_ title_ content url_)).
Proof.
  eexists. split; [reflexivity|]. apply has_url_strip_urls.
Qed.

Lemma url_free_add_to_cache fp s :
  url_free_hash sha256 (content_hash fp) →
  url_free_store sha256 s → url_free_store sha256 (_add_to_cache fp s).
Proof.
  intros Hfp (Hc & Hd & Hf). split; [|split]; simpl.
  - intros h [->%elem_of_singleton|Hh]%elem_of_union; auto.
  - apply Forall_forall. intros x [->|Hx]%elem_of_dict_set; [done|].
    rewrite Forall_forall in Hd. auto.
  - done.
Qed.

Lemma url_free_remove_from_cache fp s :
  url_free_store sha256 s → url_free_store sha256 (_remove_from_cache fp s).
Proof.
  intros (Hc & Hd & Hf). split; [|split]; simpl.
  - intros h [Hh _]%elem_of_difference. auto.
  - apply Forall_forall. intros x Hx%elem_of_dict_pop.
    rewrite Forall_forall in Hd. auto.
  - done.
Qed.

Lemma url_free_save written_ s :
  url_free_store sha256 s →
  url_free_store sha256 (_save_fingerprints written_ s).
Proof.
  intros (Hc & Hd & Hf). unfold _save_fingerprints.
  destruct written_; [|done]. split; [|split]; simpl; try done.
  intros file [= <-]. done.
Qed.

Lemma url_free_reachable s :
  reachable sha256 md5 ratio s → url_free_store sha256 s.
Proof.
  induction 1 as [threshold|w s title_ content url_ _ IH
                  |w days s _ IH|threshold s _ IH].
  - split; [|split]; simpl; [|done|done].
    intros h Hh%elem_of_empty. done.
  - unfold DedupEngine.add_content.
    repeat case_bool_decide; simpl; try done.
    destruct (find_similar_content _ _ _ _); simpl; [|done].
    apply url_free_save, url_free_add_to_cache; [|done].
    apply fingerprint_url_free.
  - unfold cleanup_old_fingerprints.
    set (old := filter _ _).
    assert (Hfold : ∀ l s0, url_free_store sha256 s0 →
              url_free_store sha256
                (foldl (λ s fp, _remove_from_cache fp s) s0 l)).
    { induction l as [|fp l IHl]; intros s0 H0; [done|].
      simpl. apply IHl, url_free_remove_from_cache. done. }
    destruct old eqn:E; [by apply Hfold|].
    rewrite <- E. apply url_free_save, Hfold. done.
  - destruct IH as (_ & _ & Hf). unfold init.
    destruct (FINGERPRINT_FILE s) as [file|] eqn:E; simpl.
    + specialize (Hf file eq_refl).
      assert (Hfold : ∀ l s0,
                Forall (λ fp, url_free_hash sha256 (content_hash fp)) l →
                url_free_store sha256 s0 →
                url_free_store sha256
                  (foldl (λ s fp, _add_to_cache fp s) s0 l)).
      { induction l as [|fp l IHl]; intros s0 Hl H0; [done|].
        apply Forall_cons in Hl as [Hfp Hl].
        simpl. apply IHl; [done|]. by apply url_free_add_to_cache. }
      apply Hfold; [done|].
      split; [|split]; simpl; [|done|].
      * intros h Hh%elem_of_empty. done.
      * intros file' [= <-]. done.
    + split; [|split]; simpl; [|done|done].
      intros h Hh%elem_of_empty. done.
Qed.

(** Stripping the markdown characters keeps a link. *)
Lemma link_at_strip_markdown s :
  link_at s = true → url_at (strip_markdown s) = true.
Proof.
  unfold link_at. intros [H|H]%orb_true_iff.
  - destruct (after "http://" s) as [[|c r]|] eqn:E; try done.
    apply after_Some in E as ->.
    apply andb_true_iff in H as [Hs Hm]. apply negb_true_iff in Hs, Hm.
    change ("http://" +:+ String c r)
      with (String "h" (String "t" (String "t" (String "p" (String ":"
             (String "/" (String "/" (String c r)))))))).
    cbn [strip_markdown]. rewrite Hm.
    unfold url_at, url_tail. simpl. rewrite Hs. done.
  - destruct (after "https://" s) as [[|c r]|] eqn:E; try done.
    apply after_Some in E as ->.
    apply andb_true_iff in H as [Hs Hm]. apply negb_true_iff in Hs, Hm.
    change ("https://" +:+ String c r)
      with (String "h" (String "t" (String "t" (String "p" (String "s"
             (String ":" (String "/" (String "/" (String c r))))))))).
    cbn [strip_markdown]. rewrite Hm.
    unfold url_at, url_tail. simpl. rewrite Hs. done.
Qed.

Lemma holds_link_has_url s :
  holds_link s = true → has_url (strip_markdown s) = true.
Proof.
  induction s as [|a s IH]; [done|].
  cbn [holds_link]. intros [H|H]%orb_true_iff.
  - apply link_at_strip_markdown in H. revert H.
    generalize (strip_markdown (String a s)).
    intros [|b x] H; cbn [has_url]; rewrite H; done.
  - apply IH in H. cbn [strip_markdown].
    destruct (markdown_char a); [done|].
    cbn [has_url]. rewrite H. apply orb_true_r.
Qed.

Lemma has_url_strip_urls_neq text :
  has_url text = true → strip_urls text ≠ text.
Proof.
  intros Hurl Heq.
  pose proof (has_url_strip_urls text false) as Hno.
  unfold strip_urls in Heq. rewrite Heq in Hno. congruence.
Qed.

(** C10 (amended): what decides is the content stripped of its markdown
    characters, not the content.  After a successful [add_content],
    [is_duplicate_content] of the same content is true when the stripped
    content holds no http(s) URL.  When it holds one, the hash that was
    stored is that of another text, the stripped content without its URLs;
    so [is_duplicate_content] is false, provided that it was false before
    the call and that the hashes of these two texts differ.  The stripped
    content holds a URL, in particular, when the content holds [http://]
    or [https://] followed by a character that is neither white space nor
    a markdown character. *)
Theorem is_duplicate_content_after_add w s title_ content url_ :
  (add_content w s title_ content url_).1 = true →
  let s1 := (add_content w s title_ content url_).2 in
  let stripped := strip_markdown content in
  (has_url stripped = false → is_duplicate_content sha256 s1 content = true)
  ∧ (has_url stripped = true →
     strip_urls stripped ≠ stripped
     ∧ (is_duplicate_content sha256 s content = false →
        sha256 stripped ≠ sha256 (strip_urls stripped) →
        is_duplicate_content sha256 s1 content = false))
  ∧ (holds_link content = true → has_url stripped = true).
Proof.
  intros Hadd s1 stripped. subst s1.
  rewrite (add_content_true _ _ _ _ _ Hadd).
  assert (Hcache : ∀ b x,
            content_cache (_save_fingerprints b x) = content_cache x).
  { intros [] x; done. }
  unfold is_duplicate_content. rewrite Hcache. simpl. fold stripped.
  split; [|split].
  - intros Hurl. apply bool_decide_eq_true.
    apply elem_of_union_l, elem_of_singleton.
    rewrite strip_urls_id; done.
  - intros Hurl. split; [by apply has_url_strip_urls_neq|].
    intros Hbefore Hne. apply bool_decide_eq_false in Hbefore.
    apply bool_decide_eq_false.
    intros [Hin%elem_of_singleton|Hin]%elem_of_union; done.
  - apply holds_link_has_url.
Qed.

(** *** The similarity search *)




End Dedup.

(** ** The similarity search in binary64 *)

Section DedupFloat.

Import DedupEngine PrimFloat.

Variable sha256 md5 : string → string.
Variable ratio : string → string → float.














End DedupFloat.

Section DedupFloatCases.

Import PrimFloat.



End DedupFloatCases.

(** A first and a second [add_content] of the same text on an empty
    store. *)
Lemma add_content_twice_witness :
  DedupEngine.add_content Scenario.plain_hash Scenario.plain_hash
    Scenario.same_string Scenario.morning
    (DedupEngine.add_content Scenario.plain_hash Scenario.plain_hash
       Scenario.same_string Scenario.morning Scenario.empty_store
       "Title" Scenario.without_link "u").2
    "Title" Scenario.without_link "u"
  = (false,
     (DedupEngine.add_content Scenario.plain_hash Scenario.plain_hash
        Scenario.same_string Scenario.morning Scenario.empty_store
        "Title" Scenario.without_link "u").2).
Proof.
  apply (add_content_twice Scenario.plain_hash Scenario.plain_hash
           Scenario.same_string Scenario.morning Scenario.morning
           Scenario.empty_store "Title" Scenario.without_link "u").
  vm_compute. reflexivity.
Defined.

(** A text with a link and a text without one, each added to an empty
    store and then looked up. *)
Lemma is_duplicate_content_after_add_witness :
  DedupEngine.is_duplicate_content Scenario.plain_hash
    (DedupEngine.add_content Scenario.plain_hash Scenario.plain_hash
       Scenario.same_string Scenario.morning Scenario.empty_store
       "Title" Scenario.with_link "u").2 Scenario.with_link
  = false
  ∧ DedupEngine.is_duplicate_content Scenario.plain_hash
      (DedupEngine.add_content Scenario.plain_hash Scenario.plain_hash
         Scenario.same_string Scenario.morning Scenario.empty_store
         "Title" Scenario.without_link "u").2 Scenario.without_link
    = true.
Proof.
  split.
  - apply (proj2 (proj1 (proj2 (is_duplicate_content_after_add
                                  Scenario.plain_hash Scenario.plain_hash
                                  Scenario.same_string Scenario.morning
                                  Scenario.empty_store "Title"
                                  Scenario.with_link "u" eq_refl))
                    eq_refl)).
    + reflexivity.
    + vm_compute. discriminate.
  - apply (proj1 (is_duplicate_content_after_add Scenario.plain_hash
                    Scenario.plain_hash Scenario.same_string Scenario.morning
                    Scenario.empty_store "Title" Scenario.without_link "u"
                    eq_refl)).
    reflexivity.
Defined.

(** C10, as stated, fails both ways.  The first content holds a URL, which
    ends with the markdown character that follows [://]: it is a duplicate
    after it was added.  The second holds none, its [http] being set in
    markdown: it is not a duplicate after it was added. *)
Lemma a_url_in_the_content_does_not_decide :
  (DedupEngine.has_url Scenario.url_of_markdown = true
   ∧ (DedupEngine.add_content Scenario.plain_hash Scenario.plain_hash
        Scenario.same_string Scenario.morning Scenario.empty_store
        "Title" Scenario.url_of_markdown "u").1 = true
   ∧ DedupEngine.is_duplicate_content Scenario.plain_hash
       (DedupEngine.add_content Scenario.plain_hash Scenario.plain_hash
          Scenario.same_string Scenario.morning Scenario.empty_store
          "Title" Scenario.url_of_markdown "u").2 Scenario.url_of_markdown
     = true)
  ∧ (DedupEngine.has_url Scenario.url_under_markdown = false
     ∧ (DedupEngine.add_content Scenario.plain_hash Scenario.plain_hash
          Scenario.same_string Scenario.morning Scenario.empty_store
          "Title" Scenario.url_under_markdown "u").1 = true
     ∧ DedupEngine.is_duplicate_content Scenario.plain_hash
         (DedupEngine.add_content Scenario.plain_hash Scenario.plain_hash
            Scenario.same_string Scenario.morning Scenario.empty_store
            "Title" Scenario.url_under_markdown "u").2
         Scenario.url_under_markdown
       = false).
Proof. repeat split; vm_compute; reflexivity. Qed.

(** ** The run loop *)

Section Run.

Import Schedule.

Implicit Types (w : run_world) (s : BlogScheduler) (tr : list event).










Lemma teardown_app tr1 tr2 :
  teardown_only tr1 → teardown_only tr2 → teardown_only (tr1 ++ tr2).
Proof. intros. apply Forall_app. done. Qed.

Lemma close_teardown cw m :
  teardown_only (AsyncSessionManager.close cw m).2.
Proof.
  unfold AsyncSessionManager.close.
  destruct (AsyncSessionManager._is_closed m); simpl; [constructor|].
  destruct (AsyncSessionManager._session m) as [[[]]|]; simpl;
    try constructor.
  destruct cw; simpl; repeat constructor.
Qed.

Lemma fetcher_cleanup_teardown cw f :
  teardown_only (AsyncArticleFetcher.cleanup cw f).2.
Proof.
  unfold AsyncArticleFetcher.cleanup.
  destruct (AsyncArticleFetcher._is_closed f); simpl; [constructor|].
  pose proof (close_teardown (AsyncArticleFetcher.session_close cw)
                (AsyncArticleFetcher.session_manager f)) as Hclose.
  destruct (AsyncSessionManager.close _ _) as [[r m] tr]. simpl in Hclose.
  assert (Hcancel : ∀ l : list Task,
            teardown_only
              ((EvCancel ∘ task_id <$> filter (λ k, done k = false) l)
               ++ [EvGather 10 (AsyncArticleFetcher.grace_expired cw)])).
  { intros l. apply teardown_app; [|repeat constructor].
    apply Forall_fmap, Forall_forall. done. }
  destruct r; simpl.
  - apply teardown_app.
    + destruct (AsyncArticleFetcher._active_tasks f); [constructor|done].
    + apply teardown_app; [done|]. repeat constructor.
  - apply teardown_app; [|done].
    destruct (AsyncArticleFetcher._active_tasks f); [constructor|done].
Qed.

Lemma fetcher_cleanup_closes cw f :
  AsyncArticleFetcher._is_closed (AsyncArticleFetcher.cleanup cw f).1.2
  = true.
Proof.
  unfold AsyncArticleFetcher.cleanup.
  destruct (AsyncArticleFetcher._is_closed f) eqn:E; simpl; [done|].
  destruct (AsyncSessionManager.close _ _) as [[r m] tr].
  destruct r; done.
Qed.

Lemma post_run_cleanup_spec cw s :
  teardown_only (_post_run_cleanup cw s).2
  ∧ _shutdown_requested (_post_run_cleanup cw s).1.2 = _shutdown_requested s
  ∧ stats (_post_run_cleanup cw s).1.2 = stats s
  ∧ AsyncArticleFetcher._is_closed
      (async_fetcher (_post_run_cleanup cw s).1.2) = true.
Proof.
  unfold _post_run_cleanup.
  pose proof (fetcher_cleanup_teardown cw (async_fetcher s)) as Ht.
  pose proof (fetcher_cleanup_closes cw (async_fetcher s)) as Hc.
  destruct (AsyncArticleFetcher.cleanup cw (async_fetcher s))
    as [[r f] tr].
  simpl in *. destruct r; simpl; repeat split; try done.
  apply teardown_app; [done|]. repeat constructor.
Qed.

(** The cleanup returns, unless closing the session was cancelled. *)
Lemma post_run_cleanup_returns cw s :
  not_cancelled (AsyncArticleFetcher.session_close cw) = true →
  (_post_run_cleanup cw s).1.1 = Returned tt.
Proof.
  intros Hc. unfold _post_run_cleanup, AsyncArticleFetcher.cleanup.
  destruct (AsyncArticleFetcher._is_closed (async_fetcher s)); [done|].
  unfold AsyncSessionManager.close.
  destruct (AsyncSessionManager._is_closed _); [done|].
  destruct (AsyncSessionManager._session _) as [[[]]|]; simpl; try done.
  destruct (AsyncArticleFetcher.session_close cw) as [[]|e]; simpl in *;
    [done|].
  rewrite Hc. done.
Qed.

Lemma shutdown_spec cw s :
  ∃ rest,
    (shutdown cw s).2 = EvShutdownRequested :: rest
    ∧ teardown_only rest
    ∧ _shutdown_requested (shutdown cw s).1.2 = true.
Proof.
  unfold shutdown.
  set (s1 := {| scheduler_running := false; _shutdown_requested := true;
                stats := stats s; async_fetcher := async_fetcher s |}).
  destruct (post_run_cleanup_spec cw s1) as (Ht & Hf & _).
  destruct (_post_run_cleanup cw s1) as [[r s2] tr]. simpl in *.
  eexists. split; [done|]. split; [|done].
  apply teardown_app; [|done].
  destruct (scheduler_running s); repeat constructor.
Qed.

Lemma interleave_cases w p s :
  (shutdown_arrives w p = false ∧ interleave w p s = (s, []))
  ∨ (shutdown_arrives w p = true
     ∧ ∃ s' rest,
         interleave w p s = (s', EvShutdownRequested :: rest)
         ∧ teardown_only rest
         ∧ _shutdown_requested s' = true
         ∧ stats s' = stats s).
Proof.
  unfold interleave. destruct (shutdown_arrives w p); [right|left; done].
  split; [done|].
  destruct (shutdown_spec (fetcher_world w) s) as (rest & Htr & Ht & Hf).
  assert (Hst : stats (shutdown (fetcher_world w) s).1.2 = stats s).
  { unfold shutdown.
    set (s1 := {| scheduler_running := false; _shutdown_requested := true;
                  stats := stats s; async_fetcher := async_fetcher s |}).
    destruct (post_run_cleanup_spec (fetcher_world w) s1) as (_ & _ & H & _).
    destruct (_post_run_cleanup (fetcher_world w) s1) as [[r s2] tr].
    done. }
  destruct (shutdown (fetcher_world w) s) as [[r s'] tr]. simpl in *.
  subst tr. eauto 10.
Qed.

Lemma pipeline_teardown tw topic_ : teardown_only (pipeline tw topic_).2.
Proof.
  unfold pipeline.
  repeat (match goal with
          | |- context [match ?x with _ => _ end] => destruct x
          end; simpl; try (repeat constructor; done)).
Qed.

Lemma process_topic_spec w tw topic_ s :
  (_process_topic w tw topic_ s).2 = (pipeline tw topic_).2
  ∧ _shutdown_requested (_process_topic w tw topic_ s).1.2
    = _shutdown_requested s
  ∧ ((_process_topic w tw topic_ s).1.1
     = match (pipeline tw topic_).1 with
       | Returned (ok, _) => Returned ok
       | Raised e => if is_Exception e then Returned false else Raised e
       end).
Proof.
  unfold _process_topic.
  destruct (pipeline tw topic_) as [[[ok failed]|e] tr]; simpl; [done|].
  destruct (is_Exception e); done.
Qed.

Lemma topic_loop_flagged w todo s :
  _shutdown_requested s = true → topic_loop w todo s = (Returned tt, s, []).
Proof. intros H. destruct todo as [|[i t] rest]; simpl; [done|]. by rewrite H. Qed.

Lemma bump_successful_flag s :
  _shutdown_requested (bump_successful s) = _shutdown_requested s.
Proof. done. Qed.

(** One turn of the loop, on a scheduler whose flag is not set. *)
Lemma topic_loop_turn w i topic_ rest s :
  _shutdown_requested s = false →
  let turn := _process_topic w (topics_world w i) topic_ s in
  let s2 := (interleave w (AtTopic i) turn.1.2).1 in
  let sd1 := (interleave w (AtTopic i) turn.1.2).2 in
  let s3 := bump_successful s2 in
  let s4 := if _shutdown_requested s3 then s3
            else (interleave w (AtSleep i) s3).1 in
  let nap := if _shutdown_requested s3 then []
             else EvSleep 30 :: (interleave w (AtSleep i) s3).2 in
  topic_loop w ((i, topic_) :: rest) s
  = match turn.1.1 with
    | Raised e =>
        (Raised e, s2, EvTopicStart i topic_ :: turn.2 ++ sd1)
    | Returned false =>
        ((topic_loop w rest s2).1,
         EvTopicStart i topic_ :: turn.2 ++ sd1 ++
         EvTopicEnd i false :: (topic_loop w rest s2).2)
    | Returned true =>
        ((topic_loop w rest s4).1,
         EvTopicStart i topic_ :: turn.2 ++ sd1 ++
         EvTopicEnd i true :: nap ++ (topic_loop w rest s4).2)
    end.
Proof.
  intros Hflag. cbn [topic_loop]. rewrite Hflag. cbv zeta.
  destruct (_process_topic w (topics_world w i) topic_ s) as [[r s1] tr1].
  cbn [fst snd].
  destruct (interleave w (AtTopic i) s1) as [s2 sd1]. cbn [fst snd].
  destruct r as [[|]|e]; [|by destruct (topic_loop w rest s2) as [[??]?]|done].
  destruct (_shutdown_requested (bump_successful s2)); cbn [negb].
  - by destruct (topic_loop w rest (bump_successful s2)) as [[??]?].
  - destruct (interleave w (AtSleep i) (bump_successful s2)) as [s4 sd2].
    cbn [fst snd]. by destruct (topic_loop w rest s4) as [[??]?].
Qed.





(** *** Failures *)

Lemma topics_started_app tr1 tr2 :
  topics_started (tr1 ++ tr2) = topics_started tr1 ++ topics_started tr2.
Proof. apply omap_app. Qed.

Lemma topics_started_teardown tr :
  teardown_only tr → topics_started tr = [].
Proof.
  induction 1 as [|e tr [He _] _ IH]; [done|].
  unfold topics_started in *. destruct e; try done.
Qed.

Lemma topics_started_turn i t tr1 mid tr' :
  teardown_only tr1 → topics_started mid = [] →
  topics_started (EvTopicStart i t :: tr1 ++ mid ++ tr')
  = (i, t) :: topics_started tr'.
Proof.
  intros H1 H2.
  change (EvTopicStart i t :: ?x) with ([EvTopicStart i t] ++ x).
  rewrite !topics_started_app, (topics_started_teardown _ H1), H2.
  done.
Qed.

Lemma interleave_none w p s :
  shutdown_arrives w p = false → interleave w p s = (s, []).
Proof. unfold interleave. by intros ->. Qed.

Lemma topic_loop_starts_all w :
  (∀ p, shutdown_arrives w p = false) →
  (∀ i t, not_cancelled (pipeline (topics_world w i) t).1 = true) →
  ∀ todo s,
    _shutdown_requested s = false →
    topics_started (topic_loop w todo s).2 = todo
    ∧ is_Returned (topic_loop w todo s).1.1 = true.
Proof.
  intros Hnone Hok. induction todo as [|[i t] rest IH]; intros s Hflag;
    [done|].
  rewrite (topic_loop_turn w i t rest s Hflag). cbv zeta.
  destruct (process_topic_spec w (topics_world w i) t s)
    as (Htr & Hfl & Hr).
  pose proof (pipeline_teardown (topics_world w i) t) as Hpipe.
  rewrite <- Htr in Hpipe. clear Htr.
  set (turn := _process_topic w (topics_world w i) t s) in *.
  rewrite Hflag in Hfl.
  rewrite !interleave_none by done. cbn [fst snd].
  rewrite bump_successful_flag, Hfl.
  rewrite ?interleave_none by done. cbn [fst snd].
  destruct turn.1.1 as [[|]|e] eqn:Hturn; cbn [fst snd].
  - destruct (IH (bump_successful turn.1.2)) as [IH1 IH2]; [done|].
    split; [|done].
    change (topics_started
              (EvTopicStart i t :: turn.2 ++
               [EvTopicEnd i true; EvSleep 30] ++
               (topic_loop w rest (bump_successful turn.1.2)).2)
            = (i, t) :: rest).
    rewrite topics_started_turn, IH1; done.
  - destruct (IH turn.1.2) as [IH1 IH2]; [done|].
    split; [|done].
    change (topics_started
              (EvTopicStart i t :: turn.2 ++ [EvTopicEnd i false] ++
               (topic_loop w rest turn.1.2).2)
            = (i, t) :: rest).
    rewrite topics_started_turn, IH1; done.
  - exfalso. specialize (Hok i t).
    destruct (pipeline (topics_world w i) t).1 as [[??]|e'];
      simpl in *; [done|].
    rewrite Hok in Hr. done.
Qed.

End Run.

(** ** More about the deduplicator *)

Section DedupShape.

Import DedupEngine.

Variable sha256 md5 : string → string.
Variable ratio : string → string → Q.

Implicit Types (s : ContentDeduplicator) (fp : ContentFingerprint).
Implicit Types (d : list (string * ContentFingerprint)).
Implicit Types (l : list ContentFingerprint).

Lemma dict_set_fresh k fp d :
  k ∉ d.*1 → dict_set k fp d = d ++ [(k, fp)].
Proof.
  induction d as [|[k' v'] d IH]; simpl; [done|].
  intros [Hne Hd]%not_elem_of_cons.
  apply String.eqb_neq in Hne as ->. rewrite IH; done.
Qed.

Lemma keyed_keys d :
  Forall (λ kv, kv.1 = content_hash kv.2) d →
  d.*1 = content_hash <$> dict_values d.
Proof.
  unfold dict_values. induction 1 as [|[k v] d Hk _ IH]; [done|].
  simpl in Hk. subst k. rewrite !fmap_cons. f_equal. exact IH.
Qed.

Lemma dict_pop_keyed d h :
  Forall (λ kv, kv.1 = content_hash kv.2) d →
  Forall (λ kv, kv.1 = content_hash kv.2) (dict_pop h d)
  ∧ dict_values (dict_pop h d)
    = filter (λ fp, content_hash fp ≠ h) (dict_values d).
Proof.
  unfold dict_values, dict_pop.
  induction 1 as [|[k v] d Hk _ [IH1 IH2]]; [done|].
  simpl in Hk. subst k. rewrite fmap_cons, !filter_cons. cbn [fst snd].
  destruct (decide (String.eqb h (content_hash v) = false)) as [E|E];
    destruct (decide (content_hash v ≠ h)) as [E2|E2].
  - rewrite fmap_cons. cbn [snd].
    split; [by constructor|]. f_equal. exact IH2.
  - exfalso. apply String.eqb_neq in E. apply E2. congruence.
  - exfalso. apply E, String.eqb_neq. congruence.
  - done.
Qed.

Lemma NoDup_fmap_eq {A B} (f : A → B) (k : list A) x y :
  NoDup (f <$> k) → x ∈ k → y ∈ k → f x = f y → x = y.
Proof.
  induction k as [|a k IH]; simpl; [by intros _ ?%elem_of_nil|].
  intros [Ha Hk]%NoDup_cons [->|Hx]%elem_of_cons [->|Hy]%elem_of_cons Heq;
    try done.
  - exfalso. apply Ha. rewrite Heq. by apply list_elem_of_fmap_2.
  - exfalso. apply Ha. rewrite <- Heq. by apply list_elem_of_fmap_2.
  - auto.
Qed.

(** Adding a fingerprint whose two hashes are new appends it. *)
Lemma coherent_add_to_cache fp s :
  coherent s →
  content_hash fp ∉ content_cache s →
  title_hash fp ∉ title_cache s →
  coherent (_add_to_cache fp s)
  ∧ dict_values (fingerprints (_add_to_cache fp s))
    = dict_values (fingerprints s) ++ [fp].
Proof.
  intros (Hkey & Hc & Ht & Hcc & Htc) Hnc Hnt.
  assert (Hfresh : content_hash fp ∉ (fingerprints s).*1).
  { rewrite keyed_keys by done. by rewrite <- Hcc. }
  assert (Hvals : dict_values (fingerprints (_add_to_cache fp s))
                  = dict_values (fingerprints s) ++ [fp]).
  { simpl. rewrite dict_set_fresh by done.
    unfold dict_values. rewrite fmap_app. done. }
  split; [|done].
  unfold coherent. rewrite Hvals. simpl fingerprints.
  rewrite dict_set_fresh by done. rewrite !fmap_app. simpl.
  split; [|split; [|split; [|split]]].
  - apply Forall_app. split; [done|]. by constructor.
  - apply NoDup_app. split; [done|]. split; [|apply NoDup_singleton].
    intros h Hh Hin%list_elem_of_singleton. subst h.
    apply Hnc, Hcc. done.
  - apply NoDup_app. split; [done|]. split; [|apply NoDup_singleton].
    intros h Hh Hin%list_elem_of_singleton. subst h.
    apply Hnt, Htc. done.
  - intros h. rewrite elem_of_union, elem_of_singleton, elem_of_app,
      list_elem_of_singleton, Hcc. tauto.
  - intros h. rewrite elem_of_union, elem_of_singleton, elem_of_app,
      list_elem_of_singleton, Htc. tauto.
Qed.

(** Removing a stored fingerprint removes it alone. *)
Lemma coherent_remove_from_cache fp s :
  coherent s →
  fp ∈ dict_values (fingerprints s) →
  coherent (_remove_from_cache fp s)
  ∧ dict_values (fingerprints (_remove_from_cache fp s))
    = filter (λ x, content_hash x ≠ content_hash fp)
        (dict_values (fingerprints s)).
Proof.
  intros (Hkey & Hc & Ht & Hcc & Htc) Hin.
  destruct (dict_pop_keyed (fingerprints s) (content_hash fp) Hkey)
    as [Hkey' Hvals].
  split; [|done]. unfold coherent. simpl fingerprints.
  rewrite Hvals. set (stored := dict_values (fingerprints s)) in *.
  assert (Hsub : ∀ x, x ∈ filter (λ x, content_hash x ≠ content_hash fp) stored
                      ↔ x ∈ stored ∧ x ≠ fp).
  { intros x. rewrite list_elem_of_filter. split.
    - intros [Hne Hx]. split; [done|]. intros ->. done.
    - intros [Hx Hne]. split; [|done]. intros Heq. apply Hne.
      exact (NoDup_fmap_eq content_hash stored x fp Hc Hx Hin Heq). }
  split; [done|]. split; [|split; [|split]].
  - apply NoDup_fmap_2_strong; [|apply NoDup_filter; by eapply NoDup_fmap_1].
    intros x y [Hx _]%Hsub [Hy _]%Hsub Heq.
    exact (NoDup_fmap_eq content_hash stored x y Hc Hx Hy Heq).
  - apply NoDup_fmap_2_strong; [|apply NoDup_filter; by eapply NoDup_fmap_1].
    intros x y [Hx _]%Hsub [Hy _]%Hsub Heq.
    exact (NoDup_fmap_eq title_hash stored x y Ht Hx Hy Heq).
  - intros h. simpl. rewrite elem_of_difference, elem_of_singleton, Hcc,
      !list_elem_of_fmap. split.
    + intros [(x & -> & Hx) Hne]. exists x. split; [done|].
      apply Hsub. split; [done|]. intros ->. done.
    + intros (x & -> & [Hx Hne]%Hsub). split; [eauto|].
      intros Heq. apply Hne.
      exact (NoDup_fmap_eq content_hash stored x fp Hc Hx Hin Heq).
  - intros h. simpl. rewrite elem_of_difference, elem_of_singleton, Htc,
      !list_elem_of_fmap. split.
    + intros [(x & -> & Hx) Hne]. exists x. split; [done|].
      apply Hsub. split; [done|]. intros ->. done.
    + intros (x & -> & [Hx Hne]%Hsub). split; [eauto|].
      intros Heq. apply Hne.
      exact (NoDup_fmap_eq title_hash stored x fp Ht Hx Hin Heq).
Qed.

Lemma filter_ext_Forall {A} (P Q : A → Prop)
    `{∀ x, Decision (P x)} `{∀ x, Decision (Q x)} (k : list A) :
  Forall (λ x, P x ↔ Q x) k → filter P k = filter Q k.
Proof.
  induction 1 as [|x k Hx _ IH]; [done|].
  rewrite !filter_cons, IH.
  destruct (decide (P x)), (decide (Q x)); tauto.
Qed.

Lemma filter_all {A} (P : A → Prop) `{∀ x, Decision (P x)} (k : list A) :
  Forall P k → filter P k = k.
Proof.
  induction 1 as [|x k Hx _ IH]; [done|].
  rewrite filter_cons_True by done. by rewrite IH.
Qed.

Lemma keyed_dict d :
  Forall (λ kv, kv.1 = content_hash kv.2) d →
  d = (λ fp, (content_hash fp, fp)) <$> dict_values d.
Proof.
  unfold dict_values. induction 1 as [|[k v] d Hk _ IH]; [done|].
  simpl in Hk. subst k. rewrite !fmap_cons. cbn [snd]. f_equal. exact IH.
Qed.

Lemma fingerprints_add_fresh fp s :
  coherent s →
  content_hash fp ∉ content_cache s →
  fingerprints (_add_to_cache fp s)
  = fingerprints s ++ [(content_hash fp, fp)].
Proof.
  intros (Hkey & _ & _ & Hcc & _) Hnc. simpl.
  apply dict_set_fresh. rewrite keyed_keys by done. by rewrite <- Hcc.
Qed.

(** Loading a list without repeated hashes into a store that holds none
    of them appends the list. *)
Lemma coherent_load l : ∀ s,
  coherent s →
  NoDup (content_hash <$> dict_values (fingerprints s) ++ l) →
  NoDup (title_hash <$> dict_values (fingerprints s) ++ l) →
  let s' := foldl (λ s fp, _add_to_cache fp s) s l in
  coherent s'
  ∧ dict_values (fingerprints s') = dict_values (fingerprints s) ++ l
  ∧ FINGERPRINT_FILE s' = FINGERPRINT_FILE s
  ∧ similarity_threshold s' = similarity_threshold s.
Proof.
  induction l as [|fp l IH]; intros s Hs Hc Ht.
  - simpl. rewrite app_nil_r. done.
  - assert (Hnc : content_hash fp ∉ content_cache s).
    { destruct Hs as (_ & _ & _ & Hcc & _). rewrite Hcc.
      rewrite fmap_app in Hc. apply NoDup_app in Hc as (_ & Hc & _).
      intros Hin. apply (Hc _ Hin). rewrite fmap_cons. apply elem_of_cons.
      auto. }
    assert (Hnt : title_hash fp ∉ title_cache s).
    { destruct Hs as (_ & _ & _ & _ & Htc). rewrite Htc.
      rewrite fmap_app in Ht. apply NoDup_app in Ht as (_ & Ht & _).
      intros Hin. apply (Ht _ Hin). rewrite fmap_cons. apply elem_of_cons.
      auto. }
    destruct (coherent_add_to_cache fp s Hs Hnc Hnt) as [Hs' Hv].
    cbn [foldl].
    destruct (IH (_add_to_cache fp s) Hs') as (H1 & H2 & H3 & H4).
    + rewrite Hv, <- app_assoc. exact Hc.
    + rewrite Hv, <- app_assoc. exact Ht.
    + split; [done|]. split; [|done].
      etrans; [exact H2|]. rewrite Hv, <- app_assoc. done.
Qed.

Lemma coherent_empty threshold file :
  coherent {| similarity_threshold := threshold; fingerprints := [];
              title_cache := ∅; content_cache := ∅;
              FINGERPRINT_FILE := file |}.
Proof.
  unfold coherent. simpl.
  split; [constructor|]. split; [constructor|]. split; [constructor|].
  split; intros h; rewrite elem_of_empty, elem_of_nil; done.
Qed.

Lemma coherent_init threshold file :
  NoDup (content_hash <$> default [] file) →
  NoDup (title_hash <$> default [] file) →
  coherent (init threshold file)
  ∧ dict_values (fingerprints (init threshold file)) = default [] file
  ∧ FINGERPRINT_FILE (init threshold file) = file.
Proof.
  intros Hc Ht. unfold init.
  destruct (coherent_load (default [] file) _ (coherent_empty threshold file))
    as (H1 & H2 & H3 & _); try done.
Qed.

Lemma coherent_save written_ s :
  coherent s → coherent (_save_fingerprints written_ s).
Proof. unfold _save_fingerprints. destruct written_; done. Qed.

Lemma coherent_file_save written_ s :
  coherent s → coherent_file s →
  coherent_file (_save_fingerprints written_ s).
Proof.
  intros (_ & Hc & Ht & _) Hf. unfold _save_fingerprints.
  destruct written_; [|done]. intros file [= <-]. done.
Qed.

(** Removing stored fingerprints one after the other removes them and
    nothing else. *)
Lemma coherent_remove_all l : ∀ s,
  coherent s →
  NoDup l →
  (∀ fp, fp ∈ l → fp ∈ dict_values (fingerprints s)) →
  let s' := foldl (λ s fp, _remove_from_cache fp s) s l in
  coherent s'
  ∧ dict_values (fingerprints s')
    = filter (λ x, content_hash x ∉ content_hash <$> l)
        (dict_values (fingerprints s))
  ∧ FINGERPRINT_FILE s' = FINGERPRINT_FILE s.
Proof.
  induction l as [|fp l IH]; intros s Hs Hl Hin.
  - simpl. split; [done|]. split; [|done].
    symmetry. apply filter_all, Forall_forall. intros x _ ?%elem_of_nil. done.
  - apply NoDup_cons in Hl as [Hfp Hl].
    assert (Hfps : fp ∈ dict_values (fingerprints s)).
    { apply Hin, elem_of_cons. auto. }
    destruct (coherent_remove_from_cache fp s Hs Hfps) as [Hs' Hv].
    assert (Hinj : ∀ x, x ∈ dict_values (fingerprints s) →
                        content_hash x = content_hash fp → x = fp).
    { destruct Hs as (_ & Hc & _). intros x Hx Heq.
      exact (NoDup_fmap_eq content_hash _ x fp Hc Hx Hfps Heq). }
    cbn [foldl].
    destruct (IH (_remove_from_cache fp s) Hs' Hl) as (H1 & H2 & H3).
    + intros y Hy. rewrite Hv. apply list_elem_of_filter. split.
      * intros Heq. apply Hfp. rewrite <- (Hinj y); [done| |done].
        apply Hin, elem_of_cons. auto.
      * apply Hin, elem_of_cons. auto.
    + split; [done|]. split; [|done].
      etrans; [exact H2|]. rewrite Hv, list_filter_filter.
      apply list_filter_iff. intros x. rewrite fmap_cons, not_elem_of_cons.
      tauto.
Qed.

(** The stores the program can be in are coherent, and so are their
    files. *)
Lemma reachable_coherent s :
  reachable sha256 md5 ratio s → coherent s ∧ coherent_file s.
Proof.
  induction 1 as [threshold|w s title_ content url_ _ [IH IHf]
                  |w days s _ [IH IHf]|threshold s _ [IH IHf]].
  - split; [apply coherent_empty|]. intros file. done.
  - unfold add_content.
    case_bool_decide as Hc; [done|]. case_bool_decide as Ht; [done|].
    destruct (find_similar_content _ _ _ _ _ _ _); [|done].
    cbn [snd].
    destruct (coherent_add_to_cache _ s IH Hc Ht) as [Hs' _].
    split; [by apply coherent_save|].
    apply coherent_file_save; [done|]. intros file Hfile. by apply IHf.
  - unfold cleanup_old_fingerprints.
    set (old := filter _ _).
    destruct (coherent_remove_all old s IH) as (H1 & _ & H3).
    + apply NoDup_filter. destruct IH as (_ & Hc & _).
      by eapply NoDup_fmap_1.
    + intros fp [_ Hfp]%list_elem_of_filter. done.
    + assert (Hf : coherent_file
                     (foldl (λ s fp, _remove_from_cache fp s) s old)).
      { intros file Hfile. apply IHf. by rewrite <- H3. }
      destruct old; [done|].
      split; [by apply coherent_save|by apply coherent_file_save].
  - destruct (FINGERPRINT_FILE s) as [file|] eqn:E.
    + destruct (IHf file E) as [Hc Ht].
      destruct (coherent_init threshold (Some file) Hc Ht) as (H1 & _ & H3).
      split; [done|]. intros file'. rewrite H3. intros [= <-]. done.
    + split; [apply coherent_empty|]. intros file. done.
Qed.


(** X1: in every store the program can reach, the dictionary is keyed by
    the content hash of its values, no two stored fingerprints share a
    content hash or a title hash, the two caches hold the hashes of the
    stored fingerprints and nothing else, and the file holds no two
    fingerprints of the same content hash or title hash. *)
Theorem reachable_stores_are_coherent s :
  reachable sha256 md5 ratio s → coherent s ∧ coherent_file s.
Proof. apply reachable_coherent. Qed.

Lemma cleanup_old_fingerprints_spec w days_ s :
  reachable sha256 md5 ratio s →
  let s' := cleanup_old_fingerprints w days_ s in
  let cutoff := cutoff_of w days_ in
  let kept := filter (recent cutoff) (dict_values (fingerprints s)) in
  dict_values (fingerprints s') = kept
  ∧ (∀ h, h ∈ content_cache s' ↔ h ∈ content_hash <$> kept)
  ∧ (∀ h, h ∈ title_cache s' ↔ h ∈ title_hash <$> kept).
Proof.
  intros Hr s' cutoff kept.
  assert (Hvals : dict_values (fingerprints s') = kept).
  { destruct (reachable_coherent s Hr) as [Hs _].
    subst s'. unfold cleanup_old_fingerprints. fold (cutoff_of w days_).
    fold cutoff. set (old := filter _ _).
    destruct (coherent_remove_all old s Hs) as (_ & H2 & _).
    - apply NoDup_filter. destruct Hs as (_ & Hc & _). by eapply NoDup_fmap_1.
    - intros fp [_ Hfp]%list_elem_of_filter. done.
    - assert (Hkept : filter (λ x, content_hash x ∉ content_hash <$> old)
                        (dict_values (fingerprints s)) = kept).
      { apply filter_ext_Forall, Forall_forall. intros x Hx.
        unfold recent. split.
        - intros Hn. destruct (Qle_bool cutoff (timestamp x)) eqn:E; [done|].
          exfalso. apply Hn. apply list_elem_of_fmap_2.
          apply list_elem_of_filter. done.
        - intros Hrec (y & Heq & [Hold Hy]%list_elem_of_filter)%list_elem_of_fmap.
          destruct Hs as (_ & Hc & _).
          assert (x = y) as ->
            by exact (NoDup_fmap_eq content_hash _ x y Hc Hx Hy Heq).
          congruence. }
      destruct old; [by rewrite <- Hkept|].
      unfold _save_fingerprints. destruct (written w); by rewrite <- Hkept. }
  split; [done|].
  destruct (reachable_coherent s' (reachable_cleanup _ _ _ w days_ s Hr))
    as [(_ & _ & _ & Hcc & Htc) _].
  rewrite Hvals in Hcc, Htc. done.
Qed.

(** X2: for a number of days whose cutoff is a [datetime],
    [cleanup_old_fingerprints] keeps the stored fingerprints that are not
    older than the cutoff, in their order, and nothing else; after it the
    caches hold the hashes of the kept fingerprints and nothing else. *)
Theorem cleanup_keeps_the_recent w days_ s :
  cutoff_in_range w days_ →
  reachable sha256 md5 ratio s →
  let s' := cleanup_old_fingerprints w days_ s in
  let cutoff := cutoff_of w days_ in
  let kept := filter (recent cutoff) (dict_values (fingerprints s)) in
  dict_values (fingerprints s') = kept
  ∧ (∀ h, h ∈ content_cache s' ↔ h ∈ content_hash <$> kept)
  ∧ (∀ h, h ∈ title_cache s' ↔ h ∈ title_hash <$> kept).
Proof. intros _. apply cleanup_old_fingerprints_spec. Qed.

(** X3: a store that is saved and then loaded again, with whatever
    threshold, has the dictionary and the two caches it had. *)
Theorem saved_store_loads_back threshold s :
  reachable sha256 md5 ratio s →
  let s' := init threshold (FINGERPRINT_FILE (_save_fingerprints true s)) in
  fingerprints s' = fingerprints s
  ∧ title_cache s' = title_cache s
  ∧ content_cache s' = content_cache s.
Proof.
  intros Hr s'. destruct (reachable_coherent s Hr) as [Hs _].
  pose proof Hs as (Hkey & Hc & Ht & Hcc & Htc).
  destruct (coherent_init threshold (Some (dict_values (fingerprints s)))
              Hc Ht) as ((Hkey' & _ & _ & Hcc' & Htc') & Hv & _).
  subst s'. cbn [_save_fingerprints FINGERPRINT_FILE].
  simpl default in Hv. rewrite Hv in Hcc', Htc'.
  split; [|split].
  - rewrite (keyed_dict _ Hkey'), Hv. symmetry. by apply keyed_dict.
  - apply set_eq. intros h. by rewrite Htc, Htc'.
  - apply set_eq. intros h. by rewrite Hcc, Hcc'.
Qed.

(** X4: once [add_content] has returned true, a title that differs from
    the added one in letter case only is a duplicate title, and adding
    anything under such a title, or any content that is the added one up
    to markdown characters and URLs, returns false and changes
    nothing. *)
Theorem added_content_is_a_duplicate w w' s title_ content url_
    title' content' url' :
  (add_content sha256 md5 ratio w s title_ content url_).1 = true →
  let s1 := (add_content sha256 md5 ratio w s title_ content url_).2 in
  (lower title' = lower title_ →
   is_duplicate_title sha256 s1 title' = true
   ∧ add_content sha256 md5 ratio w' s1 title' content' url' = (false, s1))
  ∧ (strip_urls (strip_markdown content')
     = strip_urls (strip_markdown content) →
     add_content sha256 md5 ratio w' s1 title' content' url' = (false, s1)).
Proof.
  intros Hadd s1. subst s1. rewrite (add_content_true _ _ _ _ _ _ _ _ Hadd).
  set (fp := _create_content_fingerprint sha256 md5 (now w) title_ content
               url_).
  set (s1 := _save_fingerprints (written w) (_add_to_cache fp s)).
  assert (Hc : content_hash fp ∈ content_cache s1).
  { subst s1. unfold _save_fingerprints.
    destruct (written w); simpl; apply elem_of_union_l, elem_of_singleton;
      done. }
  assert (Ht : title_hash fp ∈ title_cache s1).
  { subst s1. unfold _save_fingerprints.
    destruct (written w); simpl; apply elem_of_union_l, elem_of_singleton;
      done. }
  split.
  - intros Heq. split.
    + unfold is_duplicate_title. rewrite Heq. by apply bool_decide_eq_true.
    + unfold add_content. case_bool_decide; [done|].
      rewrite bool_decide_eq_true_2; [done|]. simpl. rewrite Heq. done.
  - intros Heq. unfold add_content.
    rewrite bool_decide_eq_true_2; [done|]. simpl. rewrite Heq. done.
Qed.

(** *** The score *)










(** *** The similarity hash and the cleaned content *)

Lemma range_nonpos n : n ≤ 0 → range n = [].
Proof. intros H. unfold range. replace (Z.to_nat n) with 0%nat by lia. done. Qed.

(** X8: a text with fewer than three words left after normalisation has
    no shingle, so its similarity hash is the MD5 of the empty string,
    whatever the text. *)
Theorem short_text_similarity_hash text :
  (length (split (_normalize_text text)) < 3)%nat →
  _create_similarity_hash md5 text = md5 "".
Proof.
  intros H. unfold _create_similarity_hash, shingles.
  rewrite range_nonpos by lia. done.
Qed.

Lemma markdown_free_strip_markdown text :
  markdown_free (strip_markdown text) = true.
Proof.
  induction text as [|c r IH]; [done|]. simpl.
  destruct (markdown_char c) eqn:E; [done|]. simpl. by rewrite E.
Qed.

Lemma markdown_free_strip_urls text : ∀ b,
  markdown_free text = true → markdown_free (strip_urls_go b text) = true.
Proof.
  induction text as [|c r IH]; intros b; [done|].
  intros [Hc Hr]%andb_prop. cbn [strip_urls_go].
  destruct b.
  - destruct (isspace c); [|by apply IH].
    cbn [markdown_free]. rewrite Hc. by apply IH.
  - destruct (url_at (String c r)); [by apply IH|].
    cbn [markdown_free]. rewrite Hc. by apply IH.
Qed.

Lemma strip_markdown_id text :
  markdown_free text = true → strip_markdown text = text.
Proof.
  induction text as [|c r IH]; [done|].
  intros [Hc Hr]%andb_prop. simpl.
  apply negb_true_iff in Hc. rewrite Hc, IH; done.
Qed.

Lemma clean_clean text :
  strip_urls (strip_markdown (strip_urls (strip_markdown text)))
  = strip_urls (strip_markdown text).
Proof.
  rewrite (strip_markdown_id (strip_urls _)).
  - apply strip_urls_id, (has_url_strip_urls sha256 md5 ratio).
  - apply markdown_free_strip_urls, markdown_free_strip_markdown.
Qed.

(** X9: cleaning is idempotent: the fingerprint of a content whose
    markdown characters and URLs have been removed is the fingerprint of
    the content itself. *)
Theorem cleaned_content_has_the_same_fingerprint now_ title_ content url_ :
  _create_content_fingerprint sha256 md5 now_ title_
    (strip_urls (strip_markdown content)) url_
  = _create_content_fingerprint sha256 md5 now_ title_ content url_.
Proof. unfold _create_content_fingerprint. rewrite clean_clean. done. Qed.

(** *** The statistics *)

Lemma size_cache (c : gset string) (hashes : list string) :
  NoDup hashes → (∀ h, h ∈ c ↔ h ∈ hashes) →
  size c = length hashes.
Proof.
  intros Hnd Hc. rewrite <- (size_list_to_set (C := gset string)) by done.
  f_equal. apply set_eq. intros h. rewrite elem_of_list_to_set. apply Hc.
Qed.

(** X10: in every store the program can reach, the three sizes that
    [get_stats] reports are the same number, and the count of recent
    fingerprints is at most that number. *)
Theorem get_stats_counts_agree now_ s :
  reachable sha256 md5 ratio s →
  let st := DedupQueries.get_stats now_ s in
  DedupQueries.title_cache_size st = DedupQueries.total_fingerprints st
  ∧ DedupQueries.content_cache_size st = DedupQueries.total_fingerprints st
  ∧ 0 ≤ DedupQueries.recent_fingerprints_7d st
      ≤ DedupQueries.total_fingerprints st.
Proof.
  intros Hr st. destruct (reachable_coherent s Hr) as [(_ & Hc & Ht & Hcc & Htc) _].
  subst st. unfold DedupQueries.get_stats. simpl.
  rewrite (size_cache _ _ Ht Htc), (size_cache _ _ Hc Hcc), !length_fmap.
  unfold dict_values. rewrite length_fmap.
  split; [done|]. split; [done|].
  pose proof (length_filter
                (λ fp, DedupQueries.days (now_ - timestamp fp) ≤ 7)
                (snd <$> fingerprints s)) as Hlen.
  rewrite length_fmap in Hlen. lia.
Qed.

End DedupShape.


(** The store with one post is coherent. *)
Lemma reachable_stores_are_coherent_witness :
  coherent Cases.store_with_post ∧ coherent_file Cases.store_with_post.
Proof.
  apply (reachable_stores_are_coherent Scenario.plain_hash
           Scenario.plain_hash Scenario.same_string Cases.store_with_post).
  apply reachable_add_content, reachable_init.
Defined.

(** A hundred days later the post is older than ninety days: nothing is
    kept. *)
Lemma cleanup_keeps_the_recent_witness :
  DedupEngine.dict_values
    (DedupEngine.fingerprints
       (DedupEngine.cleanup_old_fingerprints Cases.later 90
          Cases.store_with_post)) = [].
Proof.
  refine (proj1 (cleanup_keeps_the_recent Scenario.plain_hash
                   Scenario.plain_hash Scenario.same_string Cases.later 90
                   Cases.store_with_post _ _)).
  - split; [lia|]. split; vm_compute; discriminate.
  - apply reachable_add_content, reachable_init.
Defined.

(** The store with one post, saved and loaded with another threshold. *)
Lemma saved_store_loads_back_witness :
  DedupEngine.fingerprints
    (DedupEngine.init (1 # 2)
       (DedupEngine.FINGERPRINT_FILE
          (DedupEngine._save_fingerprints true Cases.store_with_post)))
  = DedupEngine.fingerprints Cases.store_with_post.
Proof.
  apply (proj1 (saved_store_loads_back Scenario.plain_hash
                  Scenario.plain_hash Scenario.same_string (1 # 2)
                  Cases.store_with_post
                  (reachable_add_content _ _ _ _ _ _ _ _
                     (reachable_init _ _ _ _)))).
Defined.

(** The post under its title in capitals. *)
Lemma added_content_is_a_duplicate_witness :
  DedupEngine.is_duplicate_title Scenario.plain_hash Cases.store_with_post
    "A POST" = true
  ∧ DedupEngine.add_content Scenario.plain_hash Scenario.plain_hash
      Scenario.same_string Cases.later Cases.store_with_post
      "A POST" "Something else" "" = (false, Cases.store_with_post).
Proof.
  apply (proj1 (added_content_is_a_duplicate Scenario.plain_hash
                  Scenario.plain_hash Scenario.same_string Scenario.morning
                  Cases.later Scenario.empty_store "A post" Cases.post ""
                  "A POST" "Something else" "" eq_refl)).
  reflexivity.
Defined.




(** A text of one word after normalisation. *)
Lemma short_text_similarity_hash_witness :
  DedupEngine._create_similarity_hash Scenario.plain_hash "The cat, at it!"
  = Scenario.plain_hash "".
Proof.
  apply (short_text_similarity_hash Scenario.plain_hash "The cat, at it!").
  vm_compute. lia.
Defined.

(** The statistics of the store with one post. *)
Lemma get_stats_counts_agree_witness :
  DedupQueries.title_cache_size (DedupQueries.get_stats 0 Cases.store_with_post)
  = DedupQueries.total_fingerprints
      (DedupQueries.get_stats 0 Cases.store_with_post).
Proof.
  apply (proj1 (get_stats_counts_agree Scenario.plain_hash
                  Scenario.plain_hash Scenario.same_string 0
                  Cases.store_with_post
                  (reachable_add_content _ _ _ _ _ _ _ _
                     (reachable_init _ _ _ _)))).
Defined.

(** ** More about the fetch layer *)

Section FetchLayer.

Import AsyncArticleFetcher.

Variable urlparse_netloc : string → outcome string.

Lemma requests_app tr1 tr2 :
  requests (tr1 ++ tr2) = (requests tr1 + requests tr2)%nat.
Proof.
  induction tr1 as [|e tr1 IH]; [done|]. destruct e; simpl; rewrite ?IH; done.
Qed.

Lemma slept_app tr1 tr2 : (slept (tr1 ++ tr2) == slept tr1 + slept tr2)%Q.
Proof.
  induction tr1 as [|e tr1 IH]; simpl; [ring|].
  destruct e; simpl; rewrite ?IH; try reflexivity. ring.
Qed.

Lemma inject_Z_nonneg n : 0 ≤ n → (0 <= inject_Z n)%Q.
Proof. intros H. unfold Qle. simpl. lia. Qed.

Lemma slept_backoff c attempt :
  (0 <= slept (backoff c attempt))%Q
  ∧ requests (backoff c attempt) = 0%nat.
Proof.
  unfold backoff. destruct (attempt <? max_retries c - 1); [|done].
  simpl. split; [|done]. rewrite Qplus_0_r. apply inject_Z_nonneg.
  apply Z.pow_nonneg. lia.
Qed.

Lemma failed_attempts_step c url k todo :
  failed_attempts c url (k :: todo)
  = EvGet url :: backoff c k ++ failed_attempts c url todo.
Proof. done. Qed.

Lemma slept_failed_attempts_nonneg c url todo :
  (0 <= slept (failed_attempts c url todo))%Q.
Proof.
  induction todo as [|k todo IH]; [done|].
  rewrite failed_attempts_step. cbn [slept]. rewrite slept_app.
  destruct (slept_backoff c k) as [H _]. lra.
Qed.

(** The retry loop asks and sleeps at most as much as a run of failed
    attempts does. *)
Lemma attempts_bounded w c url todo :
  (requests (attempts w c url todo).2 ≤ length todo)%nat
  ∧ (slept (attempts w c url todo).2
     <= slept (failed_attempts c url todo))%Q.
Proof.
  induction todo as [|k todo [IH1 IH2]]; [done|].
  rewrite failed_attempts_step. cbn [attempts].
  pose proof (slept_failed_attempts_nonneg c url todo) as Hnn.
  destruct (slept_backoff c k) as [Hb1 Hb2].
  assert (Hagain :
    (requests (EvGet url :: backoff c k ++ (attempts w c url todo).2)
     ≤ length (k :: todo))%nat
    ∧ (slept (EvGet url :: backoff c k ++ (attempts w c url todo).2)
       <= slept (EvGet url :: backoff c k ++ failed_attempts c url todo))%Q).
  { cbn [requests slept length]. rewrite requests_app, !slept_app, Hb2.
    split; [lia|lra]. }
  assert (Hstop :
    (requests [EvGet url] ≤ length (k :: todo))%nat
    ∧ (slept [EvGet url]
       <= slept (EvGet url :: backoff c k ++ failed_attempts c url todo))%Q).
  { cbn [requests slept length]. rewrite slept_app. split; [lia|lra]. }
  destruct (attempts w c url todo) as [r' tr'].
  destruct (_extract_with_aiohttp w url k) as [[t ct]|e].
  - destruct (truthy ct && (len ct >? 100)); done.
  - destruct (is_Exception e); done.
Qed.

Lemma range_S (k : nat) : range (Z.of_nat (S k)) = range (Z.of_nat k) ++ [Z.of_nat k].
Proof.
  unfold range. rewrite !Nat2Z.id, seq_S, fmap_app. done.
Qed.

Lemma failed_attempts_app c url l1 l2 :
  failed_attempts c url (l1 ++ l2)
  = failed_attempts c url l1 ++ failed_attempts c url l2.
Proof. unfold failed_attempts. apply flat_map_app. Qed.

(** The pauses of a run of [k] failed attempts add up to
    [2 ^ min k (max_retries - 1) - 1] seconds. *)
Lemma slept_failed_attempts c url (k : nat) :
  1 ≤ max_retries c →
  (slept (failed_attempts c url (range (Z.of_nat k)))
   == inject_Z (2 ^ Z.min (Z.of_nat k) (max_retries c - 1) - 1))%Q.
Proof.
  intros Hn. induction k as [|k IH].
  - rewrite Z.min_l by lia. done.
  - rewrite range_S, failed_attempts_app, slept_app, IH.
    unfold failed_attempts. cbn [flat_map slept]. rewrite app_nil_r.
    destruct (Z.of_nat k <? max_retries c - 1) eqn:E.
    + cbn [slept]. rewrite !Z.min_l by lia.
      replace (Z.of_nat (S k)) with (Z.of_nat k + 1) by lia.
      rewrite Z.pow_add_r by lia. change (2 ^ 1) with 2.
      rewrite Qplus_0_r, <- inject_Z_plus.
      match goal with
      | |- (inject_Z ?a == inject_Z ?b)%Q => replace a with b by lia
      end.
      reflexivity.
    + cbn [slept]. rewrite !Z.min_r by lia. ring.
Qed.

Lemma resolve_bounded w url :
  (requests (_resolve_google_news_url w url).2 ≤ 1)%nat
  ∧ (slept (_resolve_google_news_url w url).2 == 0)%Q.
Proof.
  unfold _resolve_google_news_url.
  destruct (negb _); [simpl; split; [lia|reflexivity]|].
  destruct (resolve_get w url); simpl; split; try lia; reflexivity.
Qed.

(** The trace of a fetch on an open fetcher: that of the resolution, then
    that of the retry loop. *)
Lemma extract_single_article_trace w f url :
  _is_closed f = false →
  ∃ resolved_url tr tr',
    (extract_single_article urlparse_netloc w f url).2 = tr ++ tr'
    ∧ tr = (_resolve_google_news_url w url).2
    ∧ (tr' = []
       ∨ tr' = (attempts w (config f) resolved_url
                  (range (max_retries (config f)))).2).
Proof.
  intros Hopen. unfold extract_single_article. rewrite Hopen.
  destruct (_resolve_google_news_url w url) as [[resolved|e] tr].
  - exists resolved, tr.
    destruct (attempts w (config f) resolved _) as [[[found|]|e] tr'];
      [| |].
    + exists tr'. auto.
    + exists tr'. destruct (_generate_fallback_content _ _); auto.
    + exists tr'. auto.
  - exists "", tr, []. rewrite app_nil_r. auto.
Qed.

(** X11: a fetch of one article makes at most [max_retries] requests for
    the article and one to resolve the URL, and sleeps at most
    [2 ^ (max_retries - 1) - 1] seconds between them: 4 requests and 3
    seconds with the default of 3 retries. *)
Theorem retries_are_bounded w f url :
  1 ≤ max_retries (config f) →
  let tr := (extract_single_article urlparse_netloc w f url).2 in
  (requests tr ≤ Z.to_nat (max_retries (config f)) + 1)%nat
  ∧ (slept tr <= inject_Z (2 ^ (max_retries (config f) - 1) - 1))%Q.
Proof.
  intros Hn tr.
  assert (Hpow : (0 <= inject_Z (2 ^ (max_retries (config f) - 1) - 1))%Q).
  { apply inject_Z_nonneg.
    pose proof (Z.pow_pos_nonneg 2 (max_retries (config f) - 1)). lia. }
  destruct (_is_closed f) eqn:Hclosed.
  - subst tr. unfold extract_single_article. rewrite Hclosed. simpl.
    split; [lia|done].
  - destruct (extract_single_article_trace w f url Hclosed)
      as (resolved & tr1 & tr2 & Htr & -> & Htr2).
    subst tr. rewrite Htr, requests_app, slept_app.
    destruct (resolve_bounded w url) as [Hr1 Hr2]. rewrite Hr2.
    destruct Htr2 as [->| ->].
    + simpl. split; [lia|lra].
    + destruct (attempts_bounded w (config f) resolved
                  (range (max_retries (config f)))) as [Ha1 Ha2].
      split.
      * assert (length (range (max_retries (config f)))
                = Z.to_nat (max_retries (config f))) as Hlen.
        { unfold range. by rewrite length_fmap, length_seq. }
        lia.
      * rewrite <- (Z2Nat.id (max_retries (config f))) in Ha2 at 2 by lia.
        rewrite slept_failed_attempts in Ha2 by done.
        rewrite Z2Nat.id, Z.min_r in Ha2 by lia. lra.
Qed.

Lemma extract_with_aiohttp_long w url attempt title content :
  _extract_with_aiohttp w url attempt = Returned (title, content) →
  100 < len content →
  truthy title = true.
Proof.
  unfold _extract_with_aiohttp.
  destruct (article_get w url attempt) as [response|e]; [|done].
  destruct (negb _).
  - intros [= <- <-]. unfold len. simpl. lia.
  - destruct (article response) as [[t text]|e]; [|done].
    destruct (truthy t) eqn:E; simpl.
    + destruct (truthy text && (len text >? 100)); intros [= <- <-];
        [done|]. unfold len. simpl. lia.
    + intros [= <- <-]. unfold len. simpl. lia.
Qed.

Lemma attempts_found w c url todo title content tr :
  attempts w c url todo = (Returned (Some (title, content)), tr) →
  ∃ attempt,
    attempt ∈ todo
    ∧ _extract_with_aiohttp w url attempt = Returned (title, content)
    ∧ 100 < len content.
Proof.
  revert tr. induction todo as [|k todo IH]; intros tr; simpl; [done|].
  destruct (attempts w c url todo) as [r' tr'].
  assert (Hrest : ∀ tr0,
            (r', tr0) = (Returned (Some (title, content)), tr) →
            ∃ attempt, attempt ∈ k :: todo
              ∧ _extract_with_aiohttp w url attempt
                = Returned (title, content)
              ∧ 100 < len content).
  { intros tr0 [= -> _].
    destruct (IH tr' eq_refl) as (a & Ha & H1 & H2).
    exists a. split; [|done]. apply elem_of_cons. auto. }
  destruct (_extract_with_aiohttp w url k) as [[t ct]|e] eqn:Hk.
  - destruct (truthy ct && (len ct >? 100)) eqn:E; [|by eauto].
    intros [= <- <- _]. exists k. apply andb_true_iff in E.
    split; [apply elem_of_cons; auto|]. split; [done|lia].
  - destruct (is_Exception e); [by eauto|done].
Qed.

(** X12: what a fetch on an open fetcher returns is either an article, of
    more than 100 characters and under a title that is not empty, which
    one of the attempts gave, or the error title with the placeholder
    text: the content is never empty, and the error titles of single
    attempts never come out. *)
Theorem fetched_article_shape w f url title content :
  _is_closed f = false →
  (extract_single_article urlparse_netloc w f url).1.1
  = Returned (title, content) →
  (100 < len content ∧ truthy title = true
   ∧ ∃ resolved_url attempt,
       0 ≤ attempt < max_retries (config f)
       ∧ _extract_with_aiohttp w resolved_url attempt
         = Returned (title, content))
  ∨ (title = "Error: Extraction failed"
     ∧ ∃ domain, urlparse_netloc url = Returned domain
                 ∧ content = placeholder domain url).
Proof.
  intros Hopen. unfold extract_single_article. rewrite Hopen.
  destruct (_resolve_google_news_url w url) as [[resolved|e] tr]; [|done].
  destruct (attempts w (config f) resolved _) as [[[found|]|e] tr'] eqn:Ha;
    [| |done].
  - intros [= ->]. left.
    destruct (attempts_found _ _ _ _ _ _ _ Ha) as (a & Hin & Hget & Hlong).
    split; [done|]. split; [by eapply extract_with_aiohttp_long|].
    exists resolved, a. split; [|done].
    unfold range in Hin. apply list_elem_of_fmap in Hin as (n & -> & Hn).
    apply elem_of_seq in Hn. lia.
  - unfold _generate_fallback_content.
    destruct (urlparse_netloc url) as [domain|e]; [|done].
    intros [= <- <-]. right. split; [done|]. exists domain. done.
Qed.

(** X13: resolving a URL that is not a Google News article link returns
    it without a request; resolving such a link makes exactly one request,
    for the link itself, and the result is the link or a URL that does not
    hold [news.google.com]; no [Exception] comes out. *)
Theorem resolve_google_news_url_spec w url :
  (contains "news.google.com/rss/articles/" url = false →
   _resolve_google_news_url w url = (Returned url, []))
  ∧ (contains "news.google.com/rss/articles/" url = true →
     (_resolve_google_news_url w url).2 = [EvGet url]
     ∧ requests (_resolve_google_news_url w url).2 = 1%nat)
  ∧ (∀ resolved_url,
       (_resolve_google_news_url w url).1 = Returned resolved_url →
       resolved_url = url ∨ contains "news.google.com" resolved_url = false)
  ∧ (∀ e, (_resolve_google_news_url w url).1 = Raised e →
          is_Exception e = false).
Proof.
  unfold _resolve_google_news_url.
  destruct (contains "news.google.com/rss/articles/" url); simpl.
  - split; [done|].
    destruct (resolve_get w url) as [final|e]; simpl.
    + split; [done|]. split; [|done]. intros r [= <-].
      destruct (contains "news.google.com" final) eqn:E; simpl; auto.
    + split; [done|]. destruct (is_Exception e) eqn:E; simpl.
      * split; [|done]. intros r [= <-]. auto.
      * split; [done|]. intros e' [= <-]. done.
  - split; [done|]. split; [done|]. split; [|done]. intros r [= <-]. auto.
Qed.

Lemma close_inactive w m :
  AsyncSessionManager.is_session_active (AsyncSessionManager.close w m).1.2
  = false.
Proof.
  unfold AsyncSessionManager.close, AsyncSessionManager.is_session_active.
  destruct (AsyncSessionManager._is_closed m) eqn:E; simpl; [|done].
  by rewrite E.
Qed.

(** X14: [get_session] always leaves an active session and is
    idempotent; after [close], whatever closing the session gave, there
    is no active session, the semaphore is the one there was, and
    [get_session] opens a session again. *)
Theorem session_lifecycle m :
  AsyncSessionManager.is_session_active (AsyncSessionManager.get_session m)
  = true
  ∧ AsyncSessionManager.get_session (AsyncSessionManager.get_session m)
    = AsyncSessionManager.get_session m
  ∧ (∀ w,
       let m' := (AsyncSessionManager.close w m).1.2 in
       AsyncSessionManager.is_session_active m' = false
       ∧ AsyncSessionManager._semaphore m' = AsyncSessionManager._semaphore m
       ∧ AsyncSessionManager.get_session m'
         = AsyncSessionManager._create_session m').
Proof.
  assert (Hactive : ∀ m0,
            AsyncSessionManager.is_session_active
              (AsyncSessionManager.get_session m0) = true
            ∧ AsyncSessionManager.session_unusable
                (AsyncSessionManager.get_session m0) = false).
  { intros m0.
    unfold AsyncSessionManager.get_session,
      AsyncSessionManager.is_session_active.
    destruct (AsyncSessionManager.session_unusable m0) eqn:E; [done|].
    unfold AsyncSessionManager.session_unusable in *.
    destruct (AsyncSessionManager._session m0) as [[[]]|]; try done.
    simpl in *. rewrite E. done. }
  split; [apply Hactive|]. split.
  { destruct (Hactive m) as [_ H].
    unfold AsyncSessionManager.get_session at 1. by rewrite H. }
  intros w m'. subst m'. split; [apply close_inactive|].
  unfold AsyncSessionManager.close.
  destruct (AsyncSessionManager._is_closed m) eqn:E; simpl.
  - unfold AsyncSessionManager.get_session,
      AsyncSessionManager.session_unusable.
    rewrite E.
    destruct (AsyncSessionManager._session m) as [s|];
      rewrite ?orb_true_r; done.
  - done.
Qed.

(** X15: [cleanup] is final.  Whatever the world does during it, the
    fetcher is closed afterwards; every later fetch of one article returns
    the closed-fetcher error without a request, and every later batch
    returns the empty list.  When the fetcher was open and held no task,
    so that there was nothing to wait for, it has no active session
    afterwards either. *)
Theorem cleanup_is_final cw f :
  let f' := (cleanup cw f).1.2 in
  _is_closed f' = true
  ∧ (_is_closed f = false → _active_tasks f = [] →
     AsyncSessionManager.is_session_active (session_manager f') = false
     ∧ _active_tasks f' = [])
  ∧ (∀ w url,
       extract_single_article urlparse_netloc w f' url
       = (Returned ("Error: Fetcher closed", ""), f', []))
  ∧ (∀ run urls,
       extract_multiple_articles urlparse_netloc run f' urls
       = (Returned [], f', [])).
Proof.
  intros f'.
  assert (Hclosed : _is_closed f' = true) by apply fetcher_cleanup_closes.
  split; [done|]. split; [|split].
  - intros Hopen _. subst f'. unfold cleanup. rewrite Hopen.
    pose proof (close_inactive (session_close cw) (session_manager f))
      as Hinactive.
    destruct (AsyncSessionManager.close _ _) as [[r m] tr].
    simpl in Hinactive. destruct r; done.
  - intros w url. unfold extract_single_article. by rewrite Hclosed.
  - intros run urls. unfold extract_multiple_articles. by rewrite Hclosed.
Qed.

(** X16: [emergency_cleanup] lets no [Exception] out: it returns unless
    closing the session was cancelled, and the fetcher is closed in
    every case. *)
Theorem emergency_cleanup_spec cw f :
  _is_closed (emergency_cleanup cw f).1.2 = true
  ∧ (∀ e, (emergency_cleanup cw f).1.1 = Raised e →
          is_Exception e = false ∧ session_close cw = Raised e)
  ∧ (not_cancelled (session_close cw) = true →
     (emergency_cleanup cw f).1.1 = Returned tt).
Proof.
  unfold emergency_cleanup.
  pose proof (fetcher_cleanup_closes cw f) as Hc.
  assert (Hr : ∀ e, (cleanup cw f).1.1 = Raised e →
                    is_Exception e = false ∧ session_close cw = Raised e).
  { unfold cleanup. destruct (_is_closed f); [done|].
    unfold AsyncSessionManager.close.
    destruct (AsyncSessionManager._is_closed _); [done|].
    destruct (AsyncSessionManager._session _) as [[[]]|]; simpl; try done.
    destruct (session_close cw) as [[]|e0]; simpl; [done|].
    destruct (is_Exception e0) eqn:E; simpl; [done|].
    rewrite E. simpl. intros e [= <-]. done. }
  destruct (cleanup cw f) as [[r f'] tr]. simpl in *.
  split; [done|]. split.
  - intros e He. destruct r as [[]|e0]; [done|]. simpl in He.
    destruct (is_Exception e0) eqn:E; [done|]. injection He as <-.
    by apply Hr.
  - intros Hcalm. destruct r as [[]|e0]; [done|]. simpl.
    destruct (Hr e0 eq_refl) as [E He]. rewrite He in Hcalm. simpl in Hcalm.
    congruence.
Qed.

End FetchLayer.

(** ** The browser manager *)

Section Browser.

Import BrowserManager.

(** X17: whatever [driver.quit()] does, [cleanup] leaves the manager
    without a driver, and not initialized if it had one; no [Exception]
    comes out; the browser is quit at most once, and a second [cleanup]
    does nothing. *)
Theorem browser_cleanup_releases w b :
  let b' := (cleanup w b).1.2 in
  driver b' = None
  ∧ (driver b ≠ None → _is_initialized b' = false)
  ∧ (∀ e, (cleanup w b).1.1 = Raised e → is_Exception e = false)
  ∧ (cleanup w b).2 = match driver b with Some d => [EvQuit d] | None => [] end
  ∧ ∀ w', cleanup w' b' = (Returned tt, b', []).
Proof.
  unfold cleanup. destruct (driver b) as [d|] eqn:E; simpl.
  - repeat split; try done.
    intros e. destruct w as [[]|e0]; simpl; [done|].
    destruct (is_Exception e0) eqn:E0; [done|]. intros [= <-]. done.
  - rewrite E. done.
Qed.

(** X18: a driver that [get_driver] has returned is kept: the manager is
    initialized with it, at most one browser was started for it, and
    every later [get_driver] returns the same driver without starting a
    browser. *)
Theorem get_driver_caches w b r b' tr :
  get_driver w b = (Returned r, b', tr) →
  ∃ d, r = Some d
       ∧ driver b' = Some d
       ∧ _is_initialized b' = true
       ∧ (tr = [] ∨ tr = [EvChrome d])
       ∧ ∀ w', get_driver w' b' = (Returned (Some d), b', []).
Proof.
  unfold get_driver at 1.
  destruct (negb (_is_initialized b) || _) eqn:E.
  - unfold _initialize_driver.
    destruct (chrome w) as [d|e]; [|done].
    destruct (set_page_load_timeout w) as [[]|e]; [|done].
    intros [= <- <- <-]. exists d. simpl. repeat split; auto.
  - apply orb_false_iff in E as [Hi Hd].
    apply negb_false_iff in Hi.
    destruct (driver b) as [d|] eqn:Ed; [|done].
    intros [= <- <- <-]. exists d. repeat split; auto.
    intros w'. unfold get_driver. rewrite Hi, Ed. done.
Qed.

End Browser.

(** ** The stages of a topic *)

Section TopicStages.

Import AsyncArticleFetcher.

Variable urlparse_netloc : string → outcome string.

Implicit Types (results : list (string * string * string)).

Lemma kept_article_loop (result : string * string * string) :
  negb (truthy result.2) || (Z.of_nat (length (split result.2)) <=? 200)
  = negb (kept_article result).
Proof.
  unfold kept_article. destruct (truthy result.2); simpl; [|done].
  destruct (Z.leb_spec (Z.of_nat (length (split result.2))) 200);
    destruct (Z.ltb_spec 200 (Z.of_nat (length (split result.2))));
    try done; lia.
Qed.

Lemma process_loop_spec now_ results : ∀ va vu sm x,
  Stages.process_loop urlparse_netloc now_ results va vu sm = Returned x →
  let kept := filter (λ r, kept_article r = true) results in
  Stages.texts x = va ++ ((λ r, r.2) <$> kept)
  ∧ Stages.urls x = vu ++ ((λ r, r.1.1) <$> kept)
  ∧ (∃ ms, Stages.sources x = sm ++ ms
           ∧ Forall2
               (λ r m, Stages._create_source_metadata urlparse_netloc now_
                         r.1.1 r.1.2 = Returned m) kept ms)
  ∧ Stages.valid_articles x
    = match Stages.texts x with [] => false | _ => true end.
Proof.
  induction results as [|[[u t] c] results IH]; intros va vu sm x.
  - simpl. intros [= <-]. simpl. rewrite !app_nil_r.
    repeat split; try done. exists []. rewrite app_nil_r. done.
  - cbn [Stages.process_loop].
    pose proof (kept_article_loop (u, t, c)) as Hk. cbn [snd] in Hk.
    rewrite Hk, filter_cons.
    destruct (kept_article (u, t, c)) eqn:E; simpl negb; cbv iota.
    + destruct (Stages._create_source_metadata _ _ _ _) as [m|e] eqn:Em;
        [|done].
      intros Hx. destruct (IH _ _ _ _ Hx) as (H1 & H2 & (ms & H3 & H4) & H5).
      rewrite decide_True by done. cbn [fmap list_fmap].
      rewrite <- !app_assoc in H1, H2, H3.
      repeat split; try done.
      exists (m :: ms). split; [done|]. constructor; done.
    + intros Hx. destruct (IH _ _ _ _ Hx) as (H1 & H2 & H3 & H5).
      rewrite decide_False by done. done.
Qed.

(** X19: what [_process_extraction_results] returns holds exactly the
    entries whose content has more than 200 words, in their order: their
    contents, their URLs and the metadata of their URL and title, one
    for one; and it tells that there are valid articles exactly when it
    holds one. *)
Theorem process_extraction_results_spec now_ results x :
  Stages._process_extraction_results urlparse_netloc now_ results
  = Returned x →
  let kept := filter (λ r, kept_article r = true) results in
  Stages.texts x = (λ r, r.2) <$> kept
  ∧ Stages.urls x = (λ r, r.1.1) <$> kept
  ∧ Forall2
      (λ r m, Stages._create_source_metadata urlparse_netloc now_
                r.1.1 r.1.2 = Returned m) kept (Stages.sources x)
  ∧ (Stages.valid_articles x = true ↔ kept ≠ [])
  ∧ Forall (λ text, 200 < Z.of_nat (length (split text))) (Stages.texts x).
Proof.
  intros Hx kept.
  destruct (process_loop_spec _ _ _ _ _ _ Hx) as (H1 & H2 & (ms & H3 & H4) & H5).
  simpl in H1, H2, H3. fold kept in H1, H2, H4. subst ms.
  repeat split; try done.
  - rewrite H5, H1. destruct kept; done.
  - rewrite H5, H1. destruct kept; done.
  - rewrite H1. apply Forall_fmap, Forall_forall.
    intros r [Hr _]%list_elem_of_filter. unfold kept_article in Hr.
    apply andb_true_iff in Hr as [_ Hr]. simpl. lia.
Qed.

Lemma process_nothing_kept now_ results :
  Forall (λ r, kept_article r = false) results →
  Stages._process_extraction_results urlparse_netloc now_ results
  = Returned Stages.no_articles.
Proof.
  unfold Stages._process_extraction_results.
  induction 1 as [|[[u t] c] results Hr _ IH]; [done|].
  cbn [Stages.process_loop].
  pose proof (kept_article_loop (u, t, c)) as Hk. cbn [snd] in Hk.
  rewrite Hk, Hr. exact IH.
Qed.

Lemma failed_entries_dropped {A} e (urls_ : list string) (tasks : list A) :
  Forall (λ r, kept_article r = false)
    (zip_with entry urls_ ((λ _, Raised e) <$> tasks)).
Proof.
  revert tasks. induction urls_ as [|u urls_ IH]; intros [|k tasks]; simpl;
    try constructor; [done|apply IH].
Qed.

Lemma length_prefix n (s : string) :
  (String.length (DedupQueries.prefix n s) ≤ n)%nat.
Proof.
  unfold DedupQueries.prefix. revert s.
  induction n as [|n IH]; intros [|c s]; simpl; try lia.
  specialize (IH s). lia.
Qed.

Lemma length_lstrip (s : string) :
  (String.length (Stages.lstrip s) ≤ String.length s)%nat.
Proof.
  induction s as [|c s IH]; simpl; [lia|].
  destruct (isspace c); simpl; lia.
Qed.

Lemma length_rstrip (s : string) :
  (String.length (Stages.rstrip s) ≤ String.length s)%nat.
Proof.
  induction s as [|c s IH]; simpl; [lia|].
  destruct (Stages.rstrip s); [destruct (isspace c)|]; simpl in *; lia.
Qed.

(** X29: the metadata of a source always names a URL, the given one or
    [Unknown] for an empty one, for which alone no domain is parsed; its
    title has at most 100 characters or is the stand-in made of the
    domain; and nothing is raised but what parsing a URL that is not
    empty raises. *)
Theorem source_metadata_shape now_ url_ title_ :
  (∀ m, Stages._create_source_metadata urlparse_netloc now_ url_ title_
        = Returned m →
        Stages.url m ≠ ""
        ∧ (url_ ≠ "" → Stages.url m = url_)
        ∧ (url_ = "" →
           Stages.url m = "Unknown" ∧ Stages.domain m = "Unknown")
        ∧ (len (Stages.title m) ≤ 100
           ∨ Stages.title m = "Article from " +:+ Stages.domain m)
        ∧ Stages.extracted_at m = now_)
  ∧ (∀ e, Stages._create_source_metadata urlparse_netloc now_ url_ title_
          = Raised e →
          url_ ≠ "" ∧ urlparse_netloc url_ = Raised e).
Proof.
  unfold Stages._create_source_metadata.
  assert (Htitle : ∀ d,
            len (if truthy title_ && negb (startswith "Error:" title_)
                 then Stages.strip (DedupQueries.prefix 100 title_)
                 else "Article from " +:+ d) ≤ 100
            ∨ (if truthy title_ && negb (startswith "Error:" title_)
               then Stages.strip (DedupQueries.prefix 100 title_)
               else "Article from " +:+ d) = "Article from " +:+ d).
  { intros d. destruct (truthy title_ && _); [left|right; done].
    unfold len, Stages.strip.
    pose proof (length_rstrip (Stages.lstrip (DedupQueries.prefix 100 title_))).
    pose proof (length_lstrip (DedupQueries.prefix 100 title_)).
    pose proof (length_prefix 100 title_). lia. }
  destruct url_ as [|c r]; simpl truthy; cbv iota.
  - split; [|done]. intros m [= <-]. simpl.
    repeat split; try done; apply Htitle.
  - destruct (urlparse_netloc (String c r)) as [n|e]; split; try done.
    + intros m [= <-]. simpl. repeat split; try done; apply Htitle.
    + intros e' [= <-]. done.
Qed.

Lemma cleanup_sessions_spec cw f :
  _is_closed (Stages._cleanup_sessions cw f).1.2 = true
  ∧ ∀ e, (Stages._cleanup_sessions cw f).1.1 = Raised e →
         is_Exception e = false.
Proof.
  unfold Stages._cleanup_sessions.
  pose proof (fetcher_cleanup_closes cw f) as Hc.
  destruct (cleanup cw f) as [[r f'] tr]. simpl in Hc.
  destruct r as [[]|e]; simpl; [done|].
  split; [done|]. destruct (is_Exception e) eqn:E; [done|].
  intros e' [= <-]. done.
Qed.

Lemma extract_loop_closed w urls_ todo f :
  _is_closed f = true →
  Stages.extract_loop urlparse_netloc w urls_ todo f
  = (Returned Stages.no_articles, f, []).
Proof.
  intros Hc. destruct todo as [|attempt rest]; [done|].
  cbn [Stages.extract_loop]. unfold extract_multiple_articles.
  rewrite Hc. done.
Qed.

Lemma extract_articles_cases w f urls_ :
  (∃ x, first_attempt urlparse_netloc w f urls_ = Returned x
        ∧ (Stages._extract_articles urlparse_netloc w f urls_).1.1
          = Returned x
        ∧ (Stages._extract_articles urlparse_netloc w f urls_).2
          = (extract_multiple_articles urlparse_netloc (Stages.batch w 0)
               f urls_).2)
  ∨ (∃ e, first_attempt urlparse_netloc w f urls_ = Raised e
          ∧ ((is_Exception e = false
              ∧ (Stages._extract_articles urlparse_netloc w f urls_).1.1
                = Raised e)
             ∨ (is_Exception e = true
                ∧ _is_closed
                    (Stages._extract_articles urlparse_netloc w f urls_).1.2
                  = true
                ∧ ((Stages._extract_articles urlparse_netloc w f urls_).1.1
                   = Returned Stages.no_articles
                   ∨ ∃ e', (Stages._extract_articles urlparse_netloc w f
                              urls_).1.1 = Raised e'
                           ∧ is_Exception e' = false)))).
Proof.
  unfold first_attempt, Stages._extract_articles.
  change (range 3) with (0 :: [1; 2]). generalize [1; 2]. intros rest.
  cbn [Stages.extract_loop].
  destruct (extract_multiple_articles _ _ f urls_) as [[r f1] tr].
  cbn [fst snd].
  set (body := match r with
               | Returned results =>
                   Stages._process_extraction_results urlparse_netloc
                     (Stages.clock w) results
               | Raised e => Raised e
               end).
  destruct body as [x|e]; [left; eauto|].
  right. exists e. split; [done|].
  destruct (is_Exception e) eqn:E; [right|left; done].
  split; [done|]. change (0 <? 2) with true. cbv iota.
  destruct (cleanup_sessions_spec (Stages.sessions_world w 0) f1)
    as [Hc He].
  destruct (Stages._cleanup_sessions _ f1) as [[rc f2] trc]. simpl in Hc, He.
  destruct rc as [[]|e'].
  - rewrite (extract_loop_closed w urls_ rest f2 Hc). simpl. auto.
  - simpl. split; [done|]. right. exists e'. auto.
Qed.

(** X20: [_extract_articles] lets no [Exception] out, and its retries
    never bring articles: the cleanup that follows a failed attempt
    closes the fetcher, on which the next attempt finds nothing.  So
    when it returns valid articles, they are those of the first
    attempt, and nothing was retried. *)
Theorem extract_articles_never_recovers w f urls_ :
  (∀ e, (Stages._extract_articles urlparse_netloc w f urls_).1.1 = Raised e →
        is_Exception e = false)
  ∧ (∀ x, (Stages._extract_articles urlparse_netloc w f urls_).1.1
          = Returned x →
          Stages.valid_articles x = true →
          first_attempt urlparse_netloc w f urls_ = Returned x
          ∧ (Stages._extract_articles urlparse_netloc w f urls_).2
            = (extract_multiple_articles urlparse_netloc (Stages.batch w 0)
                 f urls_).2)
  ∧ (∀ e, first_attempt urlparse_netloc w f urls_ = Raised e → is_Exception e = true →
          _is_closed (Stages._extract_articles urlparse_netloc w f urls_).1.2
          = true).
Proof.
  destruct (extract_articles_cases w f urls_)
    as [(x & Hf & Hr & Ht)
       |(e & Hf & [[He Hr]|(He & Hc & [Hr|(e' & Hr & He')])])];
    rewrite Hr, Hf.
  - split; [done|]. split; [|done]. intros x0 [= <-] _. done.
  - split; [|split]; [|done|].
    + intros e0 [= <-]. done.
    + intros e0 [= <-]. congruence.
  - split; [done|]. split; [|done]. intros x0 [= <-] Hv. done.
  - split; [|split]; [|done|done]. intros e0 [= <-]. done.
Qed.

(** X21: on a closed fetcher [_extract_articles] finds no articles, at
    once and without any effect; so does it when the batch of the
    first attempt times out on an open fetcher, because every entry of
    such a batch is a failed one. *)
Theorem extract_articles_finds_nothing w f urls_ :
  (_is_closed f = true →
   Stages._extract_articles urlparse_netloc w f urls_
   = (Returned Stages.no_articles, f, []))
  ∧ (_is_closed f = false →
     forallb (done_before 300)
       (run_tasks urlparse_netloc (Stages.batch w 0) 0 f urls_).1.*1
     = false →
     (Stages._extract_articles urlparse_netloc w f urls_).1.1
     = Returned Stages.no_articles).
Proof.
  split.
  - intros Hc. by apply extract_loop_closed.
  - intros Hopen Hlate.
    assert (Hfirst : first_attempt urlparse_netloc w f urls_ = Returned Stages.no_articles).
    { unfold first_attempt.
      pose proof (extract_multiple_articles_open urlparse_netloc
                    (Stages.batch w 0) f urls_ Hopen) as Hspec.
      simpl in Hspec. rewrite Hlate in Hspec. rewrite Hspec.
      - apply process_nothing_kept, failed_entries_dropped.
      - apply Forall_fmap, Forall_forall. done. }
    destruct (extract_articles_cases w f urls_)
      as [(x & Hf & Hr & _)|(e & Hf & _)]; congruence.
Qed.

End TopicStages.

(** ** More about the run *)

Section RunMore.

Import Schedule.

Variable urlparse_netloc : string → outcome string.

Lemma pipeline_no_articles tw topic_ x :
  Schedule._extract_articles tw = Returned x →
  Schedule.valid_articles x = false →
  (pipeline tw topic_).2 = []
  ∧ ∀ n, (pipeline tw topic_).1 ≠ Returned (true, n).
Proof.
  intros Hx Hv. unfold pipeline. rewrite Hx, Hv.
  destruct (check_topic tw topic_) as [[|]|e]; [|done|done].
  destruct (find_articles tw) as [[|u l]|e]; done.
Qed.

Lemma run_closes_fetcher w s :
  _shutdown_requested s = false →
  AsyncArticleFetcher._is_closed
    (async_fetcher (blog_generation_task w s).1.2) = true.
Proof.
  intros Hflag. unfold blog_generation_task. rewrite Hflag.
  destruct (run_body w _) as [[r s1] tr].
  destruct (post_run_cleanup_spec (fetcher_world w) s1) as (_ & _ & _ & Hc).
  destruct (_post_run_cleanup (fetcher_world w) s1) as [[rc s2] trc].
  done.
Qed.

(** X22: a run that was not skipped leaves the fetcher closed, and
    nothing opens it again: a topic whose extraction stage runs on that
    fetcher afterwards finds no valid articles, so it is not published
    and does not count as a post. *)
Theorem nothing_is_published_after_a_run w s tw w' s' topic_ :
  _shutdown_requested s = false →
  extracts_with urlparse_netloc
    (async_fetcher (blog_generation_task w s).1.2) tw →
  (_process_topic w' tw topic_ s').1.1 ≠ Returned true
  ∧ (_process_topic w' tw topic_ s').2 = [].
Proof.
  intros Hflag (ew & urls_ & Hx). unfold Stages._extract_articles in Hx.
  rewrite (extract_loop_closed urlparse_netloc ew urls_ (range 3) _
             (run_closes_fetcher w s Hflag)) in Hx.
  simpl in Hx.
  destruct (pipeline_no_articles tw topic_ _ Hx eq_refl) as [Htr Hr].
  destruct (process_topic_spec w' tw topic_ s') as (-> & _ & ->).
  split; [|done].
  destruct (pipeline tw topic_).1 as [[ok n]|e].
  - intros [= ->]. by apply (Hr n).
  - destruct (is_Exception e); done.
Qed.

(** *** Generating the content *)

Lemma generate_loop_spec w todo c :
  (Stages.generate_loop w todo).1 = Returned (Some c) →
  ∃ pre attempt post result,
    todo = pre ++ attempt :: post
    ∧ w attempt = Returned (Some result)
    ∧ Stages.validation_passed result = true
    ∧ Stages.content result = c
    ∧ Forall (λ j, validated w j = false) pre.
Proof.
  induction todo as [|k todo IH]; simpl; [done|].
  assert (Hrest : validated w k = false →
            (Stages.generate_loop w todo).1 = Returned (Some c) →
            ∃ pre attempt post result,
              k :: todo = pre ++ attempt :: post
              ∧ w attempt = Returned (Some result)
              ∧ Stages.validation_passed result = true
              ∧ Stages.content result = c
              ∧ Forall (λ j, validated w j = false) pre).
  { intros Hk (pre & a & post & result & -> & H1 & H2 & H3 & H4)%IH.
    exists (k :: pre), a, post, result. repeat split; try done.
    by constructor. }
  unfold validated in Hrest.
  destruct (w k) as [[result|]|e] eqn:Hk.
  - destruct (Stages.validation_passed result) eqn:Hv; [|by auto].
    intros [= <-]. exists [], k, todo, result. done.
  - by auto.
  - destruct (is_Exception e); [|done].
    destruct (Stages.generate_loop w todo) as [r tr]. by auto.
Qed.

Lemma generate_loop_raises w todo e :
  (Stages.generate_loop w todo).1 = Raised e → is_Exception e = false.
Proof.
  induction todo as [|k todo IH]; simpl; [done|].
  destruct (w k) as [[result|]|e0] eqn:Hk.
  - destruct (Stages.validation_passed result); [done|auto].
  - auto.
  - destruct (is_Exception e0) eqn:E0.
    + destruct (Stages.generate_loop w todo) as [r tr]. auto.
    + intros [= <-]. done.
Qed.

(** X23: [_generate_content] returns a content only if an attempt, one of
    three, gave a result that passed validation, the first such attempt,
    and then it returns the content of that result; no [Exception] comes
    out; and the pauses between the attempts add up to 45 seconds at
    most. *)
Theorem generate_content_spec w :
  (∀ c, (Stages._generate_content w).1 = Returned (Some c) →
        ∃ attempt result,
          0 ≤ attempt < 3
          ∧ w attempt = Returned (Some result)
          ∧ Stages.validation_passed result = true
          ∧ Stages.content result = c
          ∧ ∀ earlier, 0 ≤ earlier < attempt → validated w earlier = false)
  ∧ (∀ e, (Stages._generate_content w).1 = Raised e →
          is_Exception e = false)
  ∧ (slept (Stages._generate_content w).2 <= 45)%Q.
Proof.
  unfold Stages._generate_content. change (range 3) with [0; 1; 2].
  split; [|split].
  - intros c (pre & a & post & result & Hsplit & H1 & H2 & H3 & H4)
             %generate_loop_spec.
    exists a, result.
    destruct pre as [|p0 [|p1 [|p2 pre]]]; simplify_eq/=.
    + repeat split; try done; lia.
    + apply Forall_cons in H4 as [H40 _].
      repeat split; try done; try lia.
      intros earlier He. by replace earlier with 0 by lia.
    + apply Forall_cons in H4 as [H40 [H41 _]%Forall_cons].
      repeat split; try done; try lia.
      intros earlier He.
      assert (earlier = 0 ∨ earlier = 1) as [->| ->] by lia; done.
    + destruct pre; done.
  - intros e. apply generate_loop_raises.
  - cbn [Stages.generate_loop].
    destruct (w 0) as [[[c0 []]|]|e0]; destruct (w 1) as [[[c1 []]|]|e1];
      destruct (w 2) as [[[c2 []]|]|e2];
      try destruct (is_Exception e0); try destruct (is_Exception e1);
      try destruct (is_Exception e2); done.
Qed.

(** *** Maintenance *)

(** X24: [_cleanup_history], and [_daily_maintenance] with it, leaves at
    most 100 recorded errors: once there are more than 100, the last 50
    remain; the counters are not touched. *)
Theorem history_is_trimmed w d s :
  let s' := _cleanup_history s in
  (length (errors (stats s')) ≤ 100)%nat
  ∧ errors (stats s') `suffix_of` errors (stats s)
  ∧ ((100 < length (errors (stats s)))%nat →
     length (errors (stats s')) = 50%nat)
  ∧ ((length (errors (stats s)) ≤ 100)%nat → s' = s)
  ∧ total_runs (stats s') = total_runs (stats s)
  ∧ successful_posts (stats s') = successful_posts (stats s)
  ∧ failed_posts (stats s') = failed_posts (stats s)
  ∧ (Stages._daily_maintenance w d s).2 = s'.
Proof.
  intros s'.
  assert (Hd : (Stages._daily_maintenance w d s).2 = s') by done.
  revert Hd. subst s'. unfold _cleanup_history.
  destruct (100 <? length (errors (stats s)))%nat eqn:E; intros Hd.
  - apply Nat.ltb_lt in E. simpl. rewrite length_drop.
    repeat split; try done; try lia. apply suffix_drop.
  - apply Nat.ltb_ge in E. repeat split; try done; lia.
Qed.

(** *** The counters of a run *)

Lemma posts_app tr1 tr2 : posts (tr1 ++ tr2) = (posts tr1 + posts tr2)%nat.
Proof.
  induction tr1 as [|e tr1 IH]; [done|].
  destruct e as [| | | | | | | |i []|]; simpl; rewrite ?IH; done.
Qed.

Lemma publications_app tr1 tr2 :
  publications (tr1 ++ tr2) = (publications tr1 + publications tr2)%nat.
Proof.
  induction tr1 as [|e tr1 IH]; [done|].
  destruct e; simpl; rewrite ?IH; done.
Qed.

Lemma posts_cleanup cw f : posts (AsyncArticleFetcher.cleanup cw f).2 = 0%nat.
Proof.
  unfold AsyncArticleFetcher.cleanup.
  destruct (AsyncArticleFetcher._is_closed f); [done|].
  assert (Hclose : posts (AsyncSessionManager.close
                            (AsyncArticleFetcher.session_close cw)
                            (AsyncArticleFetcher.session_manager f)).2
                   = 0%nat).
  { unfold AsyncSessionManager.close.
    destruct (AsyncSessionManager._is_closed _); [done|].
    destruct (AsyncSessionManager._session _) as [[[]]|]; try done.
    destruct (AsyncArticleFetcher.session_close cw); done. }
  destruct (AsyncSessionManager.close _ _) as [[r m] tr]. simpl in Hclose.
  assert (Hcancel : ∀ l : list Task,
            posts ((EvCancel ∘ task_id <$> l)
                   ++ [EvGather 10 (AsyncArticleFetcher.grace_expired cw)])
            = 0%nat).
  { intros l. induction l as [|k l IH]; done. }
  destruct r; simpl; rewrite !posts_app, ?Hclose;
    (destruct (AsyncArticleFetcher._active_tasks f);
     [done|rewrite <- ?posts_app, Hcancel; done]).
Qed.

Lemma posts_post_run_cleanup cw s : posts (_post_run_cleanup cw s).2 = 0%nat.
Proof.
  unfold _post_run_cleanup.
  pose proof (posts_cleanup cw (async_fetcher s)) as H.
  destruct (AsyncArticleFetcher.cleanup cw (async_fetcher s)) as [[r f] tr].
  simpl in H. destruct r; simpl; rewrite ?posts_app, H; done.
Qed.

Lemma posts_interleave w p s : posts (interleave w p s).2 = 0%nat.
Proof.
  unfold interleave. destruct (shutdown_arrives w p); [|done].
  unfold shutdown.
  set (s1 := {| scheduler_running := false; _shutdown_requested := true;
                stats := stats s; async_fetcher := async_fetcher s |}).
  pose proof (posts_post_run_cleanup (fetcher_world w) s1) as H.
  destruct (_post_run_cleanup (fetcher_world w) s1) as [[r s2] tr].
  simpl in *. rewrite posts_app, H. by destruct (scheduler_running s).
Qed.

Lemma stats_interleave w p s : stats (interleave w p s).1 = stats s.
Proof.
  destruct (interleave_cases w p s)
    as [[_ ->]|(_ & s' & rest & -> & _ & _ & H)]; done.
Qed.

(** A topic changes neither the count of runs nor that of posts, and when
    it returns true it has published once. *)
Lemma process_topic_counts w tw topic_ s :
  let turn := _process_topic w tw topic_ s in
  total_runs (stats turn.1.2) = total_runs (stats s)
  ∧ successful_posts (stats turn.1.2) = successful_posts (stats s)
  ∧ last_run (stats turn.1.2) = last_run (stats s)
  ∧ posts turn.2 = 0%nat
  ∧ (publications turn.2 ≤ 1)%nat
  ∧ (turn.1.1 = Returned true → publications turn.2 = 1%nat).
Proof.
  unfold _process_topic.
  assert (Hp : posts (pipeline tw topic_).2 = 0%nat
               ∧ (publications (pipeline tw topic_).2 ≤ 1)%nat
               ∧ (∀ n, (pipeline tw topic_).1 = Returned (true, n) →
                       publications (pipeline tw topic_).2 = 1%nat)).
  { unfold pipeline.
    repeat (match goal with
            | |- context [match ?x with _ => _ end] => destruct x
            end; simpl; try (repeat split; (done || lia))). }
  destruct Hp as (Hp1 & Hp2 & Hp3).
  destruct (pipeline tw topic_) as [[[ok n]|e] tr]; simpl in *.
  - repeat split; try done. intros [= ->]. by eapply Hp3.
  - destruct (is_Exception e); simpl; repeat split; done.
Qed.

Lemma topic_loop_counts w todo : ∀ s,
  let run := topic_loop w todo s in
  total_runs (stats run.1.2) = total_runs (stats s)
  ∧ last_run (stats run.1.2) = last_run (stats s)
  ∧ successful_posts (stats run.1.2)
    = successful_posts (stats s) + Z.of_nat (posts run.2)
  ∧ (posts run.2 ≤ publications run.2)%nat.
Proof.
  induction todo as [|[i topic_] rest IH]; intros s.
  - simpl. repeat split; (done || lia).
  - destruct (_shutdown_requested s) eqn:Hflag.
    { rewrite topic_loop_flagged by done. simpl. repeat split; (done || lia). }
    intros run. subst run. rewrite topic_loop_turn by done.
    destruct (process_topic_counts w (topics_world w i) topic_ s)
      as (H1 & H2 & H3 & H4 & H5 & H6).
    set (turn := _process_topic w (topics_world w i) topic_ s) in *.
    pose proof (stats_interleave w (AtTopic i) turn.1.2) as Hs2.
    pose proof (posts_interleave w (AtTopic i) turn.1.2) as Hp2.
    set (s2 := (interleave w (AtTopic i) turn.1.2).1) in *.
    set (sd1 := (interleave w (AtTopic i) turn.1.2).2) in *.
    destruct turn.1.1 as [[|]|e] eqn:Hr.
    + set (s3 := bump_successful s2).
      assert (Hs4 : ∃ s4 nap,
                (if _shutdown_requested s3 then s3
                 else (interleave w (AtSleep i) s3).1) = s4
                ∧ (if _shutdown_requested s3 then []
                   else EvSleep 30 :: (interleave w (AtSleep i) s3).2) = nap
                ∧ stats s4 = stats s3 ∧ posts nap = 0%nat).
      { destruct (_shutdown_requested s3); eexists _, _;
          repeat split; try done.
        - apply stats_interleave.
        - simpl. apply posts_interleave. }
      destruct Hs4 as (s4 & nap & -> & -> & Hs4 & Hnap).
      destruct (IH s4) as (I1 & I2 & I3 & I4).
      destruct (topic_loop w rest s4) as [[r' s'] tr']. simpl in *.
      rewrite !posts_app, !publications_app. simpl.
      rewrite !posts_app, !publications_app, H4, Hp2, Hnap.
      rewrite I1, I2, I3, Hs4. subst s3. simpl. rewrite Hs2.
      specialize (H6 eq_refl).
      repeat split; try done; lia.
    + destruct (IH s2) as (I1 & I2 & I3 & I4).
      destruct (topic_loop w rest s2) as [[r' s'] tr']. simpl in *.
      rewrite !posts_app, !publications_app. simpl.
      rewrite I1, I2, I3, Hs2, H4, Hp2.
      repeat split; try done; lia.
    + simpl. rewrite !posts_app, Hs2, H4, Hp2.
      repeat split; try done; lia.
Qed.

(** X26: a run that is not skipped counts one run and records its time,
    and the count of posts grows by the number of topics that ended with
    a post, each of which was published; whatever else happens in the
    run. *)
Theorem run_counts w s :
  _shutdown_requested s = false →
  let run := blog_generation_task w s in
  total_runs (stats run.1.2) = total_runs (stats s) + 1
  ∧ last_run (stats run.1.2) = Some (clock w)
  ∧ successful_posts (stats run.1.2)
    = successful_posts (stats s) + Z.of_nat (posts run.2)
  ∧ (posts run.2 ≤ publications run.2)%nat.
Proof.
  intros Hflag run. subst run. unfold blog_generation_task. rewrite Hflag.
  set (s0 := set_stats s _).
  assert (Hbody :
    total_runs (stats (run_body w s0).1.2) = total_runs (stats s0)
    ∧ last_run (stats (run_body w s0).1.2) = last_run (stats s0)
    ∧ successful_posts (stats (run_body w s0).1.2)
      = successful_posts (stats s0) + Z.of_nat (posts (run_body w s0).2)
    ∧ (posts (run_body w s0).2 ≤ publications (run_body w s0).2)%nat).
  { unfold run_body.
    pose proof (stats_interleave w AtTrending s0) as Hs1.
    pose proof (posts_interleave w AtTrending s0) as Hp1.
    destruct (interleave w AtTrending s0) as [s1 sd]. simpl in Hs1, Hp1.
    destruct (_get_trending_topics w) as [topics|e]; simpl.
    - destruct (topic_loop_counts w
                  (imap pair (topic_title <$> topics)) s1)
        as (I1 & I2 & I3 & I4).
      destruct (topic_loop w (imap pair (topic_title <$> topics)) s1)
        as [[r s2] tr].
      simpl in *.
      assert (Hh : stats (_cleanup_history s2) = stats s2
                   ∨ (total_runs (stats (_cleanup_history s2))
                      = total_runs (stats s2)
                      ∧ last_run (stats (_cleanup_history s2))
                        = last_run (stats s2)
                      ∧ successful_posts (stats (_cleanup_history s2))
                        = successful_posts (stats s2))).
      { unfold _cleanup_history. destruct (_ <? _)%nat; auto. }
      destruct r; simpl; rewrite posts_app, publications_app, Hp1.
      + destruct Hh as [->|(-> & -> & ->)]; rewrite I1, I2, I3, Hs1;
          repeat split; try done; simpl; lia.
      + rewrite I1, I2, I3, Hs1. repeat split; try done; simpl; lia.
    - rewrite Hs1, Hp1. repeat split; try done; simpl; lia. }
  destruct (run_body w s0) as [[r s1] tr]. simpl in Hbody.
  destruct (post_run_cleanup_spec (fetcher_world w) s1) as (_ & _ & Hst & _).
  pose proof (posts_post_run_cleanup (fetcher_world w) s1) as Hpc.
  destruct (_post_run_cleanup (fetcher_world w) s1) as [[rc s2] trc].
  simpl in *. rewrite Hst, posts_app, publications_app, Hpc.
  destruct Hbody as (-> & -> & -> & Hle).
  repeat split; try done; lia.
Qed.

(** *** Shutting down twice *)

(** X27: a second [shutdown] finds the scheduler stopped and the fetcher
    closed: it sets the flag again, sleeps the second of the cleanup and
    changes nothing. *)
Theorem shutdown_twice w1 w2 s :
  let s1 := (shutdown w1 s).1.2 in
  shutdown w2 s1 = (Returned tt, s1, [EvShutdownRequested; EvSleep 1]).
Proof.
  intros s1.
  assert (Hshape : scheduler_running s1 = false
                   ∧ _shutdown_requested s1 = true
                   ∧ AsyncArticleFetcher._is_closed (async_fetcher s1)
                     = true).
  { subst s1. unfold shutdown.
    set (s0 := {| scheduler_running := false; _shutdown_requested := true;
                  stats := stats s; async_fetcher := async_fetcher s |}).
    destruct (post_run_cleanup_spec w1 s0) as (_ & Hf & _ & Hc).
    assert (Hrun : scheduler_running (_post_run_cleanup w1 s0).1.2 = false).
    { unfold _post_run_cleanup.
      destruct (AsyncArticleFetcher.cleanup w1 (async_fetcher s0))
        as [[r f] tr].
      destruct r; done. }
    destruct (_post_run_cleanup w1 s0) as [[r s2] tr]. done. }
  clearbody s1. destruct s1 as [running flag st f]. simpl in Hshape.
  destruct Hshape as (-> & -> & Hc).
  unfold shutdown, _post_run_cleanup. simpl.
  unfold AsyncArticleFetcher.cleanup. rewrite Hc. done.
Qed.

(** *** The topics of a run *)

(** X28: [_get_trending_topics] never returns an empty list: when the
    detector finds no topic, the first five fallback topics stand in.  So
    a run that is not skipped, during whose wait for the detector no
    shutdown arrives, and whose detector returns, starts with a topic.
    That topic is the title of the detector's first topic; on the
    fallback path, where the trends are [str], it is the method [title]
    of the first fallback topic, not its text, and such a topic fails at
    its first stage: it is not published, has no effect, and its
    [AttributeError] goes on record. *)
Theorem a_run_has_a_topic w s :
  _shutdown_requested s = false →
  shutdown_arrives w AtTrending = false →
  is_Returned (get_trending_topics w) = true →
  ∃ first others rest,
    _get_trending_topics w = Returned (first :: others)
    ∧ (∀ title titles,
         get_trending_topics w = Returned (title :: titles) →
         first :: others = TrendingTopic <$> title :: titles
         ∧ topic_title first = Title title)
    ∧ (get_trending_topics w = Returned [] →
       first :: others = FallbackTopic <$> take 5 FALLBACK_TOPICS
       ∧ topic_title first
         = title_method "Artificial Intelligence breakthroughs"
       ∧ ∀ tw s',
           let done := _process_topic w tw (topic_title first) s' in
           done.1.1 = Returned false
           ∧ done.2 = []
           ∧ length (errors (stats done.1.2))
             = S (length (errors (stats s'))))
    ∧ (blog_generation_task w s).2
      = EvTopicStart 0 (topic_title first) :: rest.
Proof.
  intros Hflag Hquiet Hret.
  assert (Htopics : ∃ first others,
            _get_trending_topics w = Returned (first :: others)
            ∧ (∀ title titles,
                 get_trending_topics w = Returned (title :: titles) →
                 first :: others = TrendingTopic <$> title :: titles
                 ∧ topic_title first = Title title)
            ∧ (get_trending_topics w = Returned [] →
               first :: others = FallbackTopic <$> take 5 FALLBACK_TOPICS
               ∧ topic_title first
                 = title_method "Artificial Intelligence breakthroughs"
               ∧ ∀ tw s',
                   let done := _process_topic w tw (topic_title first) s' in
                   done.1.1 = Returned false
                   ∧ done.2 = []
                   ∧ length (errors (stats done.1.2))
                     = S (length (errors (stats s'))))).
  { unfold _get_trending_topics.
    destruct (get_trending_topics w) as [[|t l]|e]; [| |done].
    - eexists _, _. split; [reflexivity|]. split; [done|].
      intros _. split; [done|]. split; [done|].
      intros tw s'. cbn. rewrite length_app. cbn. split; [done|].
      split; [done|lia].
    - exists (TrendingTopic t), (TrendingTopic <$> l).
      split; [done|]. split; [|done].
      intros title titles [= -> ->]. done. }
  destruct Htopics as (first & others & Ht & Hd & Hf).
  exists first, others.
  unfold blog_generation_task. rewrite Hflag.
  set (s0 := set_stats s _). unfold run_body, interleave.
  rewrite Hquiet, Ht.
  change (imap pair (topic_title <$> first :: others))
    with ((0%nat, topic_title first)
          :: imap (pair ∘ S) (topic_title <$> others)).
  assert (Hloop : ∃ rest,
            (topic_loop w ((0%nat, topic_title first)
                           :: imap (pair ∘ S) (topic_title <$> others))
               s0).2
            = EvTopicStart 0 (topic_title first) :: rest).
  { rewrite topic_loop_turn by done.
    destruct (_process_topic _ _ _ _).1.1 as [[|]|e]; simpl; eauto. }
  destruct Hloop as (rest & Hrest).
  destruct (topic_loop w _ s0) as [[r s2] tr]. simpl in Hrest. subst tr.
  destruct r as [[]|e]; simpl;
    destruct (_post_run_cleanup _ _) as [[rc s3] trc]; simpl; eauto 10.
Qed.

End RunMore.

(** ** Shutdown and failures in a run *)

Section RunClaims.

Import Schedule.

Variable urlparse_netloc : string → outcome string.









Lemma generate_content_exhausted gw :
  generator_fails gw → (Stages._generate_content gw).1 = Returned None.
Proof.
  intros Hfail. unfold Stages._generate_content.
  change (range 3) with [0; 1; 2].
  destruct (Hfail 0) as (e0 & H0 & E0); [lia|].
  destruct (Hfail 1) as (e1 & H1 & E1); [lia|].
  destruct (Hfail 2) as (e2 & H2 & E2); [lia|].
  cbn [Stages.generate_loop]. rewrite H0, E0, H1, E1, H2, E2. done.
Qed.

(** C7 (amended): an [Exception] that comes out of a stage of a topic is
    caught in [_process_topic], which returns false, appends a record of
    it to the errors of the statistics and counts a failed post; a topic
    out of whose stages nothing comes adds no record.  The failures of
    the generator and of the batch fetch do not come out of their
    stages: when every attempt of the generator raises, the topic
    returns false and counts a failed post, and when the first attempt
    of the extraction raises, the topic is not published and counts
    nothing; in both cases the errors are as they were.  In a run during
    which no shutdown arrives and no topic is cancelled, every topic is
    started, in order, whatever fails in them.  An [Exception] raised
    when the topics are fetched ends the run before any topic: it is
    caught, and the run returns.  And whenever a run has started, the
    fetcher is closed when it ends. *)
Theorem topic_failure_is_recorded w :
  (∀ tw topic_ s e,
     (pipeline tw topic_).1 = Raised e → is_Exception e = true →
     (_process_topic w tw topic_ s).1.1 = Returned false
     ∧ errors (stats (_process_topic w tw topic_ s).1.2)
       = errors (stats s) ++
         [{| topic := topic_; error := exn_msg e; timestamp := clock w;
             traceback := format_exc w e |}]
     ∧ failed_posts (stats (_process_topic w tw topic_ s).1.2)
       = failed_posts (stats s) + 1)
  ∧ (∀ tw topic_ s ok n,
       (pipeline tw topic_).1 = Returned (ok, n) →
       (_process_topic w tw topic_ s).1.1 = Returned ok
       ∧ errors (stats (_process_topic w tw topic_ s).1.2) = errors (stats s)
       ∧ failed_posts (stats (_process_topic w tw topic_ s).1.2)
         = failed_posts (stats s) + n)
  ∧ (∀ gw tw topic_ s,
       reaches_generation tw topic_ →
       Schedule._generate_content tw = (Stages._generate_content gw).1 →
       generator_fails gw →
       (_process_topic w tw topic_ s).1.1 = Returned false
       ∧ errors (stats (_process_topic w tw topic_ s).1.2) = errors (stats s)
       ∧ failed_posts (stats (_process_topic w tw topic_ s).1.2)
         = failed_posts (stats s) + 1)
  ∧ (∀ ew f urls_ tw topic_ s e,
       check_topic tw topic_ = Returned true →
       find_articles tw = Returned urls_ →
       Schedule._extract_articles tw
       = extraction_result
           (Stages._extract_articles urlparse_netloc ew f urls_).1.1 →
       first_attempt urlparse_netloc ew f urls_ = Raised e →
       is_Exception e = true →
       (_process_topic w tw topic_ s).1.1 ≠ Returned true
       ∧ errors (stats (_process_topic w tw topic_ s).1.2) = errors (stats s)
       ∧ failed_posts (stats (_process_topic w tw topic_ s).1.2)
         = failed_posts (stats s))
  ∧ (∀ s topics,
       _shutdown_requested s = false →
       (∀ p, shutdown_arrives w p = false) →
       (∀ i t, not_cancelled (pipeline (topics_world w i) t).1 = true) →
       _get_trending_topics w = Returned topics →
       topics_started (blog_generation_task w s).2
       = imap pair (topic_title <$> topics))
  ∧ (∀ s e,
       _shutdown_requested s = false →
       get_trending_topics w = Raised e → is_Exception e = true →
       topics_started (blog_generation_task w s).2 = []
       ∧ (not_cancelled
            (AsyncArticleFetcher.session_close (fetcher_world w)) = true →
          (blog_generation_task w s).1.1 = Returned tt))
  ∧ (∀ s,
       _shutdown_requested s = false →
       AsyncArticleFetcher._is_closed
         (async_fetcher (blog_generation_task w s).1.2) = true).
Proof.
  split; [|split; [|split; [|split; [|split; [|split]]]]].
  - intros tw topic_ s e Hp He. unfold _process_topic.
    destruct (pipeline tw topic_) as [r tr]. simpl in Hp. subst r.
    rewrite He. done.
  - intros tw topic_ s ok n Hp. unfold _process_topic.
    destruct (pipeline tw topic_) as [r tr]. simpl in Hp. subst r. done.
  - intros gw tw topic_ s (Hcheck & (url & rest & Hfind) & x & Hx & Hv)
      Hgen Hfail.
    assert (Hp : (pipeline tw topic_).1 = Returned (false, 1)).
    { unfold pipeline.
      rewrite Hcheck, Hfind, Hx, Hv, Hgen,
        (generate_content_exhausted gw Hfail). done. }
    unfold _process_topic.
    destruct (pipeline tw topic_) as [r tr]. simpl in Hp. subst r. done.
  - intros ew f urls_ tw topic_ s e Hcheck Hfind Hx Hfirst He.
    assert (Hp : (pipeline tw topic_).1 = Returned (false, 0)
                 ∨ ∃ e', (pipeline tw topic_).1 = Raised e'
                         ∧ is_Exception e' = false).
    { unfold pipeline. rewrite Hcheck, Hfind.
      destruct urls_ as [|url rest]; [by left|]. rewrite Hx.
      destruct (extract_articles_cases urlparse_netloc ew f (url :: rest))
        as [(x & Hf & _)
           |(e0 & Hf & [[He0 Hr]|(_ & _ & [Hr|(e' & Hr & He')])])];
        try congruence.
      - rewrite Hr. by left.
      - rewrite Hr. simpl. right. eauto. }
    unfold _process_topic.
    destruct (pipeline tw topic_) as [r tr]. simpl in Hp.
    destruct Hp as [->|(e' & -> & ->)]; simpl; repeat split; try done.
    lia.
  - intros s topics Hflag Hnone Hok Htopics.
    unfold blog_generation_task. rewrite Hflag.
    set (s0 := set_stats s _). unfold run_body.
    rewrite interleave_none, Htopics by done.
    destruct (topic_loop_starts_all w Hnone Hok
                (imap pair (topic_title <$> topics)) s0)
      as [Hstarted Hret]; [done|].
    destruct (topic_loop w (imap pair (topic_title <$> topics)) s0)
      as [[r s2] tr].
    simpl in Hstarted, Hret. destruct r as [[]|]; [|done].
    destruct (post_run_cleanup_spec (fetcher_world w) (_cleanup_history s2))
      as (Ht & _).
    destruct (_post_run_cleanup _ _) as [[rc s3] trc]. simpl in *.
    rewrite topics_started_app, (topics_started_teardown _ Ht), app_nil_r.
    done.
  - intros s e Hflag Htrend He.
    unfold blog_generation_task. rewrite Hflag.
    set (s0 := set_stats s _). unfold run_body, _get_trending_topics.
    rewrite Htrend.
    destruct (interleave_cases w AtTrending s0)
      as [[_ ->]|(_ & s1 & sd & -> & Hsd & _)].
    + destruct (post_run_cleanup_spec (fetcher_world w) s0) as (Ht & _).
      assert (Hrc : not_cancelled
                (AsyncArticleFetcher.session_close (fetcher_world w)) = true →
              (_post_run_cleanup (fetcher_world w) s0).1.1 = Returned tt).
      { apply post_run_cleanup_returns. }
      destruct (_post_run_cleanup _ _) as [[rc s3] trc]. simpl in *.
      split; [by apply topics_started_teardown|].
      intros Hc. rewrite (Hrc Hc), He. done.
    + destruct (post_run_cleanup_spec (fetcher_world w) s1) as (Ht & _).
      assert (Hrc : not_cancelled
                (AsyncArticleFetcher.session_close (fetcher_world w)) = true →
              (_post_run_cleanup (fetcher_world w) s1).1.1 = Returned tt).
      { apply post_run_cleanup_returns. }
      destruct (_post_run_cleanup _ _) as [[rc s3] trc]. simpl in *.
      split.
      * change (EvShutdownRequested :: ?x) with ([EvShutdownRequested] ++ x).
        rewrite !topics_started_app, (topics_started_teardown _ Hsd),
          (topics_started_teardown _ Ht). done.
      * intros Hc. rewrite (Hrc Hc), He. done.
  - intros s Hflag. unfold blog_generation_task. rewrite Hflag.
    set (s0 := set_stats s _).
    destruct (run_body w s0) as [[r s1] tr].
    destruct (post_run_cleanup_spec (fetcher_world w) s1) as (_ & _ & _ & Hc).
    destruct (_post_run_cleanup _ _) as [[rc s3] trc]. done.
Qed.

End RunClaims.

(** The run during which a shutdown arrives while the second of three
    topics is processed: the second topic is ended, the third is never
    started, and there is no pause after the second. *)
Example interrupted_run :
  (Schedule.blog_generation_task Scenario.interrupted Scenario.scheduler0).2
  = [EvTopicStart 0 (Title "one"); EvPublish (Title "one");
     EvTopicEnd 0 true; EvSleep 30;
     EvTopicStart 1 (Title "two"); EvPublish (Title "two");
     EvShutdownRequested; EvSchedulerShutdown; EvSleep (1 # 5); EvSleep 1;
     EvTopicEnd 1 true; EvSleep 1].
Proof. reflexivity. Qed.



(** The run whose second topic fails: the three topics are started, and
    the failure is the one error on record. *)
Example second_fails_run :
  Schedule.errors
    (Schedule.stats
       (Schedule.blog_generation_task Scenario.second_fails
          Scenario.scheduler0).1.2)
  = [{| Schedule.topic := Title "two"; Schedule.error := "search failed";
        Schedule.timestamp := 0; Schedule.traceback := "search failed" |}]
  ∧ Schedule.failed_posts
      (Schedule.stats
         (Schedule.blog_generation_task Scenario.second_fails
            Scenario.scheduler0).1.2) = 1
  ∧ Schedule.successful_posts
      (Schedule.stats
         (Schedule.blog_generation_task Scenario.second_fails
            Scenario.scheduler0).1.2) = 2.
Proof. repeat split; reflexivity. Qed.

(** The failed search of that second topic is on record, the failures of
    a generator that is down are not, and the three topics of the run are
    started. *)
Lemma topic_failure_is_recorded_witness :
  Schedule.errors
    (Schedule.stats
       (Schedule._process_topic Scenario.second_fails Scenario.search_down
          (Title "two") Scenario.scheduler0).1.2)
  = [{| Schedule.topic := Title "two"; Schedule.error := "search failed";
        Schedule.timestamp := 0; Schedule.traceback := "search failed" |}]
  ∧ Schedule.errors
      (Schedule.stats
         (Schedule._process_topic Scenario.second_fails
            Cases.generation_fails (Title "two") Scenario.scheduler0).1.2)
    = []
  ∧ topics_started
      (Schedule.blog_generation_task Scenario.second_fails
         Scenario.scheduler0).2
    = [(0%nat, Title "one"); (1%nat, Title "two"); (2%nat, Title "three")].
Proof.
  pose proof (topic_failure_is_recorded AsyncArticleFetcher.netloc
                Scenario.second_fails)
    as (Hrecorded & _ & Hgenerator & _ & Hstarted & _).
  split; [|split].
  - refine (proj1 (proj2 (Hrecorded Scenario.search_down (Title "two")
                            Scenario.scheduler0
                            (Exn Exception_ "search failed") _ _)));
      reflexivity.
  - refine (proj1 (proj2 (Hgenerator Cases.generator_down
                            Cases.generation_fails (Title "two")
                            Scenario.scheduler0 _ _ _))).
    + split; [reflexivity|]. split; [by eexists _, _|].
      eexists. split; reflexivity.
    + reflexivity.
    + intros attempt _. eexists. split; reflexivity.
  - refine (Hstarted Scenario.scheduler0
              (Schedule.TrendingTopic <$> ["one"; "two"; "three"])
              _ _ _ _).
    + reflexivity.
    + intros p. reflexivity.
    + intros i t. simpl. destruct t, (i =? 1)%nat; reflexivity.
    + reflexivity.
Defined.

(** C7, as stated, fails: the generator raises at each of its three
    attempts; [_generate_content] catches the three failures and returns
    [None], and the topic ends with a failed post and no error on
    record. *)
Lemma a_swallowed_failure_is_not_recorded :
  Stages._generate_content Cases.generator_down
  = (Returned None, [EvSleep 15; EvSleep 30])
  ∧ (Schedule._process_topic Scenario.second_fails Cases.generation_fails
       (Title "two") Scenario.scheduler0).1.1 = Returned false
  ∧ Schedule.errors
      (Schedule.stats
         (Schedule._process_topic Scenario.second_fails
            Cases.generation_fails (Title "two") Scenario.scheduler0).1.2)
    = []
  ∧ Schedule.failed_posts
      (Schedule.stats
         (Schedule._process_topic Scenario.second_fails
            Cases.generation_fails (Title "two") Scenario.scheduler0).1.2)
    = 1.
Proof. repeat split; reflexivity. Qed.


Section Maintenance.

Import DedupEngine.

Variable sha256 md5 : string → string.
Variable ratio : string → string → Q.

(** X25: [_daily_maintenance] keeps the fingerprints of the last 30 days
    and [_weekly_cleanup] those of the last 60 days, and nothing else;
    after [_weekly_cleanup] the count of runs is at most 5000, no counter
    has grown, and the recorded errors are as they were. *)
Theorem maintenance_keeps_the_recent w d s :
  reachable sha256 md5 ratio d →
  let daily := Stages._daily_maintenance w d s in
  let weekly := Stages._weekly_cleanup w d s in
  dict_values (fingerprints daily.1)
  = filter (recent (cutoff_of w 30)) (dict_values (fingerprints d))
  ∧ dict_values (fingerprints weekly.1)
    = filter (recent (cutoff_of w 60)) (dict_values (fingerprints d))
  ∧ Schedule.total_runs (Schedule.stats weekly.2) ≤ 5000
  ∧ Schedule.total_runs (Schedule.stats weekly.2)
    ≤ Schedule.total_runs (Schedule.stats s)
  ∧ Schedule.successful_posts (Schedule.stats weekly.2)
    ≤ Schedule.successful_posts (Schedule.stats s)
  ∧ Schedule.failed_posts (Schedule.stats weekly.2)
    ≤ Schedule.failed_posts (Schedule.stats s)
  ∧ Schedule.errors (Schedule.stats weekly.2)
    = Schedule.errors (Schedule.stats s).
Proof.
  intros Hr daily weekly.
  destruct (cleanup_old_fingerprints_spec sha256 md5 ratio w 30 d Hr)
    as [H30 _].
  destruct (cleanup_old_fingerprints_spec sha256 md5 ratio w 60 d Hr)
    as [H60 _].
  split; [exact H30|]. split; [exact H60|].
  subst weekly. unfold Stages._weekly_cleanup. cbn [snd].
  destruct (Schedule.total_runs (Schedule.stats s) >? 5000) eqn:E; simpl;
    repeat split; try done; lia.
Qed.

End Maintenance.

(** *** Runs of the fetch layer *)

(** The flaky network: three requests and three seconds of pauses. *)
Lemma retries_are_bounded_witness :
  (requests
     (AsyncArticleFetcher.extract_single_article AsyncArticleFetcher.netloc
        Scenario.flaky Scenario.fresh "https://a.example/1").2 ≤ 4)%nat
  ∧ (slept
       (AsyncArticleFetcher.extract_single_article AsyncArticleFetcher.netloc
          Scenario.flaky Scenario.fresh "https://a.example/1").2 <= 3)%Q.
Proof.
  apply (retries_are_bounded AsyncArticleFetcher.netloc Scenario.flaky
           Scenario.fresh "https://a.example/1").
  simpl. lia.
Defined.

(** An article that is served at once. *)
Lemma fetched_article_shape_witness :
  (100 < len Scenario.one_long_word
   ∧ AsyncArticleFetcher.truthy "Title" = true
   ∧ ∃ resolved_url attempt,
       0 ≤ attempt < max_retries (AsyncArticleFetcher.config Scenario.fresh)
       ∧ AsyncArticleFetcher._extract_with_aiohttp
           (Scenario.serving "Title" Scenario.one_long_word)
           resolved_url attempt
         = Returned ("Title", Scenario.one_long_word))
  ∨ ("Title" = "Error: Extraction failed"
     ∧ ∃ domain,
         AsyncArticleFetcher.netloc "https://a.example/1" = Returned domain
         ∧ Scenario.one_long_word
           = placeholder domain "https://a.example/1").
Proof.
  apply (fetched_article_shape AsyncArticleFetcher.netloc
           (Scenario.serving "Title" Scenario.one_long_word) Scenario.fresh
           "https://a.example/1" "Title" Scenario.one_long_word).
  - reflexivity.
  - vm_compute. reflexivity.
Defined.

(** A browser that starts is started once. *)
Lemma get_driver_caches_witness :
  ∃ d,
    Some {| BrowserManager.browser := 1 |} = Some d
    ∧ BrowserManager.driver
        (BrowserManager.get_driver Cases.chrome_starts
           (BrowserManager.init default_config)).1.2 = Some d
    ∧ BrowserManager._is_initialized
        (BrowserManager.get_driver Cases.chrome_starts
           (BrowserManager.init default_config)).1.2 = true
    ∧ ([BrowserManager.EvChrome {| BrowserManager.browser := 1 |}] = []
       ∨ [BrowserManager.EvChrome {| BrowserManager.browser := 1 |}]
         = [BrowserManager.EvChrome d])
    ∧ ∀ w',
        BrowserManager.get_driver w'
          (BrowserManager.get_driver Cases.chrome_starts
             (BrowserManager.init default_config)).1.2
        = (Returned (Some d),
           (BrowserManager.get_driver Cases.chrome_starts
              (BrowserManager.init default_config)).1.2, []).
Proof.
  apply (get_driver_caches Cases.chrome_starts
           (BrowserManager.init default_config)
           (Some {| BrowserManager.browser := 1 |})
           (BrowserManager.get_driver Cases.chrome_starts
              (BrowserManager.init default_config)).1.2
           [BrowserManager.EvChrome {| BrowserManager.browser := 1 |}]).
  reflexivity.
Defined.

(** *** Runs of the stages *)

(** Of the three entries the article alone is kept. *)
Lemma process_extraction_results_spec_witness :
  ∃ x,
    Stages._process_extraction_results AsyncArticleFetcher.netloc 0
      Cases.entries = Returned x
    ∧ Stages.urls x = ["https://www.a.example/1"].
Proof.
  eexists. split; [vm_compute; reflexivity|].
  apply (proj1 (proj2 (process_extraction_results_spec
                         AsyncArticleFetcher.netloc 0 Cases.entries _
                         eq_refl))).
Defined.

(** A topic of a second run is not published. *)
Lemma nothing_is_published_after_a_run_witness :
  (Schedule._process_topic Scenario.second_fails Cases.later_topic
     (Title "four") Cases.after_a_run).1.1 ≠ Returned true
  ∧ (Schedule._process_topic Scenario.second_fails Cases.later_topic
       (Title "four") Cases.after_a_run).2 = [].
Proof.
  apply (nothing_is_published_after_a_run AsyncArticleFetcher.netloc
           Scenario.second_fails Scenario.scheduler0 Cases.later_topic
           Scenario.second_fails Cases.after_a_run (Title "four")).
  - reflexivity.
  - exists Cases.quick, ["https://a.example/1"]. reflexivity.
Defined.

(** The maintenance of the store with one post, a hundred days later. *)
Lemma maintenance_keeps_the_recent_witness :
  DedupEngine.dict_values
    (DedupEngine.fingerprints
       (Stages._daily_maintenance Cases.later Cases.store_with_post
          Scenario.scheduler0).1) = [].
Proof.
  apply (proj1 (maintenance_keeps_the_recent Scenario.plain_hash
                  Scenario.plain_hash Scenario.same_string Cases.later
                  Cases.store_with_post Scenario.scheduler0
                  (reachable_add_content _ _ _ _ _ _ _ _
                     (reachable_init _ _ _ _)))).
Defined.

(** The run of three topics, the second of which fails: two posts. *)
Lemma run_counts_witness :
  Schedule.total_runs (Schedule.stats Cases.after_a_run) = 1
  ∧ Schedule.last_run (Schedule.stats Cases.after_a_run) = Some 0%Q
  ∧ Schedule.successful_posts (Schedule.stats Cases.after_a_run)
    = 0 + Z.of_nat
            (posts (Schedule.blog_generation_task Scenario.second_fails
                      Scenario.scheduler0).2)
  ∧ (posts (Schedule.blog_generation_task Scenario.second_fails
              Scenario.scheduler0).2
     ≤ publications (Schedule.blog_generation_task Scenario.second_fails
                       Scenario.scheduler0).2)%nat.
Proof.
  apply (run_counts Scenario.second_fails Scenario.scheduler0).
  reflexivity.
Defined.

(** A run whose detector finds no topic starts with the method [title]
    of the first fallback topic. *)
Lemma a_run_has_a_topic_witness :
  ∃ first others rest,
    Schedule._get_trending_topics Scenario.no_trends
    = Returned (first :: others)
    ∧ (∀ title titles,
         Schedule.get_trending_topics Scenario.no_trends
         = Returned (title :: titles) →
         first :: others = Schedule.TrendingTopic <$> title :: titles
         ∧ Schedule.topic_title first = Title title)
    ∧ (Schedule.get_trending_topics Scenario.no_trends = Returned [] →
       first :: others
       = Schedule.FallbackTopic <$> take 5 Schedule.FALLBACK_TOPICS
       ∧ Schedule.topic_title first
         = title_method "Artificial Intelligence breakthroughs"
       ∧ ∀ tw s',
           let done :=
             Schedule._process_topic Scenario.no_trends tw
               (Schedule.topic_title first) s' in
           done.1.1 = Returned false
           ∧ done.2 = []
           ∧ length (Schedule.errors (Schedule.stats done.1.2))
             = S (length (Schedule.errors (Schedule.stats s'))))
    ∧ (Schedule.blog_generation_task Scenario.no_trends
         Scenario.scheduler0).2
      = EvTopicStart 0 (Schedule.topic_title first) :: rest.
Proof.
  apply (a_run_has_a_topic Scenario.no_trends Scenario.scheduler0);
    reflexivity.
Defined.

(** The run whose detector finds no topic: each of the five fallback
    topics is named by a method, fails at its first stage and goes on
    record; nothing is published. *)
Example fallback_run :
  topics_started
    (Schedule.blog_generation_task Scenario.no_trends Scenario.scheduler0).2
  = imap pair (title_method <$> take 5 Schedule.FALLBACK_TOPICS)
  ∧ publications
      (Schedule.blog_generation_task Scenario.no_trends
         Scenario.scheduler0).2 = 0%nat
  ∧ Schedule.successful_posts
      (Schedule.stats
         (Schedule.blog_generation_task Scenario.no_trends
            Scenario.scheduler0).1.2) = 0
  ∧ Schedule.failed_posts
      (Schedule.stats
         (Schedule.blog_generation_task Scenario.no_trends
            Scenario.scheduler0).1.2) = 5
  ∧ Schedule.error
    <$> Schedule.errors
          (Schedule.stats
             (Schedule.blog_generation_task Scenario.no_trends
                Scenario.scheduler0).1.2)
    = replicate 5
        "'builtin_function_or_method' object has no attribute 'lower'".
Proof. repeat split; reflexivity. Qed.
